(** * Bank_Aplication_UCB: the account and ledger core of [bank.py]

    A shallow embedding of the classes [Account], [SavingsAccount],
    [CheckingAccount] and [Bank] of [src/bank.py], and the properties of
    the specification checked against it.

    Modelling conventions.
    - An amount or a balance is a Python [float]: an IEEE 754 binary64
      number, here the primitive floats of Rocq with their own addition,
      subtraction and comparisons, so that rounding, the infinities and
      [nan] are those of the program.  These are the numbers the menu reads
      with [float(input(...))] and the snapshot holds.
    - The [int]s the code mixes with them (the ceiling [100], the [0] taken
      for an absent balance and the [0] the statement starts from) enter a
      comparison, a sum or a [:.2f] format as the float of the same value,
      which is what Python does there; [str] on an [int] is kept apart from
      [str] on a [float].
    - A transaction [dict] and a serialized account [dict] are records with
      one optional field per key; [None] is an absent key (or, for the
      nullable string fields, a [null]).
    - A method that mutates [self] returns the new object; [print] is
      modelled by a list of output events; an exception is a [Raise].
    - [datetime.now()] is an argument [now], already formatted.
    - The builtins [str] / [format] on numbers and [float] on strings are
      parameters of the development (the class [PyBuiltins]). *)

From Stdlib Require Import ZArith Floats Ascii String List.
From stdpp Require Import base decidable option numbers list strings gmap.

Local Open Scope string_scope.
Local Open Scope list_scope.
Local Open Scope float_scope.

(** ** Numbers *)

(** A Python [float]. *)
Abbreviation float64 := PrimFloat.float.

(** [x < y] and [x <= y] of Python on floats, as propositions: each is
    false as soon as one side is [nan]. *)
Definition float_lt (x y : float64) : Prop := (x <? y) = true.
Definition float_le (x y : float64) : Prop := (x <=? y) = true.

Notation "x < y" := (float_lt x y) : float_scope.
Notation "x ≤ y" := (float_le x y) : float_scope.

(** What [Prim2SF] shows of a float that is not below zero: [nan], a zero,
    or a float with the sign bit clear. *)
Definition sign_clear (x : spec_float) : Prop :=
  match x with
  | S754_infinity true | S754_finite true _ _ => False
  | _ => True
  end.

(** An [int] of the code where Python converts it to a float; it is only
    applied to integers from [0] to [2^53], which are floats themselves. *)
Definition float_of_int (n : Z) : float64 := of_uint63 (Uint63.of_Z n).

(** ** Exceptions and results *)

Inductive exn :=
  | NotImplementedError (msg : string)
  | UnboundLocalError (var : string)
  | IndexError
  | KeyError (key : string)
  | ValueError.

Inductive res (A : Type) :=
  | Ok (a : A)
  | Raise (e : exn).
Arguments Ok {A} a.
Arguments Raise {A} e.

Global Instance res_ret : MRet res := λ A a, Ok a.

Global Instance res_bind : MBind res := λ A B k r,
  match r with
  | Ok a => k a
  | Raise e => Raise e
  end.

(** ** Output events of the program *)

Inductive event :=
  | Print (line : string)
  | Tabulate (rows : list (list string)) (headers : list string).

(** ** Data *)

(** A ledger entry: the [dict] built by [create_timestamped_entry], or read
    back from the snapshot (possibly in the legacy shape, with [details]
    only). *)
Record transaction := {
  tx_timestamp : option string;
  tx_action : option string;
  tx_amount : option float64;
  tx_running_balance : option float64;
  tx_details : option string;
}.

(** The Python class of an account object. *)
Inductive account_class := AccountBase | SavingsAccount | CheckingAccount.

Global Instance account_class_eq_dec : EqDecision account_class.
Proof. solve_decision. Defined.

Record account := {
  cls : account_class;
  _name : option string;
  _account_number : option string;
  _email : option string;
  _balance : float64;
  _account_type : string;
  _street_address : option string;
  _postal_code : option string;
  _city : option string;
  _country : option string;
  _transactions : list transaction;
}.

Definition set_balance (self : account) (b : float64) : account :=
  {| cls := cls self; _name := _name self;
     _account_number := _account_number self; _email := _email self;
     _balance := b; _account_type := _account_type self;
     _street_address := _street_address self;
     _postal_code := _postal_code self; _city := _city self;
     _country := _country self; _transactions := _transactions self |}.

Definition set_transactions (self : account) (l : list transaction) : account :=
  {| cls := cls self; _name := _name self;
     _account_number := _account_number self; _email := _email self;
     _balance := _balance self; _account_type := _account_type self;
     _street_address := _street_address self;
     _postal_code := _postal_code self; _city := _city self;
     _country := _country self; _transactions := l |}.

(** [self._transactions.append(e)] *)
Definition append_transaction (self : account) (e : transaction) : account :=
  set_transactions self (_transactions self ++ [e]).

Definition WITHDRAWAL_LIMIT : Z := 100.

(** The builtins of Python the code calls on numbers and strings. *)
Class PyBuiltins := {
  (** [f"{x}"], that is [str(x)], on a float *)
  str_num : float64 → string;
  (** [f"{n}"], that is [str(n)], on an int *)
  str_int : Z → string;
  (** [f"{x:.2f}"] on a float *)
  format_2f : float64 → string;
  (** [float(s)] on a string, [nan] and the infinities included; [None] is
      a [ValueError] *)
  float : string → option float64;
}.

Section Core.

Context `{PyBuiltins}.

(** ** [Account] *)

Definition create_timestamped_entry (now : string) (action : string)
    (amount running_balance : float64) : transaction :=
  {| tx_timestamp := Some now;
     tx_action := Some action;
     tx_amount := Some amount;
     tx_running_balance := Some running_balance;
     tx_details := Some (action +:+ ": $" +:+ str_num amount) |}.

(** [Account.__init__]; [c] is the class being instantiated. *)
Definition Account_init (c : account_class) (now : string)
    (name account_number email : option string) (initial_balance : float64)
    (account_type : string)
    (street_address postal_code city country : option string) : account :=
  {| cls := c; _name := name; _account_number := account_number;
     _email := email; _balance := initial_balance;
     _account_type := account_type;
     _street_address := street_address; _postal_code := postal_code;
     _city := city; _country := country;
     _transactions :=
       ([] ++ [create_timestamped_entry now "Account created with balance"
                 initial_balance initial_balance]) |}.

Definition deposit (self : account) (now : string) (amount : float64)
    : bool * account * list event :=
  if 0 <? amount then
    let self1 := set_balance self (_balance self + amount) in
    let self2 := append_transaction self1
      (create_timestamped_entry now "Deposit" amount (_balance self1)) in
    (true, self2, [Print ("Successfully deposited $" +:+ str_num amount)])
  else
    (false, self,
     [Print "Invalid deposit amount. Please enter a positive number."]).

Definition Account_withdraw (self : account) (now : string) (amount : float64)
    : res (bool * account * list event) :=
  Raise (NotImplementedError
    "Withdraw method must be implemented by specific account types").

(** ** [SavingsAccount] *)

Definition SavingsAccount_init (now : string)
    (name account_number email : option string) (initial_balance : float64)
    (street_address postal_code city country : option string) : account :=
  Account_init SavingsAccount now name account_number email initial_balance
    "Savings" street_address postal_code city country.

(** The entry both [withdraw] overrides append. *)
Definition withdrawal_entry (now : string) (amount running_balance : float64)
    : transaction :=
  {| tx_timestamp := Some now;
     tx_action := Some "Withdrawal";
     tx_amount := Some amount;
     tx_running_balance := Some running_balance;
     tx_details := Some ("Withdrawal: $" +:+ str_num amount) |}.

Definition SavingsAccount_withdraw (self : account) (now : string)
    (amount : float64) : bool * account * list event :=
  if float_of_int WITHDRAWAL_LIMIT <? amount then
    (false, self,
     [Print ("Withdrawal limit exceeded! The maximum you can withdraw is $"
             +:+ str_int WITHDRAWAL_LIMIT +:+ ".")])
  else if (0 <? amount) && (amount <=? _balance self) then
    let self1 := set_balance self (_balance self - amount) in
    let self2 := append_transaction self1
      (withdrawal_entry now amount (_balance self1)) in
    (true, self2,
     [Print ("Successfully withdrew $" +:+ str_num amount
             +:+ " from Savings Account.")])
  else
    (false, self,
     [Print "Invalid withdrawal amount or insufficient funds in Savings Account."]).

(** ** [CheckingAccount] *)

Definition CheckingAccount_init (now : string)
    (name account_number email : option string) (initial_balance : float64)
    (street_address postal_code city country : option string) : account :=
  Account_init CheckingAccount now name account_number email initial_balance
    "Checking" street_address postal_code city country.

Definition CheckingAccount_withdraw (self : account) (now : string)
    (amount : float64) : bool * account * list event :=
  if (0 <? amount) && (amount <=? _balance self) then
    let self1 := set_balance self (_balance self - amount) in
    let self2 := append_transaction self1
      (withdrawal_entry now amount (_balance self1)) in
    (true, self2,
     [Print ("Successfully withdrew $" +:+ str_num amount
             +:+ " from Checking Account.")])
  else
    (false, self,
     [Print "Invalid withdrawal amount or insufficient funds in Checking Account."]).

(** [account.withdraw(amount)]: dispatch on the class of the object. *)
Definition withdraw (self : account) (now : string) (amount : float64)
    : res (bool * account * list event) :=
  match cls self with
  | AccountBase => Account_withdraw self now amount
  | SavingsAccount => Ok (SavingsAccount_withdraw self now amount)
  | CheckingAccount => Ok (CheckingAccount_withdraw self now amount)
  end.

(** ** Strings *)

(** [needle in hay] on [str] *)
Fixpoint contains (needle hay : string) : bool :=
  String.prefix needle hay ||
  match hay with
  | EmptyString => false
  | String _ rest => contains needle rest
  end.

(** [s.split(sep)] for a separator of one character *)
Fixpoint str_split (sep : ascii) (s : string) : list string :=
  match s with
  | EmptyString => [EmptyString]
  | String c rest =>
      if bool_decide (c = sep) then EmptyString :: str_split sep rest
      else match str_split sep rest with
           | piece :: pieces => String c piece :: pieces
           | [] => [String c EmptyString]
           end
  end.

(** [s.replace(c, '')] for one character [c] *)
Fixpoint remove_char (c : ascii) (s : string) : string :=
  match s with
  | EmptyString => EmptyString
  | String d rest =>
      if bool_decide (d = c) then remove_char c rest
      else String d (remove_char c rest)
  end.

(** [c * n] *)
Fixpoint repeat_char (c : ascii) (n : nat) : string :=
  match n with
  | O => EmptyString
  | S n' => String c (repeat_char c n')
  end.

Definition newline : string := String (ascii_of_nat 10) EmptyString.

(** [f"{x}"] on a string attribute that may hold [None] *)
Definition str_opt (o : option string) : string := default "None" o.

(** ** [Account.show_transaction_history] *)

(** The locals of the loop over [self._transactions]; [None] is a local that
    has not been assigned yet. *)
Record history_locals := {
  running_balance : float64;
  action : option string;
  amount : option float64;
  rows : list (list string);
}.

(** [float(details.split('$')[1])] *)
Definition amount_of_details (details : string) : res float64 :=
  match str_split "$" details !! 1%nat with
  | None => Raise IndexError
  | Some piece =>
      match float piece with
      | None => Raise ValueError
      | Some x => Ok x
      end
  end.

(** The branch taken for an entry without an ['action'] key (lines 172-184):
    the action, the amount and the running balance it assigns, or [None] when
    no branch of the [if]/[elif] chain is taken and the locals keep the
    values they had. *)
Definition reconcile_legacy (details : string) (carried_balance : float64)
    : res (option (string * float64 * float64)) :=
  if contains "Account created with balance" details then
    amount ← amount_of_details details;
    Ok (Some ("Account created", amount, amount))
  else if contains "Deposited" details then
    amount ← amount_of_details details;
    Ok (Some ("Deposit", amount, carried_balance + amount))
  else if contains "Withdrew" details then
    amount ← amount_of_details details;
    Ok (Some ("Withdrawal", amount, carried_balance - amount))
  else Ok None.

(** Reading a local variable. *)
Definition read_local {A} (var : string) (o : option A) : res A :=
  match o with
  | Some a => Ok a
  | None => Raise (UnboundLocalError var)
  end.

(** One iteration of [for trans in self._transactions]. *)
Definition history_step (v : history_locals) (trans : transaction)
    : res history_locals :=
  let timestamp := default "" (tx_timestamp trans) in
  v1 ← match tx_action trans with
       | None =>
           let details := default "" (tx_details trans) in
           r ← reconcile_legacy details (running_balance v);
           match r with
           | Some (act, amt, bal) =>
               Ok {| running_balance := bal; action := Some act;
                     amount := Some amt; rows := rows v |}
           | None => Ok v
           end
       | Some act =>
           match tx_amount trans with
           | None => Raise (KeyError "amount")
           | Some amt =>
               Ok {| running_balance :=
                       default (running_balance v) (tx_running_balance trans);
                     action := Some act; amount := Some amt;
                     rows := rows v |}
           end
       end;
  act ← read_local "action" (action v1);
  amt ← read_local "amount" (amount v1);
  let amount_str :=
    if contains "Withdrawal" act then "-$" +:+ format_2f amt
    else "$" +:+ format_2f amt in
  Ok {| running_balance := running_balance v1; action := action v1;
        amount := amount v1;
        rows := (rows v1 ++ [[timestamp; act; amount_str;
                              "$" +:+ format_2f (running_balance v1)]]) |}.

Fixpoint history_loop (v : history_locals) (l : list transaction)
    : res history_locals :=
  match l with
  | [] => Ok v
  | trans :: l' => v' ← history_step v trans; history_loop v' l'
  end.

Definition history_header (self : account) : list event :=
  [ Print (newline +:+ repeat_char "=" 50);
    Print "Account Statement";
    Print (repeat_char "=" 50);
    Print ("Account Number: " +:+ str_opt (_account_number self));
    Print ("Account Holder: " +:+ str_opt (_name self));
    Print ("Account Type: " +:+ _account_type self);
    Print ("Current Balance: $" +:+ format_2f (_balance self));
    Print (repeat_char "=" 50 +:+ newline) ].

Definition history_headers : list string :=
  ["Date & Time"; "Transaction"; "Amount"; "Balance"].

(** The events printed, and the exception that ended the call if any. *)
Definition show_transaction_history (self : account)
    : list event * option exn :=
  match _transactions self with
  | [] => ([Print (newline +:+ "No transactions to display.")], None)
  | _ =>
      match history_loop {| running_balance := 0; action := None;
                            amount := None; rows := [] |}
                         (_transactions self) with
      | Raise e => (history_header self, Some e)
      | Ok v =>
          let table := [Tabulate (rows v) history_headers;
                        Print (newline +:+ "Statement Summary:")] in
          match rows v !! 0%nat ≫= (λ row, row !! 3%nat) with
          | None => (history_header self ++ table, Some IndexError)
          | Some cell =>
              match float (remove_char "$" cell) with
              | None => (history_header self ++ table, Some ValueError)
              | Some opening =>
                  (history_header self ++ table ++
                    [ Print ("Opening Balance: $" +:+ format_2f opening);
                      Print ("Closing Balance: $" +:+ format_2f (_balance self));
                      Print ("Total Transactions: " +:+
                             str_int
                               (Z.of_nat (length (_transactions self)) - 1)%Z);
                      Print (repeat_char "=" 50) ],
                   None)
              end
          end
      end
  end.

(** ** Serialization *)

(** The [dict] of [to_dict], and of the snapshot. *)
Record account_record := {
  r_name : option string;
  r_account_number : option string;
  r_email : option string;
  r_balance : option float64;
  r_account_type : option string;
  r_street_address : option string;
  r_postal_code : option string;
  r_city : option string;
  r_country : option string;
  r_transactions : option (list transaction);
}.

Definition to_dict (self : account) : account_record :=
  {| r_name := _name self;
     r_account_number := _account_number self;
     r_email := _email self;
     r_balance := Some (_balance self);
     r_account_type := Some (_account_type self);
     r_street_address := _street_address self;
     r_postal_code := _postal_code self;
     r_city := _city self;
     r_country := _country self;
     r_transactions := Some (_transactions self) |}.

Definition SavingsAccount_from_dict (now : string) (data : account_record)
    : account :=
  let account := SavingsAccount_init now
    (r_name data) (r_account_number data) (r_email data)
    (default 0 (r_balance data))
    (r_street_address data) (r_postal_code data) (r_city data)
    (r_country data) in
  set_transactions account (default [] (r_transactions data)).

Definition CheckingAccount_from_dict (now : string) (data : account_record)
    : account :=
  let account := CheckingAccount_init now
    (r_name data) (r_account_number data) (r_email data)
    (default 0 (r_balance data))
    (r_street_address data) (r_postal_code data) (r_city data)
    (r_country data) in
  set_transactions account (default [] (r_transactions data)).

Definition Account_from_dict (now : string) (data : account_record)
    : account :=
  if bool_decide (r_account_type data = Some "Savings") then
    SavingsAccount_from_dict now data
  else if bool_decide (r_account_type data = Some "Checking") then
    CheckingAccount_from_dict now data
  else
    let account := Account_init AccountBase now
      (r_name data) (r_account_number data) (r_email data)
      (default 0 (r_balance data))
      (default "Savings" (r_account_type data))
      (r_street_address data) (r_postal_code data) (r_city data)
      (r_country data) in
    set_transactions account (default [] (r_transactions data)).

End Core.

(** ** The address pattern of [create_account] *)

(** Regular expressions over characters, matched by derivatives. *)
Inductive regex :=
  | Void
  | Eps
  | Chars (p : ascii → bool)
  | Cat (r s : regex)
  | Alt (r s : regex)
  | Star (r : regex).

Fixpoint nullable (r : regex) : bool :=
  match r with
  | Void => false
  | Eps => true
  | Chars _ => false
  | Cat r s => nullable r && nullable s
  | Alt r s => nullable r || nullable s
  | Star _ => true
  end.

Fixpoint deriv (c : ascii) (r : regex) : regex :=
  match r with
  | Void => Void
  | Eps => Void
  | Chars p => if p c then Eps else Void
  | Cat r s =>
      if nullable r then Alt (Cat (deriv c r) s) (deriv c s)
      else Cat (deriv c r) s
  | Alt r s => Alt (deriv c r) (deriv c s)
  | Star r => Cat (deriv c r) (Star r)
  end.

(** The whole of [s] matches [r]. *)
Fixpoint full_match (r : regex) (s : string) : bool :=
  match s with
  | EmptyString => nullable r
  | String c rest => full_match (deriv c r) rest
  end.

Definition Plus (r : regex) : regex := Cat r (Star r).

Definition Char (c : ascii) : regex := Chars (λ d, bool_decide (d = c)).

Definition in_range (lo hi c : ascii) : bool :=
  (N_of_ascii lo <=? N_of_ascii c)%N && (N_of_ascii c <=? N_of_ascii hi)%N.

(** [a-zA-Z0-9] *)
Definition alnum (c : ascii) : bool :=
  in_range "a" "z" c || in_range "A" "Z" c || in_range "0" "9" c.

(** [[a-zA-Z0-9_.+-]] *)
Definition local_part_char (c : ascii) : bool :=
  alnum c || bool_decide (c = "_"%char) || bool_decide (c = "."%char)
  || bool_decide (c = "+"%char) || bool_decide (c = "-"%char).

(** [[a-zA-Z0-9-]] *)
Definition domain_char (c : ascii) : bool :=
  alnum c || bool_decide (c = "-"%char).

(** [[a-zA-Z0-9-.]] *)
Definition tld_char (c : ascii) : bool :=
  alnum c || bool_decide (c = "-"%char) || bool_decide (c = "."%char).

(** [$]: the end of the string, or just before a newline that ends it. *)
Definition Dollar : regex := Alt Eps (Char (ascii_of_nat 10)).

(** [(^[a-zA-Z0-9_.+-]+@[a-zA-Z0-9-]+\.[a-zA-Z0-9-.]+$)] *)
Definition email_pattern : regex :=
  Cat (Plus (Chars local_part_char))
   (Cat (Char "@")
     (Cat (Plus (Chars domain_char))
       (Cat (Char ".")
         (Cat (Plus (Chars tld_char)) Dollar)))).

(** [re.match(email_pattern, email)], as a truth value; the pattern is
    anchored at both ends. *)
Definition re_match_email (email : string) : bool :=
  full_match email_pattern email.

(** ** [Bank] *)

(** The store: the accounts in memory and the snapshot file
    [bank_data.json] ([None] when the file does not exist). *)
Record bank := {
  accounts : gmap string account;
  bank_data_json : option (gmap string account_record);
}.

Inductive bank_event :=
  | Out (e : event)
  | SendMail (recipient name account_number : string) (balance : float64).

Section Store.

Context `{PyBuiltins}.

Definition save_data (self : bank) : bank * list bank_event :=
  let data := to_dict <$> accounts self in
  ({| accounts := accounts self; bank_data_json := Some data |},
   [Out (Print "Data saved successfully!")]).

(** [generate_account_number], over the successive results [draws] of
    [str(random.randint(1000000000, 9999999999))]; [None] when every draw
    collides, that is, the loop has not returned yet. *)
Fixpoint generate_account_number (self : bank) (draws : list string)
    : option string :=
  match draws with
  | [] => None
  | account_number :: draws' =>
      if bool_decide (accounts self !! account_number = None)
      then Some account_number
      else generate_account_number self draws'
  end.

(** [send_account_details]; [smtp_error] is the exception of the SMTP
    session, if it raises one. *)
Definition send_account_details (smtp_error : option string)
    (email name account_number : string) (balance : float64)
    : list bank_event :=
  match smtp_error with
  | None =>
      [SendMail email name account_number balance;
       Out (Print ("Account details email sent to " +:+ email +:+ "."))]
  | Some e => [Out (Print ("Failed to send email. Error: " +:+ e))]
  end.

(** The values of [acc.to_dict()["email"] for acc in self.accounts.values()] *)
Definition existing_emails (self : bank) : list (option string) :=
  (λ acc, r_email (to_dict acc)) <$> (map_to_list (accounts self)).*2.

Definition create_account (self : bank) (draws : list string)
    (smtp_error : option string) (now : string)
    (name email account_type : string) (initial_balance : float64)
    (street_address postal_code city country : option string)
    : option (bank * list bank_event) :=
  if negb (re_match_email email) then
    Some (self, [Out (Print "Error: Invalid email format.")])
  else if bool_decide (Some email ∈ existing_emails self) then
    Some (self,
          [Out (Print "Error: An account with this email already exists!")])
  else if bool_decide (name = "") || bool_decide (email = "") then
    Some (self, [Out (Print "Error: Name and email cannot be empty!")])
  else if initial_balance <? 0 then
    Some (self, [Out (Print "Error: Initial balance cannot be negative.")])
  else if bool_decide (account_type ∉ ["Checking"; "Savings"]) then
    Some (self,
          [Out (Print
            "Error: Account type must be either 'Checking' or 'Savings'.")])
  else
    account_number ← generate_account_number self draws;
    let new_account :=
      if bool_decide (account_type = "Checking") then
        CheckingAccount_init now (Some name) (Some account_number)
          (Some email) initial_balance street_address postal_code city country
      else
        SavingsAccount_init now (Some name) (Some account_number)
          (Some email) initial_balance street_address postal_code city
          country in
    let self1 :=
      {| accounts := <[account_number := new_account]> (accounts self);
         bank_data_json := bank_data_json self |} in
    let '(self2, saved) := save_data self1 in
    Some (self2,
          saved ++
          [Out (Print ("Account created for " +:+ name +:+
                       " with account number " +:+ account_number +:+
                       " as a " +:+ account_type +:+ " account."))] ++
          send_account_details smtp_error email name account_number
            initial_balance).

Definition get_account (self : bank) (account_number : string)
    : option account :=
  accounts self !! account_number.

End Store.

(** ** The validation of [create_account], as the specification words it *)

Inductive check :=
  | EmailSyntax
  | EmailUnique
  | NameAndEmailNonEmpty
  | BalanceNonNegative
  | KindKnown.

(** The order in which the specification lists the checks. *)
Definition validation_order : list check :=
  [EmailSyntax; EmailUnique; NameAndEmailNonEmpty; BalanceNonNegative;
   KindKnown].

Section Validation.

Context `{PyBuiltins}.

Definition passes (self : bank) (name email account_type : string)
    (initial_balance : float64) (c : check) : bool :=
  match c with
  | EmailSyntax => re_match_email email
  | EmailUnique => bool_decide (Some email ∉ existing_emails self)
  | NameAndEmailNonEmpty =>
      bool_decide (name ≠ "") && bool_decide (email ≠ "")
  | BalanceNonNegative => 0 <=? initial_balance
  | KindKnown => bool_decide (account_type ∈ ["Savings"; "Checking"])
  end.

(** The checks as [create_account] tests them: the same ones, but for the
    balance, which the code refuses when [initial_balance < 0] holds.  A
    [nan] is not below [0], and it is not at least [0] either. *)
Definition tested (self : bank) (name email account_type : string)
    (initial_balance : float64) (c : check) : bool :=
  match c with
  | BalanceNonNegative => negb (initial_balance <? 0)
  | _ => passes self name email account_type initial_balance c
  end.

End Validation.

(** What the caller is told when a check fails. *)
Definition failure_report (c : check) : string :=
  match c with
  | EmailSyntax => "Error: Invalid email format."
  | EmailUnique => "Error: An account with this email already exists!"
  | NameAndEmailNonEmpty => "Error: Name and email cannot be empty!"
  | BalanceNonNegative => "Error: Initial balance cannot be negative."
  | KindKnown => "Error: Account type must be either 'Checking' or 'Savings'."
  end.

(** ** Sequences of calls on one account *)

Section Calls.

Context `{PyBuiltins}.

(** [reachable a a']: [a'] is the state of the object [a] after some
    sequence of [deposit] and [withdraw] calls that returned [True]. *)
Inductive reachable (a : account) : account → Prop :=
  | reach_refl : reachable a a
  | reach_deposit a1 a2 now amount out :
      reachable a a1 →
      deposit a1 now amount = (true, a2, out) →
      reachable a a2
  | reach_withdraw a1 a2 now amount out :
      reachable a a1 →
      withdraw a1 now amount = Ok (true, a2, out) →
      reachable a a2.

(** The balance is the running balance of the last entry of the log. *)
Definition balance_matches_log (a : account) : Prop :=
  tx_running_balance <$> last (_transactions a) = Some (Some (_balance a)).

(** The entry [__init__] puts first in the log. *)
Definition creation_entry (now : string) (initial_balance : float64)
    : transaction :=
  create_timestamped_entry now "Account created with balance"
    initial_balance initial_balance.

(** The invariant of a ledger opened by [creation]. *)
Definition ledger_invariant (creation : transaction) (a : account) : Prop :=
  balance_matches_log a ∧ head (_transactions a) = Some creation.

End Calls.

(** ** An instance of the builtins, to evaluate the definitions *)

Definition digit_value (c : ascii) : option Z :=
  if in_range "0" "9" c then Some (Z.of_N (N_of_ascii c) - 48)%Z else None.

Fixpoint digits_value (acc : Z) (s : string) : option Z :=
  match s with
  | EmptyString => Some acc
  | String c rest => d ← digit_value c; digits_value (10 * acc + d)%Z rest
  end.

(** [float] on ["nan"], on ["inf"], and on the unsigned decimal numerals
    [digits], [digits.digits], [digits.] and [.digits] of at most 15 digits
    in all, where it agrees with Python's: such a numeral is the quotient
    of two integers that are floats, and the division rounds it to the
    nearest float as [float] does.  Every other string is rejected here
    (Python's [float] also reads signs, exponents, blanks around the
    numeral, underscores between digits, longer numerals and other
    spellings of the two special values). *)
Definition float_decimal (s : string) : option float64 :=
  if bool_decide (s = "nan") then Some nan
  else if bool_decide (s = "inf") then Some infinity
  else
    match str_split "." s with
    | [int_part] =>
        if bool_decide (int_part = "") then None
        else if bool_decide (15 < String.length int_part)%nat then None
        else n ← digits_value 0 int_part; Some (float_of_int n)
    | [int_part; frac_part] =>
        if bool_decide (int_part = "") && bool_decide (frac_part = "")
        then None
        else if bool_decide
                  (15 < String.length int_part + String.length frac_part)%nat
        then None
        else
          n ← digits_value 0 (int_part +:+ frac_part);
          Some (float_of_int n /
                float_of_int (10 ^ Z.of_nat (String.length frac_part)))
    | _ => None
    end.

Fixpoint show_digits (fuel : nat) (n : Z) (acc : string) : string :=
  match fuel with
  | O => acc
  | S fuel' =>
      let acc' := String (ascii_of_N (Z.to_N (48 + n mod 10)%Z)) acc in
      if bool_decide (n < 10)%Z then acc' else show_digits fuel' (n / 10)%Z acc'
  end.

(** A non-negative integer in decimal. *)
Definition show_Z (n : Z) : string :=
  show_digits (S (Z.to_nat (Z.log2 n))) n "".

(** [str(n)] on an int. *)
Definition show_int (n : Z) : string :=
  if bool_decide (n < 0)%Z then "-" +:+ show_Z (- n) else show_Z n.

Definition sign_text (negative : bool) : string :=
  if negative then "-" else "".

(** [m * 2^e] rounded to the nearest integer, a tie to the even one. *)
Definition round_half_even (m e : Z) : Z :=
  if bool_decide (0 ≤ e)%Z then (m * 2 ^ e)%Z
  else
    let d := (2 ^ (- e))%Z in
    let q := (m / d)%Z in
    let r := (m mod d)%Z in
    if bool_decide (d < 2 * r)%Z || (bool_decide (d = 2 * r)%Z && Z.odd q)
    then (q + 1)%Z else q.

(** The hundredths of a finite float [m * 2^e], rounded as [:.2f] rounds
    the exact value of the float. *)
Definition cents_of (m : positive) (e : Z) : Z :=
  round_half_even (Zpos m * 100) e.

(** [f"{x:.2f}"] on a float. *)
Definition format_cents (x : float64) : string :=
  match Prim2SF x with
  | S754_nan => "nan"
  | S754_infinity s => sign_text s +:+ "inf"
  | S754_zero s => sign_text s +:+ "0.00"
  | S754_finite s m e =>
      let cents := cents_of m e in
      sign_text s +:+ show_Z (cents / 100)%Z +:+ "." +:+
      show_Z ((cents / 10) mod 10)%Z +:+ show_Z (cents mod 10)%Z
  end.

(** [str(x)] on [nan], the infinities, the zeros, and on a float below
    [10^15] that is the nearest one to a number of at most two decimals:
    Python prints the shortest numeral that reads back as [x], which is
    that number with at least one decimal.  On any other float this
    instance prints the rounding to two decimals, where Python prints more
    digits or an exponent. *)
Definition str_decimal (x : float64) : string :=
  match Prim2SF x with
  | S754_nan => "nan"
  | S754_infinity s => sign_text s +:+ "inf"
  | S754_zero s => sign_text s +:+ "0.0"
  | S754_finite s m e =>
      let cents := cents_of m e in
      sign_text s +:+ show_Z (cents / 100)%Z +:+ "." +:+
      show_Z ((cents / 10) mod 10)%Z +:+
      (if bool_decide (cents mod 10 = 0)%Z then ""
       else show_Z (cents mod 10)%Z)
  end.

Definition decimal_builtins : PyBuiltins :=
  {| str_num := str_decimal; str_int := show_int;
     format_2f := format_cents; float := float_decimal |}.

(** ** Sample objects *)

Module Sample.

Definition opened : string := "2024-01-01 10:00".
Definition later : string := "2024-01-02 09:30".

(** A Savings account opened with 500, and the same after a deposit of 200. *)
Definition savings_500 : account :=
  @SavingsAccount_init decimal_builtins opened (Some "Ann")
    (Some "1234567890") (Some "ann@example.org") 500
    None None None None.

Definition savings_700 : account :=
  (@deposit decimal_builtins savings_500 later 200).1.2.

(** A Checking account opened with 0. *)
Definition checking_0 : account :=
  @CheckingAccount_init decimal_builtins opened (Some "Bob")
    (Some "2345678901") (Some "bob@example.org") 0 None None None None.

(** An entry in the legacy shape whose text matches none of the patterns. *)
Definition interest_entry : transaction :=
  {| tx_timestamp := Some later; tx_action := None; tx_amount := None;
     tx_running_balance := None; tx_details := Some "Interest $5" |}.

Definition record_of (kind : option string) (balance : float64)
    (log : list transaction) : account_record :=
  {| r_name := Some "Ann"; r_account_number := Some "1234567890";
     r_email := Some "ann@example.org"; r_balance := Some balance;
     r_account_type := kind; r_street_address := None;
     r_postal_code := None; r_city := None; r_country := None;
     r_transactions := Some log |}.

(** A snapshot record whose log has an unrecognized legacy entry after the
    creation entry, and one whose log starts with it. *)
Definition record_with_interest : account_record :=
  record_of (Some "Savings") 505
    [@creation_entry decimal_builtins opened 500; interest_entry].

Definition record_interest_first : account_record :=
  record_of (Some "Savings") 5 [interest_entry].

(** Records without a kind, and with a kind that is not known. *)
Definition record_without_kind : account_record :=
  record_of None 500
    [@creation_entry decimal_builtins opened 500].

Definition record_business : account_record :=
  record_of (Some "Business") 500
    [@creation_entry decimal_builtins opened 500].

(** A record whose balance is not the running balance of its last entry. *)
Definition record_inconsistent : account_record :=
  record_of (Some "Checking") 999
    ([] ++ [@creation_entry decimal_builtins opened 500]).

Definition empty_bank : bank :=
  {| accounts := ∅; bank_data_json := None |}.

End Sample.

(** ** The life of an account: further invariants *)

(** [e] is a deposit or a withdrawal of a positive amount whose running
    balance continues the running balance of [prev]. *)
Definition entry_follows (prev e : transaction) : Prop :=
  ∃ p amt,
    tx_running_balance prev = Some p ∧ tx_amount e = Some amt ∧ 0 < amt ∧
    ((tx_action e = Some "Deposit" ∧ tx_running_balance e = Some (p + amt)) ∨
     (tx_action e = Some "Withdrawal" ∧
      tx_running_balance e = Some (p - amt))).

(** Every entry but the first continues the one before it. *)
Definition ledger_chained (l : list transaction) : Prop :=
  ∀ i prev e, l !! i = Some prev → l !! S i = Some e → entry_follows prev e.

(** The class of the object agrees with its kind label, the way
    [Account.from_dict] dispatches on the label. *)
Definition class_consistent (a : account) : Prop :=
  match cls a with
  | SavingsAccount => _account_type a = "Savings"
  | CheckingAccount => _account_type a = "Checking"
  | AccountBase =>
      _account_type a ≠ "Savings" ∧ _account_type a ≠ "Checking"
  end.

(** The two facts carried along [reachable] to chain the entries. *)
Definition chained_and_matching (a : account) : Prop :=
  ledger_chained (_transactions a) ∧ balance_matches_log a.

(** An entry in the structured shape: the three keys the statement reads
    are present. *)
Definition structured (e : transaction) : Prop :=
  is_Some (tx_action e) ∧ is_Some (tx_amount e) ∧
  is_Some (tx_running_balance e).

Section Statement.

Context `{PyBuiltins}.

(** The row [show_transaction_history] prints for a structured entry. *)
Definition statement_row (e : transaction) : list string :=
  let act := default "" (tx_action e) in
  let amt := default 0 (tx_amount e) in
  [ default "" (tx_timestamp e); act;
    if contains "Withdrawal" act then "-$" +:+ format_2f amt
    else "$" +:+ format_2f amt;
    "$" +:+ format_2f (default 0 (tx_running_balance e)) ].

End Statement.

(** ** Legacy logs *)

(** The branch of the [if]/[elif] chain a legacy description takes. *)
Inductive legacy_kind := LegacyCreated | LegacyDeposited | LegacyWithdrew.

Definition legacy_action (k : legacy_kind) : string :=
  match k with
  | LegacyCreated => "Account created"
  | LegacyDeposited => "Deposit"
  | LegacyWithdrew => "Withdrawal"
  end.

(** The running balance after a legacy entry of kind [k] and amount [amt]. *)
Definition replay_step (carried : float64) (k : legacy_kind)
    (amt : float64) : float64 :=
  match k with
  | LegacyCreated => amt
  | LegacyDeposited => carried + amt
  | LegacyWithdrew => carried - amt
  end.

(** The first pattern, in the order of the chain, that [details] contains. *)
Definition legacy_kind_of (details : string) : option legacy_kind :=
  if contains "Account created with balance" details then Some LegacyCreated
  else if contains "Deposited" details then Some LegacyDeposited
  else if contains "Withdrew" details then Some LegacyWithdrew
  else None.

Section LegacyReplay.

Context `{PyBuiltins}.

(** [e] is a legacy entry that the statement reads as kind [k] with amount
    [amt]. *)
Definition legacy_reads (e : transaction) (k : legacy_kind) (amt : float64)
    : Prop :=
  tx_action e = None ∧
  legacy_kind_of (default "" (tx_details e)) = Some k ∧
  amount_of_details (default "" (tx_details e)) = Ok amt.

(** The rows of a log of legacy entries, replayed from [carried]. *)
Fixpoint replay_rows (carried : float64)
    (l : list (transaction * legacy_kind * float64)) : list (list string) :=
  match l with
  | [] => []
  | (e, k, amt) :: l' =>
      let balance := replay_step carried k amt in
      [ default "" (tx_timestamp e); legacy_action k;
        match k with
        | LegacyWithdrew => "-$" +:+ format_2f amt
        | _ => "$" +:+ format_2f amt
        end;
        "$" +:+ format_2f balance ] :: replay_rows balance l'
  end.

(** The balance a replay ends on. *)
Fixpoint replay_balance (carried : float64)
    (l : list (transaction * legacy_kind * float64)) : float64 :=
  match l with
  | [] => carried
  | (_, k, amt) :: l' => replay_balance (replay_step carried k amt) l'
  end.

End LegacyReplay.

(** ** The store: loading, and the invariant on emails *)

(** What [load_data] finds on disk: no file, a file [json.load] cannot
    parse, or a parsed mapping. *)
Inductive snapshot_file :=
  | NoFile
  | Unparsable
  | Snapshot (data : gmap string account_record).

(** The file [save_data] leaves behind. *)
Definition file_of (self : bank) : snapshot_file :=
  match bank_data_json self with
  | None => NoFile
  | Some data => Snapshot data
  end.

(** No two accounts of the store hold the same email. *)
Definition emails_unique (self : bank) : Prop :=
  ∀ k1 k2 a1 a2 e,
    accounts self !! k1 = Some a1 → accounts self !! k2 = Some a2 →
    _email a1 = Some e → _email a2 = Some e → k1 = k2.

Section Loading.

Context `{PyBuiltins}.

(** [load_data]; [accounts0] is [self.accounts] before the call. *)
Definition load_data (now : string) (accounts0 : gmap string account)
    (file : snapshot_file) : gmap string account * list bank_event :=
  match file with
  | Snapshot data =>
      if bool_decide (data ≠ ∅) then
        (Account_from_dict now <$> data,
         [Out (Print "Data loaded successfully!")])
      else
        (accounts0,
         [Out (Print "The bank_data.json file is empty. Starting fresh.")])
  | Unparsable =>
      (∅, [Out (Print
             "Error reading the bank_data.json file. Starting fresh.")])
  | NoFile =>
      (∅, [Out (Print "No existing data found, starting fresh.")])
  end.

(** [Bank.__init__]: the accounts of the new object, and what is printed. *)
Definition Bank_init (now : string) (file : snapshot_file)
    : gmap string account * list bank_event :=
  load_data now ∅ file.

(** The account [create_account] constructs once the checks have passed. *)
Definition new_account_of (now name email account_type : string)
    (account_number : string) (initial_balance : float64)
    (street_address postal_code city country : option string) : account :=
  if bool_decide (account_type = "Checking") then
    CheckingAccount_init now (Some name) (Some account_number)
      (Some email) initial_balance street_address postal_code city country
  else
    SavingsAccount_init now (Some name) (Some account_number)
      (Some email) initial_balance street_address postal_code city country.

End Loading.

(** ** What the address pattern accepts *)

(** The strings a regular expression denotes. *)
Inductive matches : regex → string → Prop :=
  | matches_eps : matches Eps ""
  | matches_chars p c : p c = true → matches (Chars p) (String c "")
  | matches_cat r s u v w :
      matches r u → matches s v → w = u +:+ v → matches (Cat r s) w
  | matches_alt_l r s w : matches r w → matches (Alt r s) w
  | matches_alt_r r s w : matches s w → matches (Alt r s) w
  | matches_star_nil r : matches (Star r) ""
  | matches_star_cons r u v w :
      matches r u → matches (Star r) v → w = u +:+ v → matches (Star r) w.

(** Every character of [s] is in the class [p]. *)
Fixpoint all_chars (p : ascii → bool) (s : string) : bool :=
  match s with
  | EmptyString => true
  | String c rest => p c && all_chars p rest
  end.

(** [local@domain.tld], each part not empty and made of the characters of
    its class, possibly followed by one newline. *)
Definition email_shape (s : string) : Prop :=
  ∃ local domain tld ending,
    s = local +:+ "@" +:+ domain +:+ "." +:+ tld +:+ ending ∧
    (local ≠ "" ∧ all_chars local_part_char local = true) ∧
    (domain ≠ "" ∧ all_chars domain_char domain = true) ∧
    (tld ≠ "" ∧ all_chars tld_char tld = true) ∧
    (ending = "" ∨ ending = newline).

(** ** Interactive operations *)

(** [input()] is modelled by the list of the lines the user types; a
    function that needs a line when none is left returns [None]: the program
    is waiting at a prompt.  Characters are code points below 256. *)

Inductive io_event :=
  | Shown (e : bank_event)
  | Asked (prompt : string).

(** [c.isspace()] *)
Definition is_space (c : ascii) : bool :=
  let n := N_of_ascii c in
  ((9 <=? n) && (n <=? 13))%N || ((28 <=? n) && (n <=? 32))%N
  || (n =? 133)%N || (n =? 160)%N.

(** [s.lstrip()], [s.rstrip()] and [s.strip()] *)
Fixpoint lstrip (s : string) : string :=
  match s with
  | EmptyString => EmptyString
  | String c rest => if is_space c then lstrip rest else s
  end.

Fixpoint rstrip (s : string) : string :=
  match s with
  | EmptyString => EmptyString
  | String c rest =>
      match rstrip rest with
      | EmptyString => if is_space c then EmptyString else String c EmptyString
      | kept => String c kept
      end
  end.

Definition strip (s : string) : string := rstrip (lstrip s).

Definition set_name (self : account) (v : option string) : account :=
  {| cls := cls self; _name := v;
     _account_number := _account_number self; _email := _email self;
     _balance := _balance self; _account_type := _account_type self;
     _street_address := _street_address self;
     _postal_code := _postal_code self; _city := _city self;
     _country := _country self; _transactions := _transactions self |}.

Definition set_email (self : account) (v : option string) : account :=
  {| cls := cls self; _name := _name self;
     _account_number := _account_number self; _email := v;
     _balance := _balance self; _account_type := _account_type self;
     _street_address := _street_address self;
     _postal_code := _postal_code self; _city := _city self;
     _country := _country self; _transactions := _transactions self |}.

Definition set_address (self : account)
    (street postal city country : option string) : account :=
  {| cls := cls self; _name := _name self;
     _account_number := _account_number self; _email := _email self;
     _balance := _balance self; _account_type := _account_type self;
     _street_address := street; _postal_code := postal; _city := city;
     _country := country; _transactions := _transactions self |}.

(** [o] when the user gave a value that was kept, [old] otherwise. *)
Definition updated_with (o : option string) (old : option string)
    : option string :=
  match o with
  | Some v => Some v
  | None => old
  end.

Section Interactive.

Context `{PyBuiltins}.

(** The [while True] loop of [update_account_details] that asks for a new
    email (lines 458-475); [taken] are the emails of the other accounts.
    The result is the email to set, if any. *)
Fixpoint ask_new_email (taken : list (option string)) (inputs : list string)
    : option (option string * list string * list io_event) :=
  match inputs with
  | [] => None
  | line :: rest =>
      let asked := Asked "Enter new email (press Enter to keep current): " in
      let new_email := strip line in
      if bool_decide (new_email = "") then Some (None, rest, [asked])
      else if negb (re_match_email new_email) then
        '(kept, rest', shown) ← ask_new_email taken rest;
        Some (kept, rest',
              asked :: Shown (Out (Print
                "Invalid email format. Please try again.")) :: shown)
      else if bool_decide (Some new_email ∈ taken) then
        '(kept, rest', shown) ← ask_new_email taken rest;
        Some (kept, rest',
              asked :: Shown (Out (Print
                "This email is already associated with another account. Please use a different email."))
              :: shown)
      else Some (Some new_email, rest, [asked])
  end.

(** One of the four address blocks of [update_account_details] (lines
    478-504): the value to set, if the line is kept. *)
Definition ask_field (prompt too_short : string) (min_length : nat)
    (inputs : list string)
    : option (option string * list string * list io_event) :=
  match inputs with
  | [] => None
  | line :: rest =>
      let value := strip line in
      if bool_decide (value = "") then Some (None, rest, [Asked prompt])
      else if bool_decide (String.length value < min_length)%nat then
        Some (None, rest, [Asked prompt; Shown (Out (Print too_short))])
      else Some (Some value, rest, [Asked prompt])
  end.

Definition current_information (account : account) : list io_event :=
  let current_details := to_dict account in
  Shown <$> (Out <$>
    [ Print (newline +:+ "Update Account Details");
      Print "Current Information:";
      Print ("Name: " +:+ str_opt (r_name current_details));
      Print ("Email: " +:+ str_opt (r_email current_details));
      Print ("Street Address: " +:+
             str_opt (r_street_address current_details));
      Print ("Postal Code: " +:+ str_opt (r_postal_code current_details));
      Print ("City: " +:+ str_opt (r_city current_details));
      Print ("Country: " +:+ str_opt (r_country current_details)) ]).

(** The emails of the accounts other than the one stored under
    [account_number]. *)
Definition other_emails (self : bank) (account_number : string)
    : list (option string) :=
  existing_emails {| accounts := delete account_number (accounts self);
                     bank_data_json := bank_data_json self |}.

(** [Bank.update_account_details]: the store, the lines left, and what was
    shown. *)
Definition update_account_details (self : bank) (account_number : string)
    (inputs : list string) : option (bank * list string * list io_event) :=
  match get_account self account_number with
  | None => Some (self, inputs, [Shown (Out (Print "Account not found."))])
  | Some account =>
      match inputs with
      | [] => None
      | line :: inputs1 =>
          let new_name := strip line in
          let account1 :=
            if bool_decide (new_name = "") then account
            else set_name account (Some new_name) in
          '(new_email, inputs2, shown_e) ←
            ask_new_email (other_emails self account_number) inputs1;
          let account2 :=
            match new_email with
            | Some new_email => set_email account1 (Some new_email)
            | None => account1
            end in
          '(street, inputs3, shown_s) ← ask_field
                "Enter new street address (press Enter to keep current): "
                "Street address must be at least 5 characters long. Update cancelled."
                5 inputs2;
          '(postal, inputs4, shown_p) ← ask_field
                "Enter new postal code (press Enter to keep current): "
                "Postal code must be at least 3 characters long. Update cancelled."
                3 inputs3;
          '(city, inputs5, shown_c) ← ask_field
                "Enter new city (press Enter to keep current): "
                "City must be at least 3 characters long. Update cancelled."
                3 inputs4;
          '(country, inputs6, shown_k) ← ask_field
                "Enter new country (press Enter to keep current): "
                "Country must be at least 3 characters long. Update cancelled."
                3 inputs5;
          let account3 :=
            set_address account2
              (updated_with street (_street_address account2))
              (updated_with postal (_postal_code account2))
              (updated_with city (_city account2))
              (updated_with country (_country account2)) in
          let self1 :=
            {| accounts := <[account_number := account3]> (accounts self);
               bank_data_json := bank_data_json self |} in
          Some ((save_data self1).1, inputs6,
                current_information account ++
                [Asked "Enter new name (press Enter to keep current): "] ++
                shown_e ++ shown_s ++ shown_p ++ shown_c ++ shown_k ++
                (Shown <$> (save_data self1).2) ++
                [Shown (Out (Print
                   "Account details updated successfully!"))])
      end
  end.

(** Choice 2 of the menu of [main] (lines 749-761). *)
Definition menu_deposit (self : bank) (now : string) (inputs : list string)
    : option (bank * list string * list io_event) :=
  match inputs with
  | [] => None
  | line :: inputs1 =>
      let account_number := strip line in
      let asked := Asked "Enter your account number: " in
      match get_account self account_number with
      | None =>
          Some (self, inputs1,
                [asked; Shown (Out (Print "Account not found."))])
      | Some account =>
          match inputs1 with
          | [] => None
          | text :: inputs2 =>
              let asked2 := Asked "Enter amount to deposit: " in
              match float text with
              | None =>
                  Some (self, inputs2,
                        [asked; asked2;
                         Shown (Out (Print
                           "Invalid amount. Please enter a numeric value."))])
              | Some amount =>
                  let r := deposit account now amount in
                  let self1 :=
                    {| accounts :=
                         <[account_number := r.1.2]> (accounts self);
                       bank_data_json := bank_data_json self |} in
                  Some ((save_data self1).1, inputs2,
                        [asked; asked2] ++ (Shown <$> (Out <$> r.2)) ++
                        (Shown <$> (save_data self1).2))
              end
          end
      end
  end.

(** Choice 3 of the menu of [main] (lines 763-775); a [Raise] is an
    exception nothing catches, which ends the program. *)
Definition menu_withdraw (self : bank) (now : string) (inputs : list string)
    : option (res (bank * list string * list io_event)) :=
  match inputs with
  | [] => None
  | line :: inputs1 =>
      let account_number := strip line in
      let asked := Asked "Enter your account number: " in
      match get_account self account_number with
      | None =>
          Some (Ok (self, inputs1,
                    [asked; Shown (Out (Print "Account not found."))]))
      | Some account =>
          match inputs1 with
          | [] => None
          | text :: inputs2 =>
              let asked2 := Asked "Enter amount to withdraw: " in
              match float text with
              | None =>
                  Some (Ok (self, inputs2,
                        [asked; asked2;
                         Shown (Out (Print
                           "Invalid amount. Please enter a numeric value."))]))
              | Some amount =>
                  Some (
                    '(done, account', printed) ←
                      withdraw account now amount;
                    let self1 :=
                      {| accounts :=
                           <[account_number := account']> (accounts self);
                         bank_data_json := bank_data_json self |} in
                    if done : bool then
                      Ok ((save_data self1).1, inputs2,
                          [asked; asked2] ++ (Shown <$> (Out <$> printed)) ++
                          (Shown <$> (save_data self1).2))
                    else
                      Ok (self1, inputs2,
                          [asked; asked2] ++ (Shown <$> (Out <$> printed))))
              end
          end
      end
  end.

End Interactive.

(** A value the update kept in place of [old]: either nothing changed, or
    the new value satisfies [P]. *)
Definition kept_or (P : string → Prop) (old new : option string) : Prop :=
  new = old ∨ ∃ v, new = Some v ∧ P v.

(** ** Sound stores and menu actions *)

(** The balance is not below zero, that is, the test [balance < 0] is
    false, and it is the running balance of the last entry. *)
Definition account_sound (a : account) : Prop :=
  (_balance a <? 0) = false ∧ balance_matches_log a.

Definition store_sound (self : bank) : Prop :=
  ∀ k a, accounts self !! k = Some a → account_sound a.

(** The part of an account that [update_account_details] has no business
    with. *)
Definition ledger_view (a : account)
    : account_class * option string * float64 * string * list transaction :=
  (cls a, _account_number a, _balance a, _account_type a, _transactions a).

Section Actions.

Context `{PyBuiltins}.

(** One action of the menu that can change the store, with whatever the
    user typed and whatever the clock, the random draws and the mail
    session gave. *)
Inductive menu_action (self b : bank) : Prop :=
  | action_create draws smtp_error now name email account_type
      initial_balance street postal city country out :
      create_account self draws smtp_error now name email account_type
        initial_balance street postal city country = Some (b, out) →
      menu_action self b
  | action_deposit now inputs rest out :
      menu_deposit self now inputs = Some (b, rest, out) →
      menu_action self b
  | action_withdraw now inputs rest out :
      menu_withdraw self now inputs = Some (Ok (b, rest, out)) →
      menu_action self b
  | action_update account_number inputs rest out :
      update_account_details self account_number inputs
        = Some (b, rest, out) →
      menu_action self b.

End Actions.

(** ** The dialogue that creates an account, and the login *)

(** More of the library: [str.capitalize], [str.lower] and
    [hashlib.sha256(s.encode()).hexdigest()]. *)
Class PyText := {
  capitalize : string → string;
  lower : string → string;
  sha256_hexdigest : string → string;
}.

(** A prompt repeated until a line is accepted: [read] gives the value, or
    the message printed before asking again. *)
Fixpoint ask_until {A : Type} (prompt : string) (read : string → A + string)
    (inputs : list string) : option (A * list string * list io_event) :=
  match inputs with
  | [] => None
  | line :: rest =>
      match read line with
      | inl a => Some (a, rest, [Asked prompt])
      | inr message =>
          '(a, rest', shown) ← ask_until prompt read rest;
          Some (a, rest',
                Asked prompt :: Shown (Out (Print message)) :: shown)
      end
  end.

Section CreateDialogue.

Context `{PyBuiltins} `{PyText}.

(** Lines 675-678 *)
Definition read_name (line : string) : string + string :=
  let name := strip line in
  if bool_decide (name = "") then
    inr "Name cannot be empty. Please enter a valid name."
  else inl name.

(** Lines 681-685 *)
Definition read_email (line : string) : string + string :=
  let email := strip line in
  if re_match_email email then inl email
  else inr "Invalid email format. Please enter a valid email address.".

(** Lines 688-691 *)
Definition read_account_type (line : string) : string + string :=
  let account_type := capitalize line in
  if bool_decide (account_type ∉ ["Checking"; "Savings"]) then
    inr "Invalid choice. Please enter either 'Checking' or 'Savings'."
  else inl account_type.

(** Lines 694-702 *)
Definition read_initial_balance (line : string) : float64 + string :=
  match float line with
  | None => inr "Invalid amount. Please enter a numeric value."
  | Some initial_balance =>
      if initial_balance <? 0 then
        inr "Initial deposit cannot be negative. Please enter a valid amount."
      else inl initial_balance
  end.

(** The four address loops, lines 706-732: the bound enforced and the
    message shown. *)
Definition read_long (min_length : nat) (message : string) (line : string)
    : string + string :=
  let value := strip line in
  if bool_decide (String.length value < min_length)%nat then inr message
  else inl value.

(** Choice 1 of the menu of [main] (lines 673-747). *)
Definition menu_create (self : bank) (draws : list string)
    (smtp_error : option string) (now : string) (inputs : list string)
    : option (bank * list string * list io_event) :=
  '(name, inputs1, shown1) ←
    ask_until "Enter account holder's name: " read_name inputs;
  '(email, inputs2, shown2) ←
    ask_until "Enter account holder's email: " read_email inputs1;
  '(account_type, inputs3, shown3) ←
    ask_until "Enter account type (Checking/Savings): " read_account_type
      inputs2;
  '(initial_balance, inputs4, shown4) ←
    ask_until "Enter initial deposit amount: " read_initial_balance inputs3;
  '(street_address, inputs5, shown5) ←
    ask_until "Enter street address (required, at least 5 characters): "
      (read_long 5
         "Street address must be at least 5 characters long. Please enter a valid address.")
      inputs4;
  '(postal_code, inputs6, shown6) ←
    ask_until "Enter postal code (required): "
      (read_long 6
         "Postal code must be at least 3 characters long. Please enter a valid postal code.")
      inputs5;
  '(city, inputs7, shown7) ←
    ask_until "Enter city (required, at least 3 characters): "
      (read_long 5
         "City must be at least 3 characters long. Please enter a valid city.")
      inputs6;
  '(country, inputs8, shown8) ←
    ask_until "Enter country (required, at least 3 characters): "
      (read_long 5
         "Country must be at least 3 characters long. Please enter a valid country.")
      inputs7;
  let shown := shown1 ++ shown2 ++ shown3 ++ shown4 ++ shown5 ++ shown6 ++
               shown7 ++ shown8 in
  if bool_decide (Some email ∈ existing_emails self) then
    Some (self, inputs8,
          shown ++
          [Shown (Out (Print
             "An account with this email already exists. Please try again with a different email."))])
  else
    '(b, created) ←
      create_account self draws smtp_error now name email account_type
        initial_balance (Some street_address) (Some postal_code) (Some city)
        (Some country);
    Some (b, inputs8,
          shown ++ (Shown <$> created) ++
          [Shown (Out (Print
             ("Account successfully created for " +:+ name +:+ ".")))]).

End CreateDialogue.

(** ** [UserManager] *)

(** An entry of [users.json]. *)
Record user := {
  username : string;
  password : string;
}.

(** What [load_user_data] finds: no file, a blank file, text that is not
    JSON, or a list of users. *)
Inductive users_file :=
  | UsersMissing
  | UsersBlank
  | UsersUnparsable
  | UsersList (l : list user).

(** The object: the users in memory and the file [users.json] as
    [save_user_data] last wrote it. *)
Record user_manager := {
  users : list user;
  users_json : users_file;
}.

(** How [login] ends: it returns [True], or it calls [sys.exit()]. *)
Inductive login_outcome := LoggedIn | Exited.

(** Where [login] stands between two lines of input. *)
Inductive login_state :=
  | WantUsername
  | WantPassword (typed_username : string)
  | WantChoice (first : bool).

(** How the first lines of [main] end: the program goes on to the bank,
    having gone through [login] or not, or it has exited. *)
Inductive entry_outcome :=
  | EnterBank (um : user_manager) (logged_in : bool)
  | ExitProgram.

Section Users.

Context `{PyText}.

(** [load_user_data]: a file that is not JSON makes [json.loads] raise a
    [JSONDecodeError], a [ValueError] that nothing catches. *)
Definition load_user_data (file : users_file) : res user_manager :=
  match file with
  | UsersMissing => Ok {| users := []; users_json := file |}
  | UsersBlank => Ok {| users := []; users_json := file |}
  | UsersUnparsable => Raise ValueError
  | UsersList l => Ok {| users := l; users_json := file |}
  end.

Definition save_user_data (self : user_manager) : user_manager :=
  {| users := users self; users_json := UsersList (users self) |}.

Definition add_user (self : user_manager) (name pass : string)
    : user_manager :=
  let hashed_password := sha256_hexdigest pass in
  let new_user := {| username := name; password := hashed_password |} in
  save_user_data {| users := users self ++ [new_user];
                    users_json := users_json self |}.

(** [next((u for u in self.users if ...), None)] is not [None]. *)
Definition credentials_match (self : user_manager) (name pass : string)
    : bool :=
  existsb (λ u, bool_decide (username u = name) &&
                bool_decide (password u = sha256_hexdigest pass))
          (users self).

(** [login], line by line. *)
Fixpoint login_from (self : user_manager) (state : login_state)
    (inputs : list string)
    : option (login_outcome * list string * list io_event) :=
  match inputs with
  | [] => None
  | line :: rest =>
      match state with
      | WantUsername =>
          '(r, rest', shown) ← login_from self (WantPassword line) rest;
          Some (r, rest', Asked "Enter your username: " :: shown)
      | WantPassword name =>
          if credentials_match self name line then
            Some (LoggedIn, rest,
                  [Asked "Enter your password: ";
                   Shown (Out (Print "Login successful! Welcome!"))])
          else
            '(r, rest', shown) ← login_from self (WantChoice true) rest;
            Some (r, rest',
                  Asked "Enter your password: " ::
                  Shown (Out (Print "Invalid username or password.")) ::
                  shown)
      | WantChoice first =>
          let asked :=
            Asked (if first then "Would you like to try again? (yes/no): "
                   else "Please enter 'yes' or 'no': ") in
          let choice := lower (strip line) in
          if bool_decide (choice ∉ ["yes"; "no"]) then
            '(r, rest', shown) ← login_from self (WantChoice false) rest;
            Some (r, rest', asked :: shown)
          else if bool_decide (choice = "no") then
            Some (Exited, rest,
                  [asked; Shown (Out (Print "Exiting the program."))])
          else
            '(r, rest', shown) ← login_from self WantUsername rest;
            Some (r, rest', asked :: shown)
      end
  end.

Definition login (self : user_manager) (inputs : list string)
    : option (login_outcome * list string * list io_event) :=
  login_from self WantUsername inputs.

(** [setup_initial_admin]: the object, what the call returns, the lines
    left and what was shown. *)
Definition setup_initial_admin (self : user_manager) (inputs : list string)
    : option (user_manager * bool * list string * list io_event) :=
  match users self with
  | _ :: _ =>
      Some (self, true, inputs,
            [Shown (Out (Print "User data found. Proceeding to login."))])
  | [] =>
      match inputs with
      | line1 :: line2 :: rest =>
          let name := strip line1 in
          let pass := strip line2 in
          let shown :=
            [Shown (Out (Print
               "No users found. Please set up an initial admin account."));
             Asked "Enter a username for the admin: ";
             Asked "Enter a password for the admin: "] in
          if bool_decide (name ≠ "") && bool_decide (pass ≠ "") then
            Some (add_user self name pass, true, rest,
                  shown ++
                  [Shown (Out (Print ("Admin user '" +:+ name +:+
                                      "' created successfully!")))])
          else
            Some (self, false, rest,
                  shown ++
                  [Shown (Out (Print
                     "Error: Username and password cannot be empty."))])
      | _ => None
      end
  end.

(** The first lines of [main] (645-652), up to [bank = Bank()]. *)
Definition main_entry (file : users_file) (inputs : list string)
    : res (option (entry_outcome * list string * list io_event)) :=
  um ← load_user_data file;
  Ok ('(um', is_set, inputs1, shown1) ← setup_initial_admin um inputs;
      if is_set : bool then
        '(r, inputs2, shown2) ← login um' inputs1;
        match r with
        | LoggedIn => Some (EnterBank um' true, inputs2, shown1 ++ shown2)
        | Exited => Some (ExitProgram, inputs2, shown1 ++ shown2)
        end
      else Some (EnterBank um' false, inputs1, shown1)).

End Users.

(** ** More sample objects *)

Module MoreSamples.

Import Sample.

Definition ascii_upper (c : ascii) : ascii :=
  if in_range "a" "z" c then ascii_of_N (N_of_ascii c - 32) else c.

Definition ascii_lower (c : ascii) : ascii :=
  if in_range "A" "Z" c then ascii_of_N (N_of_ascii c + 32) else c.

Fixpoint map_chars (f : ascii → ascii) (s : string) : string :=
  match s with
  | EmptyString => EmptyString
  | String c rest => String (f c) (map_chars f rest)
  end.

(** [capitalize] and [lower] on ASCII text; the digest is a stand-in that
    only marks its argument. *)
Definition ascii_text : PyText :=
  {| capitalize := λ s,
       match s with
       | EmptyString => EmptyString
       | String c rest => String (ascii_upper c) (map_chars ascii_lower rest)
       end;
     lower := map_chars ascii_lower;
     sha256_hexdigest := λ s, "digest of " +:+ s |}.

(** The store after Ann's Savings account was created from an empty one. *)
Definition bank_with_ann : bank :=
  {| accounts := {[ "1234567890" := savings_500 ]};
     bank_data_json := Some (to_dict <$> {[ "1234567890" := savings_500 ]}) |}.

(** A store that holds an account rebuilt without a kind. *)
Definition bank_with_plain : bank :=
  {| accounts :=
       {[ "1234567890" :=
            @Account_from_dict decimal_builtins later record_without_kind ]};
     bank_data_json := None |}.

(** What the user types to update Ann's details: a new name, an email
    that is refused and then one that is kept, a street address that is too
    short, and nothing for the rest. *)
Definition update_lines : list string :=
  ["Ann Lee"; "ann.example.org"; "lee@example.org"; "Elm"; ""; ""; ""].

Definition update_result : bank * list string * list io_event :=
  default (bank_with_ann, [], [])
    (update_account_details bank_with_ann "1234567890" update_lines).

(** Choice 2 then the two lines typed: deposit 200 on Ann's account. *)
Definition deposit_result : bank * list string * list io_event :=
  default (bank_with_ann, [], [])
    (@menu_deposit decimal_builtins bank_with_ann later
       ["1234567890"; "200"]).

(** Choice 3: withdraw 40 from Ann's account. *)
Definition withdraw_result : bank * list string * list io_event :=
  match @menu_withdraw decimal_builtins bank_with_ann later
          ["1234567890"; "40"] with
  | Some (Ok r) => r
  | _ => (bank_with_ann, [], [])
  end.

(** Choice 1: the lines of the dialogue for Bob. *)
Definition create_lines : list string :=
  [""; "Bob"; "bob@example"; "bob@example.org"; "checking"; "abc"; "25";
   "12 Main Street"; "123"; "123456"; "Springfield"; "Freedonia"].

Definition create_result : bank * list string * list io_event :=
  default (bank_with_ann, [], [])
    (@menu_create decimal_builtins ascii_text bank_with_ann
       ["1234567890"; "2345678901"] None later create_lines).

(** Choice 1 with ["nan"] typed as the initial deposit. *)
Definition nan_lines : list string :=
  ["Bob"; "bob@example.org"; "checking"; "nan"; "12 Main Street"; "123456";
   "Springfield"; "Freedonia"].

(** [create_account] for Bob on the store that holds Ann's account; the
    first number drawn is Ann's. *)
Definition bob_result : bank * list bank_event :=
  default (bank_with_ann, [])
    (@create_account decimal_builtins bank_with_ann
       ["1234567890"; "2345678901"] None later "Bob" "bob@example.org"
       "Checking" 25 None None None None).

(** A log in the legacy shape, with what the statement reads in it. *)
Definition legacy_entry (text : string) : transaction :=
  {| tx_timestamp := Some opened; tx_action := None; tx_amount := None;
     tx_running_balance := None; tx_details := Some text |}.

Definition legacy_log : list (transaction * legacy_kind * float64) :=
  [ (legacy_entry "Account created with balance $500", LegacyCreated,
     500);
    (legacy_entry "Deposited $40", LegacyDeposited, 40);
    (legacy_entry "Withdrew $30", LegacyWithdrew, 30) ].

(** A user manager with one user, and what it takes to log in. *)
Definition manager_with_admin : user_manager :=
  @add_user ascii_text {| users := []; users_json := UsersMissing |}
    "admin" "secret".

End MoreSamples.

(** * Properties *)

Section Properties.

Context `{PyBuiltins}.

(** ** Comparisons of floats *)

(** Comparing the other way round gives the opposite answer; there is no
    answer exactly when one side is [nan]. *)
Lemma SFcompare_swap (x y : spec_float) (c : comparison) :
  SFcompare x y = Some c → SFcompare y x = Some (CompOpp c).
Proof.
  destruct x as [sx|sx| |sx mx ex], y as [sy|sy| |sy my ey]; simpl;
    try discriminate;
    repeat match goal with s : bool |- _ => destruct s end; simpl;
    intros [= <-]; try reflexivity;
    rewrite (Z.compare_antisym ex ey);
    destruct (ex ?= ey)%Z; simpl; try reflexivity;
    rewrite Pos.compare_cont_antisym; simpl;
    destruct (Pos.compare_cont Eq mx my); reflexivity.
Qed.

Lemma SFcompare_None (x y : spec_float) :
  SFcompare x y = None ↔ x = S754_nan ∨ y = S754_nan.
Proof.
  destruct x as [sx|sx| |sx mx ex], y as [sy|sy| |sy my ey]; simpl;
    split; try discriminate; try (intros [?|?]; discriminate);
    try (intros _; auto; fail);
    try reflexivity;
    repeat match goal with s : bool |- _ => destruct s end; discriminate.
Qed.

Lemma SFcompare_refl (x : spec_float) :
  x ≠ S754_nan → SFcompare x x = Some Eq.
Proof.
  destruct x as [s|s| |s m e]; simpl; intros Hx;
    try (destruct s; reflexivity); try (destruct Hx; reflexivity).
  destruct s; rewrite Z.compare_refl;
    replace (Pos.compare_cont Eq m m) with Eq
      by (symmetry; apply Pos.compare_cont_refl); reflexivity.
Qed.

Lemma is_nan_spec (x : float64) :
  is_nan x = true ↔ Prim2SF x = S754_nan.
Proof.
  unfold is_nan. rewrite negb_true_iff, FloatAxioms.eqb_spec. unfold SFeqb. split.
  - intros Hx.
    destruct (SFcompare (Prim2SF x) (Prim2SF x)) as [c|] eqn:Hc.
    + destruct (Prim2SF x) eqn:Hsf; try reflexivity;
        rewrite SFcompare_refl in Hc by discriminate;
        injection Hc as <-; discriminate Hx.
    + apply SFcompare_None in Hc. tauto.
  - intros ->. reflexivity.
Qed.

(** [x < y] is false exactly when [y <= x] or one of the two is [nan]. *)
Lemma ltb_false_iff (x y : float64) :
  (x <? y) = false ↔ y ≤ x ∨ is_nan x = true ∨ is_nan y = true.
Proof.
  unfold float_le.
  rewrite !is_nan_spec, FloatAxioms.ltb_spec, FloatAxioms.leb_spec.
  unfold SFltb, SFleb.
  destruct (SFcompare (Prim2SF x) (Prim2SF y)) as [c|] eqn:Hc.
  - rewrite (SFcompare_swap _ _ _ Hc).
    assert (¬ (Prim2SF x = S754_nan ∨ Prim2SF y = S754_nan)) as Hnan.
    { intros Hn. apply SFcompare_None in Hn. congruence. }
    destruct c; simpl; split; try tauto; try discriminate;
      intros [? | ?]; try discriminate; tauto.
  - apply SFcompare_None in Hc. split; [tauto|reflexivity].
Qed.

(** [x <= y] is false exactly when [y < x] or one of the two is [nan]. *)
Lemma leb_false_iff (x y : float64) :
  (x <=? y) = false ↔ y < x ∨ is_nan x = true ∨ is_nan y = true.
Proof.
  unfold float_lt.
  rewrite !is_nan_spec, FloatAxioms.ltb_spec, FloatAxioms.leb_spec.
  unfold SFltb, SFleb.
  destruct (SFcompare (Prim2SF x) (Prim2SF y)) as [c|] eqn:Hc.
  - rewrite (SFcompare_swap _ _ _ Hc).
    assert (¬ (Prim2SF x = S754_nan ∨ Prim2SF y = S754_nan)) as Hnan.
    { intros Hn. apply SFcompare_None in Hn. congruence. }
    destruct c; simpl; split; try tauto; try discriminate;
      intros [? | ?]; try discriminate; tauto.
  - apply SFcompare_None in Hc. split; [tauto|reflexivity].
Qed.

Lemma float_le_not_lt (x y : float64) : x ≤ y → (y <? x) = false.
Proof. intros Hle. apply ltb_false_iff. left. exact Hle. Qed.

Lemma float_lt_not_le (x y : float64) : x < y → (y <=? x) = false.
Proof. intros Hlt. apply leb_false_iff. left. exact Hlt. Qed.

(** A [nan] compares false with everything. *)
Lemma nan_not_lt (x y : float64) :
  is_nan x = true ∨ is_nan y = true → (x <? y) = false.
Proof. intros Hn. apply ltb_false_iff. tauto. Qed.

Lemma nan_not_le (x y : float64) :
  is_nan x = true ∨ is_nan y = true → (x <=? y) = false.
Proof. intros Hn. apply leb_false_iff. tauto. Qed.

(** An amount above the ceiling of a Savings account is positive. *)
Lemma above_limit_positive (amount : float64) :
  float_of_int WITHDRAWAL_LIMIT < amount → 0 < amount.
Proof.
  unfold float_lt. rewrite !FloatAxioms.ltb_spec. unfold SFltb.
  change (Prim2SF 0) with (S754_zero false).
  set (limit := Prim2SF (float_of_int WITHDRAWAL_LIMIT)).
  vm_compute in limit. subst limit.
  destruct (Prim2SF amount) as [s|s| |s m e]; simpl; try discriminate;
    destruct s; simpl; try discriminate; reflexivity.
Qed.

Lemma not_positive (x : float64) : x ≤ 0 → (0 <? x) = false.
Proof. apply float_le_not_lt. Qed.

(** The guard shared by the two [withdraw] overrides. *)
Lemma funds_guard_false (x b : float64) :
  (0 <? x) && (x <=? b) = false ↔
  x ≤ 0 ∨ b < x ∨ is_nan x = true ∨ is_nan b = true.
Proof.
  rewrite andb_false_iff, ltb_false_iff, leb_false_iff.
  change (is_nan 0) with false. split.
  - intros [[? | [? | ?]] | [? | [? | ?]]]; try discriminate; tauto.
  - tauto.
Qed.

Lemma funds_guard_true (x b : float64) :
  (0 <? x) && (x <=? b) = true ↔ 0 < x ∧ x ≤ b.
Proof. apply andb_true_iff. Qed.

(** ** [deposit] *)

Lemma deposit_rejected (self : account) now amount :
  amount ≤ 0 →
  deposit self now amount =
    (false, self,
     [Print "Invalid deposit amount. Please enter a positive number."]).
Proof.
  intros Hle. unfold deposit.
  rewrite (not_positive _ Hle). reflexivity.
Qed.

Lemma deposit_accepted (self : account) now amount :
  0 < amount →
  deposit self now amount =
    (true,
     append_transaction (set_balance self (_balance self + amount))
       (create_timestamped_entry now "Deposit" amount
          (_balance self + amount)),
     [Print ("Successfully deposited $" +:+ str_num amount)]).
Proof.
  intros Hlt. unfold deposit. rewrite Hlt. reflexivity.
Qed.

(** C4. On an account of any class, [deposit(amount)] with [amount ≤ 0]
    returns [False] and leaves the object (balance and log) as it was;
    with [amount > 0] it returns [True], the balance grows by [amount] and
    exactly one entry is appended to the log, a ["Deposit"] of [amount]
    carrying the new balance. *)
Theorem C4_deposit (self : account) (now : string) (amount : float64) :
  (amount ≤ 0 →
     ∃ out, deposit self now amount = (false, self, out)) ∧
  (0 < amount →
     ∃ self' out e,
       deposit self now amount = (true, self', out) ∧
       _balance self' = _balance self + amount ∧
       _transactions self' = _transactions self ++ [e] ∧
       tx_action e = Some "Deposit" ∧
       tx_amount e = Some amount ∧
       tx_running_balance e = Some (_balance self') ∧
       cls self' = cls self).
Proof.
  split.
  - intros Hle. eexists. apply deposit_rejected, Hle.
  - intros Hlt. do 3 eexists.
    split; [apply deposit_accepted, Hlt|].
    repeat split.
Qed.

(** ** [withdraw] *)

(** C2, as the code has it.  On a Savings account, [withdraw(amount)]
    returns [False] exactly when [amount > 100], or [amount ≤ 0], or
    [amount] exceeds the balance, or the amount or the balance is [nan]
    (a float that [float(input(...))] reads and that compares false with
    everything); it returns [True] exactly when [amount > 100] is false
    and [0 < amount ≤ balance].  When it returns [False] the object
    (balance and log) is as it was; when it returns [True] the balance is
    the float [balance - amount] and exactly one entry has been appended,
    a ["Withdrawal"] of [amount] carrying the new balance. *)
Theorem C2_savings_withdraw (self : account) (now : string)
    (amount : float64) :
  cls self = SavingsAccount →
  ∃ ok self' out,
    withdraw self now amount = Ok (ok, self', out) ∧
    (ok = false ↔
       100 < amount ∨ amount ≤ 0 ∨ _balance self < amount ∨
       is_nan amount = true ∨ is_nan (_balance self) = true) ∧
    (ok = true ↔
       (100 <? amount) = false ∧ 0 < amount ∧ amount ≤ _balance self) ∧
    (ok = false → self' = self) ∧
    (ok = true →
       _balance self' = _balance self - amount ∧
       ∃ e, _transactions self' = _transactions self ++ [e] ∧
            tx_action e = Some "Withdrawal" ∧
            tx_amount e = Some amount ∧
            tx_running_balance e = Some (_balance self')).
Proof.
  intros Hcls. unfold withdraw. rewrite Hcls.
  unfold SavingsAccount_withdraw.
  change (float_of_int WITHDRAWAL_LIMIT) with 100.
  destruct (100 <? amount) eqn:Hlimit.
  - do 3 eexists. split; [reflexivity|].
    split; [split; [intros _; left; exact Hlimit|reflexivity]|].
    split; [split; [discriminate|intros [? _]; discriminate]|].
    split; [reflexivity|discriminate].
  - destruct ((0 <? amount) && (amount <=? _balance self)) eqn:Hfunds.
    + pose proof Hfunds as Hok.
      apply funds_guard_true in Hok as [Hpos Hcov].
      do 3 eexists. split; [reflexivity|].
      split; [|split; [|split; [discriminate|]]].
      * split; [discriminate|].
        intros [Hl | Hrest].
        -- unfold float_lt in Hl. congruence.
        -- assert ((0 <? amount) && (amount <=? _balance self) = false)
             as Hno by (apply funds_guard_false; exact Hrest).
           congruence.
      * split; [intros _; repeat split; assumption|reflexivity].
      * intros _. split; [reflexivity|].
        eexists. split; [reflexivity|]. repeat split.
    + pose proof Hfunds as Hfail. apply funds_guard_false in Hfail.
      do 3 eexists. split; [reflexivity|].
      split; [split; [intros _; right; exact Hfail|reflexivity]|].
      split; [|split; [reflexivity|discriminate]].
      split; [discriminate|].
      intros (_ & Hpos & Hcov).
      assert ((0 <? amount) && (amount <=? _balance self) = true) as Hok
        by (apply funds_guard_true; split; assumption).
      congruence.
Qed.

(** C3, as the code has it.  On a Checking account, [withdraw(amount)]
    returns [False] exactly when [amount ≤ 0], or [amount] exceeds the
    balance, or the amount or the balance is [nan]; any amount with
    [0 < amount ≤ balance] succeeds, however large.  When it returns
    [False] the object (balance and log) is as it was; when it returns
    [True] the balance is the float [balance - amount] and exactly one
    entry has been appended, a ["Withdrawal"] of [amount] carrying the new
    balance. *)
Theorem C3_checking_withdraw (self : account) (now : string)
    (amount : float64) :
  cls self = CheckingAccount →
  ∃ ok self' out,
    withdraw self now amount = Ok (ok, self', out) ∧
    (ok = false ↔
       amount ≤ 0 ∨ _balance self < amount ∨
       is_nan amount = true ∨ is_nan (_balance self) = true) ∧
    (0 < amount → amount ≤ _balance self → ok = true) ∧
    (ok = false → self' = self) ∧
    (ok = true →
       _balance self' = _balance self - amount ∧
       ∃ e, _transactions self' = _transactions self ++ [e] ∧
            tx_action e = Some "Withdrawal" ∧
            tx_amount e = Some amount ∧
            tx_running_balance e = Some (_balance self')).
Proof.
  intros Hcls. unfold withdraw. rewrite Hcls.
  unfold CheckingAccount_withdraw.
  destruct ((0 <? amount) && (amount <=? _balance self)) eqn:Hfunds.
  - do 3 eexists. split; [reflexivity|].
    split; [|split; [reflexivity|split; [discriminate|]]].
    + split; [discriminate|].
      intros Hrest. apply funds_guard_false in Hrest. congruence.
    + intros _. split; [reflexivity|].
      eexists. split; [reflexivity|]. repeat split.
  - do 3 eexists. split; [reflexivity|].
    pose proof Hfunds as Hfail. apply funds_guard_false in Hfail.
    split; [split; [intros _; exact Hfail|reflexivity]|].
    split; [|split; [reflexivity|discriminate]].
    intros Hpos Hcov.
    assert ((0 <? amount) && (amount <=? _balance self) = true) as Hok
      by (apply funds_guard_true; split; assumption).
    congruence.
Qed.

(** ** The ledger invariant *)

Lemma ledger_invariant_append creation (a : account) b e :
  head (_transactions a) = Some creation →
  tx_running_balance e = Some b →
  ledger_invariant creation (append_transaction (set_balance a b) e).
Proof.
  intros Hhead He. split.
  - unfold balance_matches_log. simpl.
    rewrite last_snoc. simpl. rewrite He. reflexivity.
  - simpl. destruct (_transactions a) as [|e0 l]; [discriminate|exact Hhead].
Qed.

Lemma ledger_invariant_init c now name number email initial_balance kind
    street postal city country :
  ledger_invariant (creation_entry now initial_balance)
    (Account_init c now name number email initial_balance kind
       street postal city country).
Proof. split; reflexivity. Qed.

Lemma ledger_invariant_deposit creation (a a' : account) now amount out :
  ledger_invariant creation a →
  deposit a now amount = (true, a', out) →
  ledger_invariant creation a'.
Proof.
  intros [_ Hhead] Hdep. unfold deposit in Hdep.
  destruct (0 <? amount); [|discriminate].
  injection Hdep as <- _.
  apply ledger_invariant_append; [exact Hhead|reflexivity].
Qed.

Lemma ledger_invariant_withdraw creation (a a' : account) now amount out :
  ledger_invariant creation a →
  withdraw a now amount = Ok (true, a', out) →
  ledger_invariant creation a'.
Proof.
  intros [_ Hhead] Hw. unfold withdraw in Hw.
  destruct (cls a); [discriminate| |].
  - unfold SavingsAccount_withdraw in Hw.
    destruct (float_of_int WITHDRAWAL_LIMIT <? amount); [discriminate|].
    destruct ((0 <? amount) && (amount <=? _balance a)); [|discriminate].
    injection Hw as <- _.
    apply ledger_invariant_append; [exact Hhead|reflexivity].
  - unfold CheckingAccount_withdraw in Hw.
    destruct ((0 <? amount) && (amount <=? _balance a)); [|discriminate].
    injection Hw as <- _.
    apply ledger_invariant_append; [exact Hhead|reflexivity].
Qed.

Lemma ledger_invariant_reachable creation (a a' : account) :
  ledger_invariant creation a → reachable a a' → ledger_invariant creation a'.
Proof.
  intros Hinv Hreach. induction Hreach as
    [|a1 a2 now amount out _ IH Hdep|a1 a2 now amount out _ IH Hw].
  - exact Hinv.
  - eapply ledger_invariant_deposit; eassumption.
  - eapply ledger_invariant_withdraw; eassumption.
Qed.

(** C1. Take a Savings or a Checking account constructed with a
    non-negative initial balance.  After any sequence of [deposit] and
    [withdraw] calls that returned [True], the balance is the
    [running_balance] of the last entry of the log, and the first entry of
    the log is the creation entry, whose [running_balance] is the initial
    balance. *)
Theorem C1_balance_is_last_running_balance
    (now : string) (name number email : option string)
    (initial_balance : float64) (street postal city country : option string)
    (a0 a : account) :
  0 ≤ initial_balance →
  a0 = SavingsAccount_init now name number email initial_balance
         street postal city country ∨
  a0 = CheckingAccount_init now name number email initial_balance
         street postal city country →
  reachable a0 a →
  tx_running_balance <$> last (_transactions a) = Some (Some (_balance a)) ∧
  head (_transactions a) = Some (creation_entry now initial_balance) ∧
  tx_action (creation_entry now initial_balance)
    = Some "Account created with balance" ∧
  tx_running_balance (creation_entry now initial_balance)
    = Some initial_balance.
Proof.
  intros _ Hcreated Hreach.
  assert (ledger_invariant (creation_entry now initial_balance) a0) as Hinv.
  { destruct Hcreated as [-> | ->]; apply ledger_invariant_init. }
  destruct (ledger_invariant_reachable _ _ _ Hinv Hreach) as [Hbal Hhead].
  repeat split; assumption.
Qed.

(** ** Serialization *)

(** What [from_dict] builds, whichever branch is taken: the attributes are
    read off the record, the log is the record's, and only the class and the
    kind label depend on the branch. *)
Lemma Account_from_dict_unfold now (x : account_record) :
  Account_from_dict now x =
    {| cls := if bool_decide (r_account_type x = Some "Savings")
              then SavingsAccount
              else if bool_decide (r_account_type x = Some "Checking")
              then CheckingAccount else AccountBase;
       _name := r_name x;
       _account_number := r_account_number x;
       _email := r_email x;
       _balance := default 0 (r_balance x);
       _account_type := default "Savings" (r_account_type x);
       _street_address := r_street_address x;
       _postal_code := r_postal_code x;
       _city := r_city x;
       _country := r_country x;
       _transactions := default [] (r_transactions x) |}.
Proof.
  unfold Account_from_dict.
  destruct (bool_decide (r_account_type x = Some "Savings")) eqn:Hs.
  - apply bool_decide_eq_true in Hs. rewrite Hs. reflexivity.
  - destruct (bool_decide (r_account_type x = Some "Checking")) eqn:Hc.
    + apply bool_decide_eq_true in Hc. rewrite Hc. reflexivity.
    + reflexivity.
Qed.

(** C5. For a record [x] whose [account_type] is ["Savings"] or
    ["Checking"], [to_dict(from_dict(x))] carries the balance of [x], the
    account kind of [x] and the whole transaction log of [x] (a key that [x]
    lacks comes back with the default of [from_dict]: balance [0], log
    [[]]), and the object built is of the class named by [account_type]. *)
Theorem C5_round_trip (now : string) (x : account_record) :
  r_account_type x = Some "Savings" ∨ r_account_type x = Some "Checking" →
  let a := Account_from_dict now x in
  r_balance (to_dict a) = Some (default 0 (r_balance x)) ∧
  (∀ b, r_balance x = Some b → r_balance (to_dict a) = r_balance x) ∧
  r_account_type (to_dict a) = r_account_type x ∧
  r_transactions (to_dict a) = Some (default [] (r_transactions x)) ∧
  (∀ l, r_transactions x = Some l →
        r_transactions (to_dict a) = r_transactions x) ∧
  (r_account_type x = Some "Savings" → cls a = SavingsAccount) ∧
  (r_account_type x = Some "Checking" → cls a = CheckingAccount).
Proof.
  intros Hkind a. subst a. rewrite Account_from_dict_unfold. simpl.
  split; [reflexivity|]. split; [intros b ->; reflexivity|].
  split; [destruct Hkind as [-> | ->]; reflexivity|].
  split; [reflexivity|]. split; [intros l ->; reflexivity|].
  split; intros ->; reflexivity.
Qed.

(** C10. For every record, [from_dict] takes the balance as the record has
    it (0 when the key is absent) and the log as the record has it (empty
    when the key is absent); the creation entry made by the constructor is
    dropped, so the result does not depend on the time of the call; nothing
    compares the balance with the log, so a record whose balance disagrees
    with the running balance of its last entry is rebuilt as it is. *)
Theorem C10_from_dict_verbatim (now : string) (x : account_record) :
  let a := Account_from_dict now x in
  _balance a = default 0 (r_balance x) ∧
  (∀ b, r_balance x = Some b → _balance a = b) ∧
  (∀ l, r_transactions x = Some l → _transactions a = l) ∧
  (r_transactions x = None → _transactions a = []) ∧
  (∀ now', Account_from_dict now' x = a) ∧
  (∀ b l e r,
     r_balance x = Some b → r_transactions x = Some (l ++ [e]) →
     tx_running_balance e = Some r → r ≠ b →
     _balance a = b ∧ _transactions a = l ++ [e] ∧ ¬ balance_matches_log a).
Proof.
  intros a. subst a. rewrite Account_from_dict_unfold. simpl.
  split; [reflexivity|]. split; [intros b ->; reflexivity|].
  split; [intros l ->; reflexivity|]. split; [intros ->; reflexivity|].
  split; [intros now'; apply Account_from_dict_unfold|].
  intros b l e r Hb Hl He Hne. rewrite Hb, Hl. simpl.
  split; [reflexivity|]. split; [reflexivity|].
  unfold balance_matches_log. simpl. rewrite last_snoc. simpl.
  rewrite He. intros Heq. apply Hne. congruence.
Qed.

(** What [from_dict] does with a record whose [account_type] is absent or
    is neither ["Savings"] nor ["Checking"]: the object is a plain
    [Account], labelled with the recorded kind (["Savings"] when the key is
    absent), and its [withdraw] raises. *)
Lemma from_dict_fallback now (x : account_record) :
  r_account_type x ≠ Some "Savings" →
  r_account_type x ≠ Some "Checking" →
  cls (Account_from_dict now x) = AccountBase ∧
  _account_type (Account_from_dict now x)
    = default "Savings" (r_account_type x) ∧
  ∀ now' amount, ∃ msg,
    withdraw (Account_from_dict now x) now' amount
      = Raise (NotImplementedError msg).
Proof.
  intros Hs Hc. rewrite Account_from_dict_unfold. simpl.
  rewrite (bool_decide_eq_false_2 _ Hs), (bool_decide_eq_false_2 _ Hc).
  split; [reflexivity|]. split; [reflexivity|].
  intros now' amount. eexists. reflexivity.
Qed.

(** ** Legacy entries in [show_transaction_history] *)

Lemma reconcile_legacy_created details carried amount :
  contains "Account created with balance" details = true →
  amount_of_details details = Ok amount →
  reconcile_legacy details carried
    = Ok (Some ("Account created", amount, amount)).
Proof. intros Hc Ha. unfold reconcile_legacy. rewrite Hc, Ha. reflexivity. Qed.

Lemma reconcile_legacy_deposited details carried amount :
  contains "Account created with balance" details = false →
  contains "Deposited" details = true →
  amount_of_details details = Ok amount →
  reconcile_legacy details carried
    = Ok (Some ("Deposit", amount, carried + amount)).
Proof.
  intros Hc Hd Ha. unfold reconcile_legacy. rewrite Hc, Hd, Ha. reflexivity.
Qed.

Lemma reconcile_legacy_withdrew details carried amount :
  contains "Account created with balance" details = false →
  contains "Deposited" details = false →
  contains "Withdrew" details = true →
  amount_of_details details = Ok amount →
  reconcile_legacy details carried
    = Ok (Some ("Withdrawal", amount, carried - amount)).
Proof.
  intros Hc Hd Hw Ha. unfold reconcile_legacy.
  rewrite Hc, Hd, Hw, Ha. reflexivity.
Qed.

Lemma reconcile_legacy_unrecognized details carried :
  contains "Account created with balance" details = false →
  contains "Deposited" details = false →
  contains "Withdrew" details = false →
  reconcile_legacy details carried = Ok None.
Proof.
  intros Hc Hd Hw. unfold reconcile_legacy. rewrite Hc, Hd, Hw. reflexivity.
Qed.

(** A recognized pattern without a readable amount ends the call. *)
Lemma reconcile_legacy_raises details carried e :
  contains "Account created with balance" details = true ∨
  contains "Deposited" details = true ∨
  contains "Withdrew" details = true →
  amount_of_details details = Raise e →
  reconcile_legacy details carried = Raise e.
Proof.
  intros Hpat Ha. unfold reconcile_legacy. rewrite Ha.
  destruct (contains "Account created with balance" details); [reflexivity|].
  destruct (contains "Deposited" details); [reflexivity|].
  destruct (contains "Withdrew" details); [reflexivity|].
  destruct Hpat as [? | [? | ?]]; discriminate.
Qed.

(** The row the loop adds for a legacy entry that reconciles. *)
Lemma history_step_legacy (v : history_locals) (trans : transaction)
    act amt bal :
  tx_action trans = None →
  reconcile_legacy (default "" (tx_details trans)) (running_balance v)
    = Ok (Some (act, amt, bal)) →
  history_step v trans =
    Ok {| running_balance := bal; action := Some act; amount := Some amt;
          rows := rows v ++
            [[default "" (tx_timestamp trans); act;
              if contains "Withdrawal" act then "-$" +:+ format_2f amt
              else "$" +:+ format_2f amt;
              "$" +:+ format_2f bal]] |}.
Proof.
  intros Hact Hrec. unfold history_step. rewrite Hact, Hrec. reflexivity.
Qed.

(** The loop on a legacy entry that matches no pattern: nothing is assigned,
    and the row is built from the locals as the previous entry left them;
    on a first entry they are unbound. *)
Lemma history_step_unrecognized (v : history_locals) (trans : transaction) :
  tx_action trans = None →
  reconcile_legacy (default "" (tx_details trans)) (running_balance v)
    = Ok None →
  history_step v trans =
    match action v, amount v with
    | None, _ => Raise (UnboundLocalError "action")
    | Some _, None => Raise (UnboundLocalError "amount")
    | Some act, Some amt =>
        Ok {| running_balance := running_balance v; action := Some act;
              amount := Some amt;
              rows := rows v ++
                [[default "" (tx_timestamp trans); act;
                  if contains "Withdrawal" act then "-$" +:+ format_2f amt
                  else "$" +:+ format_2f amt;
                  "$" +:+ format_2f (running_balance v)]] |}
    end.
Proof.
  intros Hact Hrec. unfold history_step. rewrite Hact, Hrec.
  destruct v as [bal [act|] [amt|] rs]; reflexivity.
Qed.

(** C7, as the code has it.  Let [amount] be what [float] reads in the text
    between the first and the second ["$"] of the description.  The three
    patterns are tried in the order ["Account created with balance"],
    ["Deposited"], ["Withdrew"], and the first one the description contains
    decides: the creation pattern gives the action ["Account created"] with
    the balance set to [amount]; else ["Deposited"] gives ["Deposit"] with
    the carried balance plus [amount]; else ["Withdrew"] gives
    ["Withdrawal"] with the carried balance minus [amount].  In particular
    ["Deposited $40"] after a carried balance of 100 gives
    (Deposit, 40, 140). *)
Theorem C7_reconcile_legacy_first_match
    (details : string) (carried amount : float64) :
  amount_of_details details = Ok amount →
  (contains "Account created with balance" details = true →
     reconcile_legacy details carried
       = Ok (Some ("Account created", amount, amount))) ∧
  (contains "Account created with balance" details = false →
   contains "Deposited" details = true →
     reconcile_legacy details carried
       = Ok (Some ("Deposit", amount, carried + amount))) ∧
  (contains "Account created with balance" details = false →
   contains "Deposited" details = false →
   contains "Withdrew" details = true →
     reconcile_legacy details carried
       = Ok (Some ("Withdrawal", amount, carried - amount))) ∧
  (details = "Deposited $40" → carried = 100 →
   amount = 40 →
     reconcile_legacy details carried
       = Ok (Some ("Deposit", 40, 140))).
Proof.
  intros Ha. split; [|split; [|split]].
  - intros Hc. apply reconcile_legacy_created; assumption.
  - intros Hc Hd. apply reconcile_legacy_deposited; assumption.
  - intros Hc Hd Hw. apply reconcile_legacy_withdrew; assumption.
  - intros -> -> ->.
    rewrite (reconcile_legacy_deposited _ _ 40); try reflexivity.
    exact Ha.
Qed.

(** ** [create_account] *)

Lemma duplicate_guard (self : bank) email :
  bool_decide (Some email ∈ existing_emails self)
    = negb (bool_decide (Some email ∉ existing_emails self)).
Proof. rewrite bool_decide_not, negb_involutive. reflexivity. Qed.

Lemma empty_guard (name email : string) :
  bool_decide (name = "") || bool_decide (email = "")
    = negb (bool_decide (name ≠ "") && bool_decide (email ≠ "")).
Proof.
  rewrite !bool_decide_not, negb_andb, !negb_involutive. reflexivity.
Qed.

(** On a balance that is a number, the test of the code is the check of
    the specification. *)
Lemma negative_guard (b : float64) :
  is_nan b = false → negb (b <? 0) = (0 <=? b).
Proof.
  intros Hb. destruct (0 <=? b) eqn:Hle.
  - rewrite (float_le_not_lt _ _ Hle). reflexivity.
  - apply leb_false_iff in Hle as [Hlt | [Hn | Hn]].
    + rewrite Hlt. reflexivity.
    + discriminate Hn.
    + congruence.
Qed.

Lemma tested_passes (self : bank) name email account_type initial_balance c :
  is_nan initial_balance = false →
  tested self name email account_type initial_balance c
    = passes self name email account_type initial_balance c.
Proof.
  intros Hb. destruct c; try reflexivity. apply negative_guard, Hb.
Qed.

(** A check of the specification that passes is a test of the code that
    passes. *)
Lemma passes_tested (self : bank) name email account_type initial_balance c :
  passes self name email account_type initial_balance c = true →
  tested self name email account_type initial_balance c = true.
Proof.
  destruct c; try (intros Hc; exact Hc).
  simpl. intros Hle. rewrite (float_le_not_lt _ _ Hle). reflexivity.
Qed.

Lemma kind_guard (account_type : string) :
  bool_decide (account_type ∉ ["Checking"; "Savings"])
    = negb (bool_decide (account_type ∈ ["Savings"; "Checking"])).
Proof.
  rewrite bool_decide_not. f_equal. apply bool_decide_ext.
  rewrite !elem_of_cons, !elem_of_nil. tauto.
Qed.

(** [create_account], with its guards read as the checks it tests. *)
Lemma create_account_guards (self : bank) draws smtp_error now
    name email account_type initial_balance street postal city country :
  let ok := tested self name email account_type initial_balance in
  let refuse c :=
    Some (self, [Out (Print (failure_report c))]) in
  ∃ accepted,
    create_account self draws smtp_error now name email account_type
      initial_balance street postal city country
    = if negb (ok EmailSyntax) then refuse EmailSyntax
      else if negb (ok EmailUnique) then refuse EmailUnique
      else if negb (ok NameAndEmailNonEmpty) then refuse NameAndEmailNonEmpty
      else if negb (ok BalanceNonNegative) then refuse BalanceNonNegative
      else if negb (ok KindKnown) then refuse KindKnown
      else accepted.
Proof.
  intros ok refuse. eexists. unfold create_account, ok, tested, passes.
  rewrite duplicate_guard, empty_guard, kind_guard, negb_involutive.
  reflexivity.
Qed.

(** The checks in [before] pass, [c0] fails, and the call stops there. *)
Ltac refuse_at before c0 :=
  exists before, c0; eexists;
  split; [reflexivity|];
  split; [repeat (apply List.Forall_cons; [assumption|]); apply List.Forall_nil|];
  split; [assumption|reflexivity].

(** C9, as the code has it.  [create_account] applies its tests in the
    order: syntax of the email, uniqueness of the email, name and email not
    empty, initial balance not below 0, kind known.  Whenever some test
    fails, the call returns with the store (accounts and snapshot) as it
    was, and what it reports is the first test of that order that fails.
    The balance test is [initial_balance < 0]: on a balance that is a
    number every test is the check the specification lists, and a [nan]
    balance, which is not at least 0, is not refused by it. *)
Theorem C9_create_account_validation (self : bank) (draws : list string)
    (smtp_error : option string) (now name email account_type : string)
    (initial_balance : float64) (street postal city country : option string)
    (c : check) :
  tested self name email account_type initial_balance c = false →
  (∃ before c0 after,
     validation_order = before ++ c0 :: after ∧
     Forall (λ c', tested self name email account_type initial_balance c'
                   = true) before ∧
     tested self name email account_type initial_balance c0 = false ∧
     create_account self draws smtp_error now name email account_type
       initial_balance street postal city country
     = Some (self, [Out (Print (failure_report c0))])) ∧
  (is_nan initial_balance = false →
   ∀ c', tested self name email account_type initial_balance c'
         = passes self name email account_type initial_balance c') ∧
  (is_nan initial_balance = true →
   tested self name email account_type initial_balance BalanceNonNegative
     = true ∧
   passes self name email account_type initial_balance BalanceNonNegative
     = false).
Proof.
  intros Hfail. split; [|split].
  - destruct (create_account_guards self draws smtp_error now name email
      account_type initial_balance street postal city country)
      as [accepted ->].
    set (ok := tested self name email account_type initial_balance) in *.
    destruct (ok EmailSyntax) eqn:H1; cbn [negb];
      [|refuse_at (@nil check) EmailSyntax].
    destruct (ok EmailUnique) eqn:H2; cbn [negb];
      [|refuse_at [EmailSyntax] EmailUnique].
    destruct (ok NameAndEmailNonEmpty) eqn:H3; cbn [negb];
      [|refuse_at [EmailSyntax; EmailUnique] NameAndEmailNonEmpty].
    destruct (ok BalanceNonNegative) eqn:H4; cbn [negb];
      [|refuse_at [EmailSyntax; EmailUnique; NameAndEmailNonEmpty]
          BalanceNonNegative].
    destruct (ok KindKnown) eqn:H5; cbn [negb];
      [|refuse_at [EmailSyntax; EmailUnique; NameAndEmailNonEmpty;
                   BalanceNonNegative] KindKnown].
    destruct c; congruence.
  - intros Hb c'. apply tested_passes, Hb.
  - intros Hb. simpl.
    rewrite (nan_not_lt initial_balance 0), (nan_not_le 0 initial_balance)
      by tauto.
    split; reflexivity.
Qed.

(** When every test passes and a free number is drawn, the account is
    added under that number and the snapshot is rewritten. *)
Lemma create_account_accepts (self : bank) draws smtp_error now
    name email account_type initial_balance street postal city country n :
  Forall (λ c, tested self name email account_type initial_balance c = true)
    validation_order →
  generate_account_number self draws = Some n →
  ∃ acc out,
    create_account self draws smtp_error now name email account_type
      initial_balance street postal city country
    = Some ({| accounts := <[n := acc]> (accounts self);
               bank_data_json :=
                 Some (to_dict <$> <[n := acc]> (accounts self)) |}, out) ∧
    _balance acc = initial_balance ∧ _account_type acc = account_type.
Proof.
  intros Hall Hgen.
  unfold validation_order in Hall. rewrite !Forall_cons in Hall.
  destruct Hall as (H1 & H2 & H3 & H4 & H5 & _).
  unfold create_account.
  rewrite duplicate_guard, empty_guard, kind_guard.
  unfold tested, passes in H1, H2, H3, H4, H5.
  apply negb_true_iff in H4.
  rewrite H1, H2, H3, H4, H5, Hgen. simpl.
  apply bool_decide_eq_true in H5.
  rewrite !elem_of_cons, elem_of_nil in H5.
  destruct H5 as [-> | [-> | []]]; simpl; do 2 eexists; repeat split.
Qed.

End Properties.

(** * The properties on concrete inputs *)

Section Concrete.

Import Sample.

Local Existing Instance decimal_builtins.

Lemma savings_700_reachable : reachable savings_500 savings_700.
Proof.
  eapply (reach_deposit _ savings_500 savings_700 later 200).
  - apply reach_refl.
  - reflexivity.
Defined.

(** The example of the specification: a Savings account opened with 500,
    after a deposit of 200. *)
Lemma C1_witness :
  tx_running_balance <$> last (_transactions savings_700)
    = Some (Some (_balance savings_700)) ∧
  head (_transactions savings_700)
    = Some (creation_entry opened 500) ∧
  tx_action (creation_entry opened 500)
    = Some "Account created with balance" ∧
  tx_running_balance (creation_entry opened 500)
    = Some 500.
Proof.
  apply (C1_balance_is_last_running_balance opened (Some "Ann")
           (Some "1234567890") (Some "ann@example.org") 500
           None None None None savings_500 savings_700).
  - reflexivity.
  - left. reflexivity.
  - exact savings_700_reachable.
Defined.

(** The example of the specification: 150 asked of a Savings account that
    holds 700. *)
Lemma C2_witness :
  ∃ ok self' out,
    withdraw savings_700 later 150 = Ok (ok, self', out) ∧
    (ok = false ↔
       100 < 150 ∨ 150 ≤ 0 ∨ _balance savings_700 < 150 ∨
       is_nan 150 = true ∨ is_nan (_balance savings_700) = true) ∧
    (ok = true ↔
       (100 <? 150) = false ∧ 0 < 150 ∧ 150 ≤ _balance savings_700) ∧
    (ok = false → self' = savings_700) ∧
    (ok = true →
       _balance self' = _balance savings_700 - 150 ∧
       ∃ e, _transactions self' = _transactions savings_700 ++ [e] ∧
            tx_action e = Some "Withdrawal" ∧
            tx_amount e = Some 150 ∧
            tx_running_balance e = Some (_balance self')).
Proof.
  apply (C2_savings_withdraw savings_700 later 150).
  reflexivity.
Defined.

(** C2 as the specification words it fails on an amount that is [nan],
    which the menu reads when ["nan"] is typed: the call returns [False]
    and leaves the account as it was, while [nan > 100], [nan ≤ 0] and
    [nan > balance] are all false. *)
Lemma C2_counterexample :
  float "nan" = Some nan ∧
  cls savings_700 = SavingsAccount ∧
  withdraw savings_700 later nan
    = Ok (false, savings_700,
          [Print "Invalid withdrawal amount or insufficient funds in Savings Account."]) ∧
  ¬ (100 < nan ∨ nan ≤ 0 ∨ _balance savings_700 < nan).
Proof.
  split; [reflexivity|]. split; [reflexivity|]. split; [reflexivity|].
  intros [Hc | [Hc | Hc]]; vm_compute in Hc; discriminate Hc.
Qed.

Example savings_withdraw_150_refused :
  ∃ out, withdraw savings_700 later 150
           = Ok (false, savings_700, out).
Proof. eexists. reflexivity. Qed.

Example savings_withdraw_100_accepted :
  ∃ a out, withdraw savings_700 later 100 = Ok (true, a, out) ∧
           _balance a = 600 ∧ length (_transactions a) = 3%nat.
Proof.
  do 2 eexists. split; [reflexivity|]. split; reflexivity.
Qed.

(** The example of the specification: 50 asked of a Checking account that
    holds 0. *)
Lemma C3_witness :
  ∃ ok self' out,
    withdraw checking_0 later 50 = Ok (ok, self', out) ∧
    (ok = false ↔
       50 ≤ 0 ∨ _balance checking_0 < 50 ∨
       is_nan 50 = true ∨ is_nan (_balance checking_0) = true) ∧
    (0 < 50 → 50 ≤ _balance checking_0 → ok = true) ∧
    (ok = false → self' = checking_0) ∧
    (ok = true →
       _balance self' = _balance checking_0 - 50 ∧
       ∃ e, _transactions self' = _transactions checking_0 ++ [e] ∧
            tx_action e = Some "Withdrawal" ∧
            tx_amount e = Some 50 ∧
            tx_running_balance e = Some (_balance self')).
Proof.
  apply (C3_checking_withdraw checking_0 later 50).
  reflexivity.
Defined.

(** C3 as the specification words it fails on an amount that is [nan],
    and on a balance that is [nan]: the call returns [False] and leaves the
    account as it was, while neither [amount ≤ 0] nor [amount > balance]
    holds. *)
Lemma C3_counterexample :
  float "nan" = Some nan ∧
  (cls checking_0 = CheckingAccount ∧
   withdraw checking_0 later nan
     = Ok (false, checking_0,
           [Print "Invalid withdrawal amount or insufficient funds in Checking Account."]) ∧
   ¬ (nan ≤ 0 ∨ _balance checking_0 < nan)) ∧
  (cls (set_balance checking_0 nan) = CheckingAccount ∧
   withdraw (set_balance checking_0 nan) later 50
     = Ok (false, set_balance checking_0 nan,
           [Print "Invalid withdrawal amount or insufficient funds in Checking Account."]) ∧
   ¬ (50 ≤ 0 ∨ _balance (set_balance checking_0 nan) < 50)).
Proof.
  split; [reflexivity|].
  split; (split; [reflexivity|]); (split; [reflexivity|]);
    intros [Hc | Hc]; vm_compute in Hc; discriminate Hc.
Qed.

Example checking_withdraw_50_refused :
  ∃ out, withdraw checking_0 later 50 = Ok (false, checking_0, out).
Proof. eexists. reflexivity. Qed.

(** A Checking account takes a withdrawal above the Savings ceiling. *)
Example checking_withdraw_150_accepted :
  ∃ a out,
    withdraw (set_transactions (set_balance checking_0 700) [])
      later 150 = Ok (true, a, out) ∧
    _balance a = 550.
Proof.
  do 2 eexists. split; reflexivity.
Qed.

(** A deposit of 0 and a deposit of 200 on the account opened with 500. *)
Lemma C4_witness :
  (∃ out, deposit savings_500 later 0 = (false, savings_500, out)) ∧
  (∃ self' out e,
     deposit savings_500 later 200 = (true, self', out) ∧
     _balance self' = _balance savings_500 + 200 ∧
     _transactions self' = _transactions savings_500 ++ [e] ∧
     tx_action e = Some "Deposit" ∧
     tx_amount e = Some 200 ∧
     tx_running_balance e = Some (_balance self') ∧
     cls self' = cls savings_500).
Proof.
  split.
  - apply (proj1 (C4_deposit savings_500 later 0)). reflexivity.
  - apply (proj2 (C4_deposit savings_500 later 200)). reflexivity.
Defined.

(** The round trip of the record of a Savings account. *)
Lemma C5_witness :
  let a := Account_from_dict later record_with_interest in
  r_balance (to_dict a) = Some (default 0 (r_balance record_with_interest)) ∧
  (∀ b, r_balance record_with_interest = Some b →
        r_balance (to_dict a) = r_balance record_with_interest) ∧
  r_account_type (to_dict a) = r_account_type record_with_interest ∧
  r_transactions (to_dict a)
    = Some (default [] (r_transactions record_with_interest)) ∧
  (∀ l, r_transactions record_with_interest = Some l →
        r_transactions (to_dict a) = r_transactions record_with_interest) ∧
  (r_account_type record_with_interest = Some "Savings" →
     cls a = SavingsAccount) ∧
  (r_account_type record_with_interest = Some "Checking" →
     cls a = CheckingAccount).
Proof.
  apply (C5_round_trip later record_with_interest).
  left. reflexivity.
Defined.

Example round_trip_is_identity :
  to_dict (Account_from_dict later record_with_interest)
    = record_with_interest.
Proof. reflexivity. Qed.

(** A record that says 999 while its log ends on 500 is rebuilt as it is. *)
Lemma C10_witness :
  let a := Account_from_dict later record_inconsistent in
  _balance a = 999 ∧
  _transactions a = [creation_entry opened 500] ∧
  ¬ balance_matches_log a.
Proof.
  destruct (C10_from_dict_verbatim later record_inconsistent)
    as (_ & _ & _ & _ & _ & Hasis).
  apply (Hasis 999 [] (creation_entry opened 500)
           500); try reflexivity.
  intros Heq. apply (f_equal (λ q : float64, q <? 999)) in Heq.
  vm_compute in Heq. discriminate Heq.
Defined.

(** The example of the specification: ["Deposited $40"] after 100. *)
Lemma C7_witness :
  reconcile_legacy "Deposited $40" 100
    = Ok (Some ("Deposit", 40, 140)).
Proof.
  destruct (C7_reconcile_legacy_first_match "Deposited $40" 100
              40) as (_ & _ & _ & Hexample).
  - reflexivity.
  - apply Hexample; reflexivity.
Defined.

Example reconcile_created :
  reconcile_legacy "Account created with balance $500" 7
    = Ok (Some ("Account created", 500, 500)).
Proof. reflexivity. Qed.

Example reconcile_withdrew :
  ∃ bal, reconcile_legacy "Withdrew $30" 100
           = Ok (Some ("Withdrawal", 30, bal)) ∧ bal = 70.
Proof. eexists. split; reflexivity. Qed.

(** C7 as the specification words it fails on two kinds of description.
    One that contains ["Deposited"] but no ["$"]: the call raises
    [IndexError], no action is recovered.  One that contains both
    ["Deposited"] and ["Account created with balance"]: the creation branch
    is taken, the carried balance is dropped. *)
Lemma C7_counterexample :
  (contains "Deposited" "Deposited 40" = true ∧
   ¬ ∃ amount,
       reconcile_legacy "Deposited 40" 100
         = Ok (Some ("Deposit", amount, 100 + amount))) ∧
  (contains "Deposited"
     "Deposited on top of Account created with balance $5" = true ∧
   ¬ ∃ amount,
       reconcile_legacy
         "Deposited on top of Account created with balance $5" 100
         = Ok (Some ("Deposit", amount, 100 + amount))).
Proof.
  split; (split; [reflexivity|]); intros [amount Heq];
    vm_compute in Heq; discriminate Heq.
Qed.

(** A first failing test: an address without ["@"]. *)
Lemma C9_witness :
  ∃ before c0 after,
    validation_order = before ++ c0 :: after ∧
    Forall (λ c', tested empty_bank "Ann" "ann.example.org" "Savings"
                    500 c' = true) before ∧
    tested empty_bank "Ann" "ann.example.org" "Savings" 500 c0
      = false ∧
    create_account empty_bank ["1234567890"] None opened
      "Ann" "ann.example.org" "Savings" 500 None None None None
    = Some (empty_bank, [Out (Print (failure_report c0))]).
Proof.
  apply (C9_create_account_validation empty_bank ["1234567890"] None opened
           "Ann" "ann.example.org" "Savings" 500
           None None None None EmailSyntax).
  reflexivity.
Defined.

(** C9 as the specification words it fails on an initial balance that is
    [nan], which the menu reads when ["nan"] is typed: the check
    [initial_balance ≥ 0] fails, and yet the call does not abort; the
    account is added to the store with the balance [nan] and the snapshot
    is rewritten. *)
Lemma C9_counterexample :
  float "nan" = Some nan ∧
  passes empty_bank "Ann" "ann@example.org" "Savings" nan BalanceNonNegative
    = false ∧
  ∃ b out a,
    create_account empty_bank ["1234567890"] None opened
      "Ann" "ann@example.org" "Savings" nan None None None None
    = Some (b, out) ∧
    accounts empty_bank !! "1234567890" = None ∧
    accounts b !! "1234567890" = Some a ∧
    is_nan (_balance a) = true ∧
    bank_data_json b ≠ bank_data_json empty_bank.
Proof.
  split; [reflexivity|]. split; [reflexivity|].
  do 3 eexists. split; [vm_compute; reflexivity|].
  split; [reflexivity|]. split; [reflexivity|]. split; [reflexivity|].
  discriminate.
Qed.

(** A call that fails three checks is told about the first of them. *)
Example create_account_reports_first_failure :
  create_account empty_bank ["1234567890"] None opened
    "" "ann@example.org" "Business" (- 5) None None None None
  = Some (empty_bank,
          [Out (Print "Error: Name and email cannot be empty!")]).
Proof. reflexivity. Qed.

Example create_account_accepts_ann :
  ∃ b out,
    create_account empty_bank ["1234567890"] None opened
      "Ann" "ann@example.org" "Savings" 500 None None None None
    = Some (b, out) ∧
    accounts b !! "1234567890" = Some savings_500.
Proof. do 2 eexists. split; [vm_compute; reflexivity|]. reflexivity. Qed.

(** C6, on the code.  A record without [account_type], and a record whose
    [account_type] is ["Business"], are rebuilt as plain [Account] objects,
    not as Savings accounts: the first is labelled ["Savings"], the second
    keeps the label ["Business"], and on both [withdraw] raises
    [NotImplementedError]. *)
Theorem C6_fallback_is_plain_account :
  let a := Account_from_dict later record_without_kind in
  let b := Account_from_dict later record_business in
  (cls a = AccountBase ∧ cls a ≠ SavingsAccount ∧
   _account_type a = "Savings" ∧
   withdraw a later 10
     = Raise (NotImplementedError
         "Withdraw method must be implemented by specific account types")) ∧
  (cls b = AccountBase ∧ cls b ≠ SavingsAccount ∧
   _account_type b = "Business" ∧
   withdraw b later 10
     = Raise (NotImplementedError
         "Withdraw method must be implemented by specific account types")).
Proof. repeat split; discriminate. Qed.

(** The same record with the kind written out is a Savings account, on
    which the withdrawal goes through. *)
Example named_savings_withdraws :
  let a := Account_from_dict later
             (record_of (Some "Savings") 500
                [creation_entry opened 500]) in
  cls a = SavingsAccount ∧
  ∃ a' out, withdraw a later 10 = Ok (true, a', out).
Proof. split; [reflexivity|]. do 2 eexists. reflexivity. Qed.

(** C8, on the code.  The log of [record_with_interest] holds, after the
    creation entry, a legacy entry whose text ["Interest $5"] matches no
    pattern.  The statement is printed without any warning: the entry gets
    a row that repeats the action, the amount and the balance of the
    creation entry.  When such an entry comes first in the log, the call
    ends in [UnboundLocalError] after the header. *)
Theorem C8_unrecognized_entry_not_flagged :
  let a := Account_from_dict later record_with_interest in
  let b := Account_from_dict later record_interest_first in
  show_transaction_history a =
    (history_header a ++
     [Tabulate
        [[opened; "Account created with balance"; "$500.00"; "$500.00"];
         [later; "Account created with balance"; "$500.00"; "$500.00"]]
        history_headers;
      Print (newline +:+ "Statement Summary:");
      Print "Opening Balance: $500.00";
      Print "Closing Balance: $505.00";
      Print "Total Transactions: 1";
      Print (repeat_char "=" 50)],
     None) ∧
  show_transaction_history b
    = (history_header b, Some (UnboundLocalError "action")).
Proof. split; vm_compute; reflexivity. Qed.

End Concrete.

(** * Further properties of the code *)

Section AccountLife.

Context `{PyBuiltins}.

(** ** What a call that returned [True] did *)

Lemma deposit_true_inv (a a' : account) now amount out :
  deposit a now amount = (true, a', out) →
  0 < amount ∧
  a' = append_transaction (set_balance a (_balance a + amount))
         (create_timestamped_entry now "Deposit" amount
            (_balance a + amount)).
Proof.
  unfold deposit. intros Hdep.
  destruct (0 <? amount) eqn:Hpos; [|discriminate].
  injection Hdep as <- _.
  split; [exact Hpos|reflexivity].
Qed.

Lemma withdraw_true_inv (a a' : account) now amount out :
  withdraw a now amount = Ok (true, a', out) →
  cls a ≠ AccountBase ∧ 0 < amount ∧ amount ≤ _balance a ∧
  (cls a = SavingsAccount → amount ≤ 100) ∧
  a' = append_transaction (set_balance a (_balance a - amount))
         (withdrawal_entry now amount (_balance a - amount)).
Proof.
  unfold withdraw. intros Hw. destruct (cls a) eqn:Hcls; [discriminate| |].
  - unfold SavingsAccount_withdraw in Hw.
    change (float_of_int WITHDRAWAL_LIMIT) with 100 in Hw.
    destruct (100 <? amount) eqn:Hlimit; [discriminate|].
    destruct ((0 <? amount) && (amount <=? _balance a))
      eqn:Hfunds; [|discriminate].
    apply funds_guard_true in Hfunds as [Hpos Hcov]. injection Hw as <- _.
    repeat split; try assumption; [discriminate|].
    intros _. apply ltb_false_iff in Hlimit as [Hle | [Hn | Hn]].
    + exact Hle.
    + discriminate Hn.
    + unfold float_lt in Hpos.
      rewrite (nan_not_lt 0 amount) in Hpos by tauto. discriminate Hpos.
  - unfold CheckingAccount_withdraw in Hw.
    destruct ((0 <? amount) && (amount <=? _balance a))
      eqn:Hfunds; [|discriminate].
    apply funds_guard_true in Hfunds as [Hpos Hcov]. injection Hw as <- _.
    repeat split; try assumption; discriminate.
Qed.

(** A property kept by every call that returns [True] holds along
    [reachable]. *)
Lemma reachable_preserves (P : account → Prop) (a a' : account) :
  (∀ a1 now amount,
     P a1 → 0 < amount →
     P (append_transaction (set_balance a1 (_balance a1 + amount))
          (create_timestamped_entry now "Deposit" amount
             (_balance a1 + amount)))) →
  (∀ a1 now amount,
     P a1 → 0 < amount → amount ≤ _balance a1 →
     P (append_transaction (set_balance a1 (_balance a1 - amount))
          (withdrawal_entry now amount (_balance a1 - amount)))) →
  P a → reachable a a' → P a'.
Proof.
  intros Hdep Hwd Hinit Hreach.
  induction Hreach as
    [|a1 a2 now amount out _ IH Hstep|a1 a2 now amount out _ IH Hstep].
  - exact Hinit.
  - apply deposit_true_inv in Hstep as [Hpos ->]. apply Hdep; assumption.
  - apply withdraw_true_inv in Hstep as (_ & Hpos & Hcov & _ & ->).
    apply Hwd; assumption.
Qed.

(** ** The balance never goes below zero *)

Lemma not_below_zero_spec (x : float64) :
  (x <? 0) = false ↔ sign_clear (Prim2SF x).
Proof.
  rewrite FloatAxioms.ltb_spec. unfold SFltb.
  change (Prim2SF 0) with (S754_zero false).
  destruct (Prim2SF x) as [s|s| |s m e]; simpl; try destruct s; simpl;
    split; try discriminate; try tauto; reflexivity.
Qed.

Lemma positive_spec (x : float64) :
  0 < x ↔
  Prim2SF x = S754_infinity false ∨ ∃ m e, Prim2SF x = S754_finite false m e.
Proof.
  unfold float_lt. rewrite FloatAxioms.ltb_spec. unfold SFltb.
  change (Prim2SF 0) with (S754_zero false).
  destruct (Prim2SF x) as [s|s| |s m e]; simpl; try destruct s; simpl;
    split; try discriminate; try (intros [?|(? & ? & ?)]; discriminate);
    eauto.
Qed.

Lemma binary_round_sign_clear (m : positive) (e : Z) :
  sign_clear (binary_round prec emax false m e).
Proof.
  unfold binary_round.
  destruct (shl_align m e _) as [mz ez].
  unfold binary_round_aux.
  destruct (shr_fexp prec emax (Z.pos mz) ez loc_Exact) as [mrs' e'].
  destruct (shr_fexp prec emax _ e' loc_Exact) as [mrs'' e''].
  destruct (shr_m mrs''); simpl; try exact I.
  destruct (e'' <=? emax - prec)%Z; exact I.
Qed.

Lemma binary_normalize_sign_clear (m e : Z) :
  (0 ≤ m)%Z → sign_clear (binary_normalize prec emax m e false).
Proof.
  intros Hm. destruct m as [|p|p]; simpl.
  - exact I.
  - apply binary_round_sign_clear.
  - lia.
Qed.

Lemma add_keeps_sign_clear (b a : float64) :
  (b <? 0) = false → 0 < a → (b + a <? 0) = false.
Proof.
  rewrite !not_below_zero_spec, positive_spec, add_spec.
  unfold SF64add.
  intros Hb [-> | (m & e & ->)];
    destruct (Prim2SF b) as [s|s| |s mb eb]; try destruct s;
    simpl in Hb; try contradiction; unfold SFadd; cbv beta iota zeta;
    try exact I.
  apply binary_normalize_sign_clear. unfold cond_Zopp. lia.
Qed.

Lemma digits2_pos_bounds (m : positive) :
  (2 ^ (Z.pos (digits2_pos m) - 1) ≤ Z.pos m < 2 ^ Z.pos (digits2_pos m))%Z.
Proof.
  induction m as [m IH|m IH|]; simpl digits2_pos.
  - rewrite Pos2Z.inj_succ.
    replace (Z.succ (Z.pos (digits2_pos m)) - 1)%Z
      with (Z.succ (Z.pos (digits2_pos m) - 1)) by lia.
    rewrite !Z.pow_succ_r by lia. lia.
  - rewrite Pos2Z.inj_succ.
    replace (Z.succ (Z.pos (digits2_pos m)) - 1)%Z
      with (Z.succ (Z.pos (digits2_pos m) - 1)) by lia.
    rewrite !Z.pow_succ_r by lia. lia.
  - simpl. lia.
Qed.

Lemma iter_xO_doubles (m d : positive) :
  (2 * Z.pos m ≤ Z.pos (Pos.iter xO m d))%Z.
Proof.
  induction d as [|d IH] using Pos.peano_ind.
  - simpl. lia.
  - rewrite Pos.iter_succ. lia.
Qed.

(** Of two valid finite floats, the one with the larger exponent has the
    larger mantissa once both are aligned. *)
Lemma aligned_mantissas (mx my : positive) (ex ey : Z) :
  bounded prec emax mx ex = true → bounded prec emax my ey = true →
  (ey < ex)%Z →
  (Z.pos (fst (shl_align my ey ey)) ≤ Z.pos (fst (shl_align mx ex ey)))%Z.
Proof.
  unfold bounded, canonical_mantissa, fexp.
  intros [Hx _]%andb_true_iff [Hy _]%andb_true_iff Hlt.
  apply Z.eqb_eq in Hx, Hy.
  pose proof (digits2_pos_bounds mx) as Hmx.
  pose proof (digits2_pos_bounds my) as Hmy.
  assert (Z.pos (digits2_pos mx) = prec) as Hdx by lia.
  assert (Z.pos (digits2_pos my) ≤ prec)%Z as Hdy by lia.
  unfold shl_align. rewrite Z.sub_diag. simpl fst.
  destruct (ey - ex)%Z as [|d|d] eqn:Hd; try lia. simpl fst.
  pose proof (iter_xO_doubles mx d) as Hit.
  rewrite Hdx in Hmx.
  assert (Z.pos my < 2 ^ prec)%Z as Hmy'.
  { eapply Z.lt_le_trans; [apply Hmy|].
    apply Z.pow_le_mono_r; lia. }
  replace prec with (Z.succ (prec - 1)) in Hmy' at 1 by lia.
  rewrite Z.pow_succ_r in Hmy' by (unfold prec; lia). lia.
Qed.

Lemma sub_keeps_sign_clear (b a : float64) :
  0 < a → a ≤ b → (b - a <? 0) = false.
Proof.
  rewrite positive_spec, not_below_zero_spec, sub_spec.
  unfold float_le. rewrite FloatAxioms.leb_spec.
  pose proof (Prim2SF_valid a) as Ha. pose proof (Prim2SF_valid b) as Hb.
  unfold SF64sub, SFleb.
  intros [Hpa | (ma & ea & Hpa)]; rewrite Hpa in *;
    destruct (Prim2SF b) as [s|s| |s mb eb]; try destruct s;
    unfold SFcompare; cbv beta iota; try discriminate;
    unfold SFsub; cbv beta iota zeta; try (intros _; exact I).
  unfold valid_binary in Ha, Hb.
  destruct (ea ?= eb)%Z eqn:Hcmp; try discriminate.
  - apply Z.compare_eq in Hcmp. subst eb.
    destruct (Pos.compare_cont Eq ma mb) eqn:Hm; try discriminate; intros _;
      apply binary_normalize_sign_clear; rewrite Z.min_id;
      unfold shl_align, cond_Zopp; rewrite Z.sub_diag; cbv beta iota;
      unfold fst.
    + apply Pos.compare_eq in Hm. lia.
    + assert (ma < mb)%positive as Hlt by exact Hm. lia.
  - intros _. apply binary_normalize_sign_clear.
    assert (ea < eb)%Z as Hlt by exact Hcmp.
    rewrite Z.min_r by lia. unfold cond_Zopp.
    pose proof (aligned_mantissas mb ma eb ea Hb Ha Hlt). lia.
Qed.

(** X1. An account (of any class) whose balance is not below zero, in that
    the test [balance < 0] is false, keeps such a balance through every
    sequence of [deposit] and [withdraw] calls that returned [True]; so
    the balance is then at least zero unless it has become [nan]. *)
Theorem balance_never_negative (a0 a : account) :
  (_balance a0 <? 0) = false → reachable a0 a →
  (_balance a <? 0) = false ∧
  (is_nan (_balance a) = false → 0 ≤ _balance a).
Proof.
  intros Hinit Hreach.
  assert ((_balance a <? 0) = false) as Hkept.
  { revert Hreach.
    apply (reachable_preserves (λ x, (_balance x <? 0) = false)).
    - intros a1 now amount Hb Hpos. simpl.
      apply add_keeps_sign_clear; assumption.
    - intros a1 now amount _ Hpos Hcov. simpl.
      apply sub_keeps_sign_clear; assumption.
    - exact Hinit. }
  split; [exact Hkept|].
  intros Hnan. apply ltb_false_iff in Hkept as [Hle | [Hn | Hn]].
  - exact Hle.
  - congruence.
  - discriminate Hn.
Qed.

(** ** A balance that is [nan] *)

Lemma add_nan (b a : float64) : is_nan b = true → is_nan (b + a) = true.
Proof.
  rewrite !is_nan_spec, add_spec. intros ->. reflexivity.
Qed.

(** X28. Once the balance of a Savings or a Checking account is [nan], as
    after a deposit and a withdrawal of [inf], it stays [nan]: every
    [withdraw] returns [False] and leaves the account as it was, and a
    [deposit] that returns [True] leaves a balance that is [nan] again. *)
Theorem nan_balance_is_stuck (self : account) (now : string)
    (amount : float64) :
  cls self ≠ AccountBase → is_nan (_balance self) = true →
  (∃ out, withdraw self now amount = Ok (false, self, out)) ∧
  (∀ self' out, deposit self now amount = (true, self', out) →
                is_nan (_balance self') = true).
Proof.
  intros Hcls Hnan. split.
  - assert ((0 <? amount) && (amount <=? _balance self) = false) as Hfunds.
    { apply funds_guard_false. tauto. }
    unfold withdraw. destruct (cls self); [contradiction| |].
    + unfold SavingsAccount_withdraw. rewrite Hfunds.
      destruct (float_of_int WITHDRAWAL_LIMIT <? amount);
        eexists; reflexivity.
    + unfold CheckingAccount_withdraw. rewrite Hfunds.
      eexists; reflexivity.
  - intros self' out Hdep.
    apply deposit_true_inv in Hdep as [_ ->]. simpl.
    apply add_nan, Hnan.
Qed.

(** ** The running balances form a chain *)

Lemma ledger_chained_snoc (l : list transaction) prev e :
  ledger_chained l → last l = Some prev → entry_follows prev e →
  ledger_chained (l ++ [e]).
Proof.
  intros Hchain Hlast Hfollows i p x Hp Hx.
  destruct (decide (S i < length l)%nat) as [Hin|Hout].
  - rewrite lookup_app_l in Hp by lia. rewrite lookup_app_l in Hx by lia.
    eapply Hchain; eassumption.
  - assert (S i = length l) as Hi.
    { apply lookup_lt_Some in Hx. rewrite length_app in Hx. simpl in Hx. lia. }
    rewrite lookup_app_l in Hp by lia.
    rewrite lookup_app_r in Hx by lia.
    rewrite Hi, Nat.sub_diag in Hx. injection Hx as <-.
    rewrite last_lookup in Hlast.
    replace (pred (length l)) with i in Hlast by lia.
    rewrite Hlast in Hp. injection Hp as <-. exact Hfollows.
Qed.

Lemma chained_append (a : account) e b amount :
  chained_and_matching a →
  tx_running_balance e = Some b → tx_amount e = Some amount → 0 < amount →
  (tx_action e = Some "Deposit" ∧ b = _balance a + amount ∨
   tx_action e = Some "Withdrawal" ∧ b = _balance a - amount) →
  chained_and_matching (append_transaction (set_balance a b) e).
Proof.
  intros [Hchain Hbal] Hrb Hamt Hpos Hkind. split.
  - simpl. unfold balance_matches_log in Hbal.
    destruct (last (_transactions a)) as [prev|] eqn:Hlast; [|discriminate].
    simpl in Hbal. injection Hbal as Hprev.
    eapply ledger_chained_snoc; [exact Hchain|exact Hlast|].
    exists (_balance a), amount. split; [exact Hprev|].
    split; [exact Hamt|]. split; [exact Hpos|].
    destruct Hkind as [[Hact ->]|[Hact ->]]; [left|right];
      split; assumption.
  - unfold balance_matches_log. simpl. rewrite last_snoc. simpl.
    rewrite Hrb. reflexivity.
Qed.

(** X2. In the log of an account built by a constructor and then used through
    [deposit] and [withdraw], every entry after the first is a deposit or a
    withdrawal of a positive amount, and its running balance is the running
    balance of the entry before it plus, respectively minus, that amount. *)
Theorem ledger_entries_chain (c : account_class) (now : string)
    (name number email : option string) (initial_balance : float64)
    (kind : string) (street postal city country : option string)
    (a : account) :
  reachable (Account_init c now name number email initial_balance kind
               street postal city country) a →
  ledger_chained (_transactions a).
Proof.
  intros Hreach.
  apply (reachable_preserves chained_and_matching _ _) in Hreach.
  - exact (proj1 Hreach).
  - intros a1 t amount Hinv Hpos.
    eapply chained_append; [exact Hinv|reflexivity|reflexivity|exact Hpos|].
    left. split; reflexivity.
  - intros a1 t amount Hinv Hpos _.
    eapply chained_append; [exact Hinv|reflexivity|reflexivity|exact Hpos|].
    right. split; reflexivity.
  - split; [|reflexivity].
    intros i prev e Hprev He. simpl in He.
    destruct i; discriminate He.
Qed.

(** ** A deposit above the ceiling of a Savings account *)

(** X4. A Savings account cannot give back in one withdrawal a deposit of more
    than 100: the withdrawal is refused and the deposit stays. *)
Theorem savings_cannot_return_large_deposit
    (self : account) (now1 now2 : string) (amount : float64) :
  cls self = SavingsAccount → 100 < amount →
  ∃ a1 out1 out2,
    deposit self now1 amount = (true, a1, out1) ∧
    withdraw a1 now2 amount = Ok (false, a1, out2) ∧
    _balance a1 = _balance self + amount.
Proof.
  intros Hcls Hlim.
  assert (0 < amount) as Hpos by (apply above_limit_positive, Hlim).
  do 3 eexists. split; [apply deposit_accepted, Hpos|].
  unfold withdraw. simpl. rewrite Hcls.
  unfold SavingsAccount_withdraw.
  change (float_of_int WITHDRAWAL_LIMIT) with 100.
  rewrite Hlim. split; reflexivity.
Qed.

End AccountLife.

Section RoundTripAndStatement.

Context `{PyBuiltins}.

(** ** [from_dict] after [to_dict] *)

Lemma class_consistent_rebuilds (now : string) (a : account) :
  class_consistent a → Account_from_dict now (to_dict a) = a.
Proof.
  rewrite Account_from_dict_unfold. unfold class_consistent.
  destruct a as [c n num e b kind st pc ci co log]. simpl.
  destruct c.
  - intros [Hs Hc].
    rewrite bool_decide_eq_false_2, bool_decide_eq_false_2 by congruence.
    reflexivity.
  - intros ->. reflexivity.
  - intros ->. reflexivity.
Qed.

(** X5. Rebuilding an account from its own [to_dict] gives the account back
    exactly when the class of the object agrees with its kind label; the
    time of the rebuilding plays no part. *)
Theorem from_dict_to_dict (now : string) (a : account) :
  Account_from_dict now (to_dict a) = a ↔ class_consistent a.
Proof.
  rewrite Account_from_dict_unfold. unfold class_consistent.
  destruct a as [c n num e b kind st pc ci co log]. simpl.
  destruct (bool_decide (Some kind = Some "Savings")) eqn:Hs.
  - apply bool_decide_eq_true in Hs. injection Hs as ->.
    destruct c; split; try reflexivity; try discriminate;
      intros Hc; try (destruct Hc; congruence); discriminate Hc.
  - apply bool_decide_eq_false in Hs.
    destruct (bool_decide (Some kind = Some "Checking")) eqn:Hc.
    + apply bool_decide_eq_true in Hc. injection Hc as ->.
      destruct c; split; try reflexivity; try discriminate;
        intros Hc; try (destruct Hc; congruence); discriminate Hc.
    + apply bool_decide_eq_false in Hc.
      destruct c; split; try reflexivity; try discriminate.
      * intros _. split; congruence.
      * intros ->. exfalso. apply Hs. reflexivity.
      * intros ->. exfalso. apply Hc. reflexivity.
Qed.

Lemma class_consistent_reachable (a a' : account) :
  class_consistent a → reachable a a' → class_consistent a'.
Proof.
  intros Hinit. apply (reachable_preserves class_consistent);
    [intros a1 now amount Hc _; exact Hc
    |intros a1 now amount Hc _ _; exact Hc
    |exact Hinit].
Qed.

(** X6. An account built by [SavingsAccount] or [CheckingAccount] and then used
    through [deposit] and [withdraw] is rebuilt unchanged from the record
    [to_dict] writes for it. *)
Theorem program_account_round_trip
    (now now' : string) (name number email : option string)
    (initial_balance : float64) (street postal city country : option string)
    (a0 a : account) :
  a0 = SavingsAccount_init now name number email initial_balance
         street postal city country ∨
  a0 = CheckingAccount_init now name number email initial_balance
         street postal city country →
  reachable a0 a →
  Account_from_dict now' (to_dict a) = a.
Proof.
  intros Hcreated Hreach. apply class_consistent_rebuilds.
  apply (class_consistent_reachable a0); [|exact Hreach].
  destruct Hcreated as [-> | ->]; reflexivity.
Qed.

(** ** The statement of a structured log *)

Lemma history_step_structured (v : history_locals) (e : transaction) :
  structured e →
  ∃ v', history_step v e = Ok v' ∧
        rows v' = rows v ++ [statement_row e] ∧
        running_balance v' = default 0 (tx_running_balance e).
Proof.
  intros ([act Hact] & [amt Hamt] & [rb Hrb]).
  unfold history_step, statement_row. rewrite Hact, Hamt, Hrb. simpl.
  eexists. split; [reflexivity|]. split; reflexivity.
Qed.

Lemma history_loop_structured (l : list transaction) (v : history_locals) :
  Forall structured l →
  ∃ v', history_loop v l = Ok v' ∧
        rows v' = rows v ++ (statement_row <$> l).
Proof.
  revert v. induction l as [|e l IH]; intros v Hall.
  - exists v. split; [reflexivity|]. simpl. rewrite app_nil_r. reflexivity.
  - apply Forall_cons in Hall as [He Hl].
    destruct (history_step_structured v e He) as (v1 & Hstep & Hrows & _).
    destruct (IH v1 Hl) as (v' & Hloop & Hrows').
    exists v'. split.
    + simpl. rewrite Hstep. exact Hloop.
    + rewrite Hrows', Hrows, <-app_assoc. reflexivity.
Qed.

(** X7. For an account whose log is not empty and has only structured entries,
    [show_transaction_history] raises nothing in its loop and prints one row
    per entry, in order, each with the balance the entry records.  If
    [float] reads back the balance cell of the first row, the call ends
    normally: the opening balance printed is that reading, the closing
    balance is the current balance, and the count is the length of the log
    minus one. *)
Theorem statement_of_structured_log
    (self : account) (e0 : transaction) (l : list transaction)
    (opening : float64) :
  _transactions self = e0 :: l →
  Forall structured (e0 :: l) →
  float (remove_char "$"
           ("$" +:+ format_2f (default 0 (tx_running_balance e0))))
    = Some opening →
  show_transaction_history self =
    (history_header self ++
     [ Tabulate (statement_row <$> e0 :: l) history_headers;
       Print (newline +:+ "Statement Summary:");
       Print ("Opening Balance: $" +:+ format_2f opening);
       Print ("Closing Balance: $" +:+ format_2f (_balance self));
       Print ("Total Transactions: " +:+
              str_int (Z.of_nat (length (e0 :: l)) - 1)%Z);
       Print (repeat_char "=" 50) ],
     None).
Proof.
  intros Hlog Hall Hfloat. unfold show_transaction_history. rewrite Hlog.
  destruct (history_loop_structured (e0 :: l)
              {| running_balance := 0; action := None; amount := None;
                 rows := [] |} Hall) as (v & -> & Hrows).
  simpl in Hrows. rewrite Hrows. simpl.
  unfold statement_row at 1. simpl. simpl in Hfloat. rewrite Hfloat.
  reflexivity.
Qed.

Lemma program_log_structured (c : account_class) now name number email
    initial_balance kind street postal city country (a : account) :
  reachable (Account_init c now name number email initial_balance kind
               street postal city country) a →
  Forall structured (_transactions a).
Proof.
  apply (reachable_preserves (λ x, Forall structured (_transactions x))).
  - intros a1 t amount Hall _. simpl. apply Forall_app. split; [exact Hall|].
    apply Forall_singleton. repeat split; eexists; reflexivity.
  - intros a1 t amount Hall _ _. simpl. apply Forall_app.
    split; [exact Hall|].
    apply Forall_singleton. repeat split; eexists; reflexivity.
  - simpl. apply Forall_singleton. repeat split; eexists; reflexivity.
Qed.

(** ** The statement of a legacy log *)

Lemma reconcile_legacy_reads (e : transaction) k amt carried :
  legacy_reads e k amt →
  reconcile_legacy (default "" (tx_details e)) carried
    = Ok (Some (legacy_action k, amt, replay_step carried k amt)).
Proof.
  intros (_ & Hkind & Hamt). unfold legacy_kind_of in Hkind.
  unfold reconcile_legacy. rewrite Hamt.
  destruct (contains "Account created with balance" _);
    [injection Hkind as <-; reflexivity|].
  destruct (contains "Deposited" _); [injection Hkind as <-; reflexivity|].
  destruct (contains "Withdrew" _); [injection Hkind as <-; reflexivity|].
  discriminate.
Qed.

(** X8. For a log made of legacy entries that each match a pattern and carry a
    readable amount, the loop of [show_transaction_history] raises nothing
    and the Balance column is the replay of the entries from the balance
    carried in: a creation text sets it, a deposit adds, a withdrawal
    subtracts. *)
Theorem legacy_log_is_replayed
    (l : list (transaction * legacy_kind * float64)) (v : history_locals) :
  Forall (λ x, legacy_reads x.1.1 x.1.2 x.2) l →
  ∃ v', history_loop v ((λ x, x.1.1) <$> l) = Ok v' ∧
        rows v' = rows v ++ replay_rows (running_balance v) l ∧
        running_balance v' = replay_balance (running_balance v) l.
Proof.
  revert v. induction l as [|[[e k] amt] l IH]; intros v Hall.
  - exists v. simpl. rewrite app_nil_r. repeat split.
  - apply Forall_cons in Hall as [He Hl]. simpl in He.
    pose proof (reconcile_legacy_reads e k amt (running_balance v) He) as Hrec.
    destruct He as (Hact & _ & _).
    pose proof (history_step_legacy v e _ _ _ Hact Hrec) as Hstep.
    match type of Hstep with _ = Ok ?x => set (v1 := x) in * end.
    destruct (IH v1 Hl) as (v' & Hloop & Hrows & Hbal).
    exists v'. split; [|split].
    + simpl. rewrite Hstep. exact Hloop.
    + rewrite Hrows. unfold v1. simpl. rewrite <-app_assoc. simpl.
      destruct k; reflexivity.
    + rewrite Hbal. reflexivity.
Qed.

End RoundTripAndStatement.

Section StoreProperties.

Context `{PyBuiltins}.

(** ** [generate_account_number] *)

Lemma generated_number_is_free (self : bank) (draws : list string)
    (n : string) :
  generate_account_number self draws = Some n → accounts self !! n = None.
Proof.
  induction draws as [|d draws IH]; simpl; [discriminate|].
  destruct (bool_decide (accounts self !! d = None)) eqn:Hfree; [|exact IH].
  apply bool_decide_eq_true in Hfree. intros [= <-]. exact Hfree.
Qed.

(** X9. [generate_account_number] returns the first draw that is not the number
    of an account of the store: the number it returns is free, and every
    draw before it was taken. *)
Theorem generate_account_number_first_free (self : bank)
    (draws : list string) (n : string) :
  generate_account_number self draws = Some n ↔
  ∃ before after,
    draws = before ++ n :: after ∧
    accounts self !! n = None ∧
    Forall (λ d, is_Some (accounts self !! d)) before.
Proof.
  induction draws as [|d draws IH]; simpl.
  - split; [discriminate|]. intros (before & after & Heq & _).
    destruct before; discriminate.
  - destruct (bool_decide (accounts self !! d = None)) eqn:Hfree.
    + apply bool_decide_eq_true in Hfree. split.
      * intros [= <-]. exists [], draws. repeat split; [exact Hfree|].
        apply List.Forall_nil.
      * intros (before & after & Heq & Hn & Htaken).
        destruct before as [|d' before]; simpl in Heq.
        -- injection Heq as -> _. reflexivity.
        -- injection Heq as <- _. apply Forall_cons in Htaken as [[x Hx] _].
           congruence.
    + apply bool_decide_eq_false in Hfree. rewrite IH. split.
      * intros (before & after & -> & Hn & Htaken).
        exists (d :: before), after. repeat split; [exact Hn|].
        apply List.Forall_cons; [|exact Htaken].
        destruct (accounts self !! d); [eexists; reflexivity|].
        exfalso. apply Hfree. reflexivity.
      * intros (before & after & Heq & Hn & Htaken).
        destruct before as [|d' before]; simpl in Heq.
        -- injection Heq as -> _. contradiction.
        -- injection Heq as <- ->. apply Forall_cons in Htaken as [_ Htaken].
           exists before, after. repeat split; assumption.
Qed.

(** X10. The loop returns as soon as one draw is free; it is still running only
    when every draw so far was taken. *)
Theorem generate_account_number_none (self : bank) (draws : list string) :
  generate_account_number self draws = None ↔
  Forall (λ d, is_Some (accounts self !! d)) draws.
Proof.
  induction draws as [|d draws IH]; simpl.
  - split; [intros _; apply List.Forall_nil|reflexivity].
  - destruct (bool_decide (accounts self !! d = None)) eqn:Hfree.
    + apply bool_decide_eq_true in Hfree. split; [discriminate|].
      intros Hall. apply Forall_cons in Hall as [[x Hx] _]. congruence.
    + apply bool_decide_eq_false in Hfree. rewrite IH, Forall_cons.
      split; [|intros [_ Hall]; exact Hall].
      intros Hall. split; [|exact Hall].
      destruct (accounts self !! d); [eexists; reflexivity|].
      exfalso. apply Hfree. reflexivity.
Qed.

(** ** [create_account] *)

Lemma not_existing_email (self : bank) (email : string) :
  Some email ∉ existing_emails self ↔
  ∀ k a, accounts self !! k = Some a → _email a ≠ Some email.
Proof.
  unfold existing_emails. split.
  - intros Hnot k a Hk Heq. apply Hnot.
    apply list_elem_of_fmap. exists a. split; [symmetry; exact Heq|].
    apply list_elem_of_fmap. exists (k, a). split; [reflexivity|].
    apply elem_of_map_to_list, Hk.
  - intros Hnone Hin.
    apply list_elem_of_fmap in Hin as (a & Heq & Hin).
    apply list_elem_of_fmap in Hin as ([k a'] & -> & Hin).
    apply elem_of_map_to_list in Hin. simpl in Heq.
    apply (Hnone k a' Hin). symmetry. exact Heq.
Qed.

(** The two ways [create_account] returns: a refusal that leaves the store
    as it was, or the insertion of the new account under a free number,
    followed by a full rewrite of the snapshot. *)
Lemma create_account_cases (self b : bank) draws smtp_error now
    name email account_type initial_balance street postal city country out :
  create_account self draws smtp_error now name email account_type
    initial_balance street postal city country = Some (b, out) →
  b = self ∨
  ∃ n,
    generate_account_number self draws = Some n ∧
    Forall (λ c, tested self name email account_type initial_balance c = true)
      validation_order ∧
    b = {| accounts :=
             <[n := new_account_of now name email account_type n
                      initial_balance street postal city country]>
               (accounts self);
           bank_data_json :=
             Some (to_dict <$>
                   <[n := new_account_of now name email account_type n
                            initial_balance street postal city country]>
                     (accounts self)) |}.
Proof.
  unfold create_account.
  rewrite duplicate_guard, empty_guard, kind_guard.
  rewrite <-(negb_involutive (initial_balance <? 0)).
  destruct (re_match_email email) eqn:H1; cbn [negb];
    [|intros [= <- _]; left; reflexivity].
  destruct (bool_decide (Some email ∉ existing_emails self)) eqn:H2;
    cbn [negb]; [|intros [= <- _]; left; reflexivity].
  destruct (bool_decide (name ≠ "") && bool_decide (email ≠ "")) eqn:H3;
    cbn [negb]; [|intros [= <- _]; left; reflexivity].
  destruct (negb (initial_balance <? 0)) eqn:H4;
    cbn [negb]; [|intros [= <- _]; left; reflexivity].
  destruct (bool_decide (account_type ∈ ["Savings"; "Checking"])) eqn:H5;
    cbn [negb]; [|intros [= <- _]; left; reflexivity].
  destruct (generate_account_number self draws) as [n|] eqn:Hgen;
    [|discriminate].
  simpl. intros [= <- _]. right. exists n. split; [reflexivity|].
  split; [|reflexivity].
  unfold validation_order, tested, passes.
  repeat (apply List.Forall_cons; [assumption|]). apply List.Forall_nil.
Qed.

(** The store [create_account] returns once every test has passed and a
    free number was drawn. *)
Lemma create_account_runs (self : bank) draws smtp_error now
    name email account_type initial_balance street postal city country n :
  Forall (λ c, tested self name email account_type initial_balance c = true)
    validation_order →
  generate_account_number self draws = Some n →
  ∃ out,
    create_account self draws smtp_error now name email account_type
      initial_balance street postal city country
    = Some ({| accounts :=
                 <[n := new_account_of now name email account_type n
                          initial_balance street postal city country]>
                   (accounts self);
               bank_data_json :=
                 Some (to_dict <$>
                       <[n := new_account_of now name email account_type n
                                initial_balance street postal city country]>
                         (accounts self)) |}, out).
Proof.
  intros Hall Hgen.
  unfold validation_order in Hall. rewrite !Forall_cons in Hall.
  destruct Hall as (H1 & H2 & H3 & H4 & H5 & _).
  unfold tested, passes in H1, H2, H3, H4, H5.
  apply negb_true_iff in H4.
  eexists. unfold create_account.
  rewrite duplicate_guard, empty_guard, kind_guard.
  rewrite H1, H2, H3, H4, H5, Hgen. simpl. reflexivity.
Qed.

(** X11. When every check passes and a draw is free, the account is stored under
    the first free draw with the name, email, balance and address given and
    the class asked for; it is what [get_account] then returns for that
    number; every other number looks up as before; the store has one more
    account; and the snapshot is the [to_dict] of every account of the new
    store. *)
Theorem create_account_inserts (self : bank) draws smtp_error now
    name email account_type initial_balance street postal city country n :
  Forall (λ c, passes self name email account_type initial_balance c = true)
    validation_order →
  generate_account_number self draws = Some n →
  ∃ b out,
    create_account self draws smtp_error now name email account_type
      initial_balance street postal city country = Some (b, out) ∧
    get_account self n = None ∧
    get_account b n
      = Some (new_account_of now name email account_type n initial_balance
                street postal city country) ∧
    (∀ k, k ≠ n → get_account b k = get_account self k) ∧
    size (accounts b) = S (size (accounts self)) ∧
    bank_data_json b = Some (to_dict <$> accounts b) ∧
    (account_type = "Checking" ∧ cls <$> get_account b n = Some CheckingAccount
     ∨ account_type = "Savings" ∧
       cls <$> get_account b n = Some SavingsAccount).
Proof.
  intros Hall Hgen.
  pose proof (generated_number_is_free self draws n Hgen) as Hfree.
  destruct (create_account_runs self draws smtp_error now name email
              account_type initial_balance street postal city country n
              (Forall_impl _ _ _ Hall
                 (passes_tested self name email account_type
                    initial_balance))
              Hgen) as [out Hcall].
  unfold validation_order in Hall. rewrite !Forall_cons in Hall.
  destruct Hall as (_ & _ & _ & _ & H5 & _). unfold passes in H5.
  eexists. exists out. split; [exact Hcall|].
  unfold get_account. simpl.
  split; [exact Hfree|]. split; [apply lookup_insert_eq|].
  split; [intros k Hk; apply lookup_insert_ne; congruence|].
  split; [apply map_size_insert_None, Hfree|]. split; [reflexivity|].
  rewrite lookup_insert_eq. simpl.
  apply bool_decide_eq_true in H5.
  rewrite !elem_of_cons, elem_of_nil in H5.
  destruct H5 as [-> | [-> | []]]; [right|left]; split; reflexivity.
Qed.

(** X12. Whatever its arguments, [create_account] never removes or changes an
    account that is already in the store. *)
Theorem create_account_keeps_accounts (self b : bank) draws smtp_error now
    name email account_type initial_balance street postal city country out
    (k : string) (a : account) :
  create_account self draws smtp_error now name email account_type
    initial_balance street postal city country = Some (b, out) →
  get_account self k = Some a → get_account b k = Some a.
Proof.
  intros Hcall Hk. unfold get_account in *.
  apply create_account_cases in Hcall as [-> | (n & Hgen & _ & ->)];
    [exact Hk|].
  simpl. rewrite lookup_insert_ne; [exact Hk|].
  apply generated_number_is_free in Hgen.
  intros ->. congruence.
Qed.

Lemma new_account_email now name email account_type n initial_balance
    street postal city country :
  _email (new_account_of now name email account_type n initial_balance
            street postal city country) = Some email.
Proof. unfold new_account_of. destruct (bool_decide _); reflexivity. Qed.

(** If no two accounts of the store share an email, the same holds after
    [create_account], whatever its arguments. *)
Theorem create_account_keeps_emails_unique (self b : bank) draws smtp_error
    now name email account_type initial_balance street postal city country
    out :
  emails_unique self →
  create_account self draws smtp_error now name email account_type
    initial_balance street postal city country = Some (b, out) →
  emails_unique b.
Proof.
  intros Huniq Hcall.
  apply create_account_cases in Hcall as [-> | (n & Hgen & Hall & ->)];
    [exact Huniq|].
  unfold validation_order in Hall. rewrite !Forall_cons in Hall.
  destruct Hall as (_ & H2 & _). unfold tested, passes in H2.
  apply bool_decide_eq_true in H2.
  pose proof (proj1 (not_existing_email self email) H2) as Hfresh.
  intros k1 k2 a1 a2 e. simpl.
  rewrite !lookup_insert.
  destruct (decide (n = k1)) as [<-|Hk1], (decide (n = k2)) as [<-|Hk2];
    simpl.
  - reflexivity.
  - intros [= <-] Ha2 He1 He2. rewrite new_account_email in He1.
    injection He1 as <-. exfalso. exact (Hfresh k2 a2 Ha2 He2).
  - intros Ha1 [= <-] He1 He2. rewrite new_account_email in He2.
    injection He2 as <-. exfalso. exact (Hfresh k1 a1 Ha1 He1).
  - intros Ha1 Ha2. apply Huniq; assumption.
Qed.

(** X13. A failure of the mail session changes what is printed and nothing
    else: the store after the call is the same with and without it. *)
Theorem create_account_mail_is_best_effort (self : bank) draws now
    name email account_type initial_balance street postal city country
    (failure : string) :
  fst <$> create_account self draws (Some failure) now name email
            account_type initial_balance street postal city country
  = fst <$> create_account self draws None now name email
              account_type initial_balance street postal city country.
Proof.
  unfold create_account.
  repeat (match goal with
          | |- context [if ?c then _ else _] => destruct c; [reflexivity|]
          end).
  destruct (generate_account_number self draws); reflexivity.
Qed.

(** ** [load_data] *)

(** Starting from a missing file, from a file that does not parse, or from
    an empty mapping, the new [Bank] has no account. *)
Theorem Bank_init_starts_empty (now : string) (file : snapshot_file) :
  file = NoFile ∨ file = Unparsable ∨ file = Snapshot ∅ →
  (Bank_init now file).1 = ∅.
Proof. intros [-> | [-> | ->]]; reflexivity. Qed.

(** Each account of a loaded store is [from_dict] of the record saved under
    its number, and no other number is present. *)
Theorem Bank_init_lookup (now : string) (data : gmap string account_record)
    (k : string) :
  (Bank_init now (Snapshot data)).1 !! k
    = Account_from_dict now <$> data !! k.
Proof.
  unfold Bank_init, load_data.
  destruct (bool_decide (data ≠ ∅)) eqn:Hne; simpl.
  - apply lookup_fmap.
  - apply bool_decide_eq_false in Hne.
    assert (data = ∅) as -> by (destruct (decide (data = ∅)); tauto).
    rewrite !lookup_empty. reflexivity.
Qed.

(** X14. A [Bank] started from a parsed snapshot holds an account under exactly
    the numbers the snapshot has, and each one carries the account number,
    the email, the balance and the log of its record (balance 0 and an
    empty log when the record lacks them). *)
Theorem Bank_init_accounts (now : string)
    (data : gmap string account_record) :
  dom (Bank_init now (Snapshot data)).1 = dom data ∧
  ∀ k x, data !! k = Some x →
    ∃ a, (Bank_init now (Snapshot data)).1 !! k = Some a ∧
         _account_number a = r_account_number x ∧
         _email a = r_email x ∧
         _balance a = default 0 (r_balance x) ∧
         _transactions a = default [] (r_transactions x).
Proof.
  split.
  - apply set_eq. intros k. rewrite !elem_of_dom, Bank_init_lookup.
    destruct (data !! k); simpl; split; intros [y Hy]; eauto; discriminate.
  - intros k x Hk. rewrite Bank_init_lookup, Hk. simpl.
    eexists. split; [reflexivity|].
    rewrite Account_from_dict_unfold. repeat split.
Qed.

(** X15. Saving a store and starting a new [Bank] from the file gives the same
    accounts back, provided the class of every account agrees with its
    label. *)
Theorem save_then_load (now : string) (self : bank) :
  map_Forall (λ _ a, class_consistent a) (accounts self) →
  (Bank_init now (file_of (save_data self).1)).1 = accounts self.
Proof.
  intros Hall. apply map_eq. intros k.
  change (file_of (save_data self).1)
    with (Snapshot (to_dict <$> accounts self)).
  rewrite Bank_init_lookup, lookup_fmap.
  destruct (accounts self !! k) as [a|] eqn:Hk; simpl; [|reflexivity].
  f_equal. apply class_consistent_rebuilds. exact (Hall k a Hk).
Qed.

End StoreProperties.

Section AddressPattern.

(** ** Matching by derivatives is matching *)

Lemma append_nil_l (v : string) : "" +:+ v = v.
Proof. reflexivity. Qed.

Lemma append_cons (c : ascii) (u v : string) :
  String c u +:+ v = String c (u +:+ v).
Proof. reflexivity. Qed.

Lemma append_empty (u v : string) : u +:+ v = "" → u = "" ∧ v = "".
Proof.
  destruct u; rewrite ?append_nil_l, ?append_cons;
    [intros ->; split; reflexivity|discriminate].
Qed.

Lemma matches_nullable (r : regex) : matches r "" ↔ nullable r = true.
Proof.
  split.
  - intros Hm. remember "" as w eqn:Hw.
    induction Hm as [|p c Hp|r s u v w _ IHr _ IHs Hcat|r s w _ IH
                    |r s w _ IH|r|r u v w _ _ _ _ _]; subst; simpl;
      try reflexivity; try discriminate.
    + symmetry in Hcat. apply append_empty in Hcat as [-> ->].
      rewrite IHr, IHs; reflexivity.
    + rewrite IH; reflexivity.
    + rewrite IH, orb_true_r; reflexivity.
  - induction r as [| |p|r IHr s IHs|r IHr s IHs|r _]; simpl;
      try discriminate.
    + intros _. constructor.
    + intros [Hr Hs]%andb_true_iff.
      eapply matches_cat; [apply IHr, Hr|apply IHs, Hs|reflexivity].
    + intros [Hr | Hs]%orb_true_iff;
        [apply matches_alt_l, IHr, Hr|apply matches_alt_r, IHs, Hs].
    + intros _. constructor.
Qed.

(** A non-empty match of a star starts with a non-empty match of its body. *)
Lemma matches_star_cons_inv (r : regex) (c : ascii) (s : string) :
  matches (Star r) (String c s) →
  ∃ u v, s = u +:+ v ∧ matches r (String c u) ∧ matches (Star r) v.
Proof.
  intros Hm. remember (Star r) as q eqn:Hq.
  remember (String c s) as w eqn:Hw. revert s Hw.
  induction Hm as [| | | | | |r' u v w Hu _ Hv IHv Hcat]; intros t Hw;
    try discriminate.
  injection Hq as ->. subst w.
  destruct u as [|c' u]; rewrite ?append_nil_l, ?append_cons in Hw.
  - apply (IHv eq_refl t). exact Hw.
  - injection Hw as -> <-. exists u, v. repeat split; assumption.
Qed.

Lemma matches_deriv (r : regex) (c : ascii) (s : string) :
  matches (deriv c r) s ↔ matches r (String c s).
Proof.
  revert s. induction r as [| |p|r IHr q IHq|r IHr q IHq|r IHr];
    intros s; simpl.
  - split; intros Hm; inversion Hm.
  - split; intros Hm; inversion Hm.
  - destruct (p c) eqn:Hp; split; intros Hm; inversion Hm; subst.
    + constructor. exact Hp.
    + constructor.
    + congruence.
  - assert (matches (Cat (deriv c r) q) s → matches (Cat r q) (String c s))
      as Hstep.
    { intros Hm. inversion Hm as [| |? ? u v ? Hu Hv Hcat| | | |]; subst.
      eapply matches_cat; [apply IHr, Hu|exact Hv|reflexivity]. }
    split.
    + destruct (nullable r) eqn:Hnull; [|exact Hstep].
      intros Hm. inversion Hm as [| | |? ? ? Hl|? ? ? Hr| |]; subst.
      * apply Hstep, Hl.
      * eapply matches_cat;
          [apply matches_nullable, Hnull|apply IHq, Hr|reflexivity].
    + intros Hm. inversion Hm as [| |? ? u v ? Hu Hv Hcat| | | |]; subst.
      destruct u as [|c' u]; rewrite ?append_nil_l, ?append_cons in Hcat.
      * subst v. apply matches_nullable in Hu. rewrite Hu.
        apply matches_alt_r, IHq, Hv.
      * injection Hcat as <- ->.
        assert (matches (Cat (deriv c r) q) (u +:+ v)) as Hc
          by (eapply matches_cat; [apply IHr, Hu|exact Hv|reflexivity]).
        destruct (nullable r); [apply matches_alt_l|]; exact Hc.
  - split; intros Hm; inversion Hm; subst.
    + apply matches_alt_l, IHr. assumption.
    + apply matches_alt_r, IHq. assumption.
    + apply matches_alt_l, IHr. assumption.
    + apply matches_alt_r, IHq. assumption.
  - split.
    + intros Hm. inversion Hm as [| |? ? u v ? Hu Hv Hcat| | | |]; subst.
      eapply matches_star_cons; [apply IHr, Hu|exact Hv|reflexivity].
    + intros Hm. apply matches_star_cons_inv in Hm as (u & v & -> & Hu & Hv).
      eapply matches_cat; [apply IHr, Hu|exact Hv|reflexivity].
Qed.

Lemma full_match_matches (r : regex) (s : string) :
  full_match r s = true ↔ matches r s.
Proof.
  revert r. induction s as [|c s IH]; intros r; simpl.
  - symmetry. apply matches_nullable.
  - rewrite IH. apply matches_deriv.
Qed.

(** ** The pieces of the pattern *)

Lemma matches_cat_iff (r q : regex) (w : string) :
  matches (Cat r q) w ↔ ∃ u v, w = u +:+ v ∧ matches r u ∧ matches q v.
Proof.
  split.
  - intros Hm. inversion Hm; subst. eauto.
  - intros (u & v & -> & Hu & Hv). eapply matches_cat; eauto.
Qed.

Lemma matches_chars_iff (p : ascii → bool) (w : string) :
  matches (Chars p) w ↔ ∃ c, w = String c "" ∧ p c = true.
Proof.
  split.
  - intros Hm. inversion Hm; subst. eauto.
  - intros (c & -> & Hp). constructor. exact Hp.
Qed.

Lemma matches_char_iff (c : ascii) (w : string) :
  matches (Char c) w ↔ w = String c "".
Proof.
  unfold Char. rewrite matches_chars_iff. split.
  - intros (d & -> & Hd). apply bool_decide_eq_true in Hd. subst. reflexivity.
  - intros ->. exists c. split; [reflexivity|].
    apply bool_decide_eq_true. reflexivity.
Qed.

Lemma matches_star_chars (p : ascii → bool) (w : string) :
  matches (Star (Chars p)) w ↔ all_chars p w = true.
Proof.
  split.
  - intros Hm. remember (Star (Chars p)) as q eqn:Hq.
    induction Hm as [| | | | | |r u v w Hu _ _ IHv Hcat]; try discriminate.
    + reflexivity.
    + injection Hq as ->. subst w.
      apply matches_chars_iff in Hu as (c & -> & Hp).
      rewrite append_cons, append_nil_l. simpl.
      rewrite Hp, (IHv eq_refl). reflexivity.
  - induction w as [|c w IH]; simpl.
    + intros _. constructor.
    + intros [Hp Hw]%andb_true_iff.
      eapply (matches_star_cons _ (String c "") w);
        [constructor; exact Hp|apply IH, Hw|reflexivity].
Qed.

Lemma matches_plus_chars (p : ascii → bool) (w : string) :
  matches (Plus (Chars p)) w ↔ w ≠ "" ∧ all_chars p w = true.
Proof.
  unfold Plus. rewrite matches_cat_iff. split.
  - intros (u & v & -> & Hu & Hv).
    apply matches_chars_iff in Hu as (c & -> & Hp).
    apply matches_star_chars in Hv. rewrite append_cons, append_nil_l.
    simpl. rewrite Hp, Hv. split; [discriminate|reflexivity].
  - intros [Hne Hall]. destruct w as [|c w]; [contradiction|].
    simpl in Hall. apply andb_true_iff in Hall as [Hp Hw].
    exists (String c ""), w. split; [reflexivity|].
    split; [constructor; exact Hp|apply matches_star_chars, Hw].
Qed.

Lemma matches_dollar (w : string) :
  matches Dollar w ↔ w = "" ∨ w = newline.
Proof.
  unfold Dollar. split.
  - intros Hm. inversion Hm as [| | |? ? ? Hl|? ? ? Hr| |]; subst.
    + inversion Hl. left. reflexivity.
    + apply matches_char_iff in Hr. right. exact Hr.
  - intros [-> | ->]; [apply matches_alt_l; constructor|].
    apply matches_alt_r, matches_char_iff. reflexivity.
Qed.

(** What the pattern denotes. *)
Lemma email_pattern_denotes (email : string) :
  matches email_pattern email ↔ email_shape email.
Proof.
  unfold email_pattern, email_shape. split.
  - intros Hm.
    apply matches_cat_iff in Hm as (local & w1 & -> & Hlocal & Hm).
    apply matches_cat_iff in Hm as (at_ & w2 & -> & Hat & Hm).
    apply matches_cat_iff in Hm as (domain & w3 & -> & Hdomain & Hm).
    apply matches_cat_iff in Hm as (dot & w4 & -> & Hdot & Hm).
    apply matches_cat_iff in Hm as (tld & ending & -> & Htld & Hend).
    apply matches_char_iff in Hat as ->.
    apply matches_char_iff in Hdot as ->.
    apply matches_plus_chars in Hlocal, Hdomain, Htld.
    apply matches_dollar in Hend.
    exists local, domain, tld, ending. repeat split; tauto.
  - intros (local & domain & tld & ending & -> & Hl & Hd & Ht & He).
    apply matches_cat_iff. exists local. eexists.
    split; [reflexivity|]. split; [apply matches_plus_chars, Hl|].
    apply matches_cat_iff. exists "@". eexists.
    split; [reflexivity|]. split; [apply matches_char_iff; reflexivity|].
    apply matches_cat_iff. exists domain. eexists.
    split; [reflexivity|]. split; [apply matches_plus_chars, Hd|].
    apply matches_cat_iff. exists ".". eexists.
    split; [reflexivity|]. split; [apply matches_char_iff; reflexivity|].
    apply matches_cat_iff. exists tld, ending.
    split; [reflexivity|]. split; [apply matches_plus_chars, Ht|].
    apply matches_dollar, He.
Qed.

Lemma accepted_email_has_shape (email : string) :
  re_match_email email = true → email_shape email.
Proof.
  unfold re_match_email. intros Hm.
  apply email_pattern_denotes, full_match_matches, Hm.
Qed.

(** X16. [create_account] lets an email through its first check exactly when it
    has the shape [local@domain.tld]: a local part of letters, digits and
    [_.+-], an ["@"], a domain of letters, digits and [-], a ["."], and a
    last part of letters, digits, [-] and [.], all three not empty; one
    newline may follow. *)
Theorem re_match_email_shape (email : string) :
  re_match_email email = true ↔ email_shape email.
Proof.
  unfold re_match_email. rewrite full_match_matches.
  apply email_pattern_denotes.
Qed.

(** X17. An email that passes the syntax check is not empty, so the third check
    of [create_account] can only fail on an empty name. *)
Theorem nonempty_check_is_about_name `{PyBuiltins} (self : bank)
    (name email account_type : string) (initial_balance : float64) :
  passes self name email account_type initial_balance EmailSyntax = true →
  (passes self name email account_type initial_balance NameAndEmailNonEmpty
     = false ↔ name = "").
Proof.
  simpl. intros Hsyntax.
  apply accepted_email_has_shape in Hsyntax
    as (local & domain & tld & ending & -> & [Hl _] & _).
  assert (local +:+ "@" +:+ domain +:+ "." +:+ tld +:+ ending ≠ "") as Hne.
  { destruct local; [contradiction|rewrite append_cons; discriminate]. }
  rewrite (bool_decide_eq_true_2 _ Hne), andb_true_r.
  rewrite bool_decide_eq_false. split.
  - intros Hnn. destruct (decide (name = "")); [assumption|contradiction].
  - intros -> Hnn. apply Hnn. reflexivity.
Qed.

End AddressPattern.

Section InteractiveProperties.

Context `{PyBuiltins}.

(** ** What the prompts of [update_account_details] let through *)

Lemma ask_new_email_kept (taken : list (option string))
    (inputs rest : list string) (e : string) (out : list io_event) :
  ask_new_email taken inputs = Some (Some e, rest, out) →
  re_match_email e = true ∧ Some e ∉ taken.
Proof.
  revert rest out. induction inputs as [|line inputs IH]; intros rest out;
    simpl; [discriminate|].
  destruct (bool_decide (strip line = "")); [discriminate|].
  destruct (re_match_email (strip line)) eqn:Hmatch; simpl.
  - destruct (bool_decide (Some (strip line) ∈ taken)) eqn:Htaken.
    + destruct (ask_new_email taken inputs) as [[[kept rest'] shown]|];
        simpl; [|discriminate].
      intros [= -> <- _]. eapply IH. reflexivity.
    + apply bool_decide_eq_false in Htaken.
      intros [= <- _ _]. split; assumption.
  - destruct (ask_new_email taken inputs) as [[[kept rest'] shown]|];
      simpl; [|discriminate].
    intros [= -> <- _]. eapply IH. reflexivity.
Qed.

Lemma ask_field_kept (prompt too_short : string) (min_length : nat)
    (inputs rest : list string) (v : string) (out : list io_event) :
  ask_field prompt too_short min_length inputs = Some (Some v, rest, out) →
  (min_length ≤ String.length v)%nat ∧ v ≠ "".
Proof.
  unfold ask_field. destruct inputs as [|line inputs]; [discriminate|].
  destruct (bool_decide (strip line = "")) eqn:Hempty; [discriminate|].
  apply bool_decide_eq_false in Hempty.
  destruct (bool_decide (String.length (strip line) < min_length)%nat)
    eqn:Hshort; [discriminate|].
  apply bool_decide_eq_false in Hshort.
  intros [= <- _ _]. split; [lia|exact Hempty].
Qed.

Lemma not_other_email (self : bank) (n : string) (email : string) :
  Some email ∉ other_emails self n ↔
  ∀ k a, k ≠ n → accounts self !! k = Some a → _email a ≠ Some email.
Proof.
  unfold other_emails. rewrite not_existing_email. simpl. split.
  - intros Hnone k a Hk Ha. apply (Hnone k a).
    rewrite lookup_delete_ne; [exact Ha|congruence].
  - intros Hnone k a Ha.
    destruct (decide (k = n)) as [->|Hk].
    + rewrite lookup_delete_eq in Ha. discriminate.
    + rewrite lookup_delete_ne in Ha by congruence. exact (Hnone k a Hk Ha).
Qed.

(** All that [update_account_details] can do.  Either the number is
    unknown and nothing changes, not even a line of input is read; or the
    account under that number is replaced by one that differs from it at
    most in the name (not empty), the email (of the accepted shape and held
    by no other account), the street address (at least 5 characters) and
    the postal code, city and country (at least 3 characters each), and the
    snapshot is rewritten from the new store. *)
Theorem update_account_details_changes (self b : bank) (n : string)
    (inputs rest : list string) (out : list io_event) :
  update_account_details self n inputs = Some (b, rest, out) →
  (get_account self n = None ∧ b = self ∧ rest = inputs) ∨
  ∃ account name email street postal city country,
    get_account self n = Some account ∧
    b = (save_data
           {| accounts :=
                <[n := {| cls := cls account; _name := name;
                          _account_number := _account_number account;
                          _email := email; _balance := _balance account;
                          _account_type := _account_type account;
                          _street_address := street; _postal_code := postal;
                          _city := city; _country := country;
                          _transactions := _transactions account |}]>
                  (accounts self);
              bank_data_json := bank_data_json self |}).1 ∧
    kept_or (λ v, v ≠ "") (_name account) name ∧
    kept_or (λ v, email_shape v ∧ Some v ∉ other_emails self n)
      (_email account) email ∧
    kept_or (λ v, 5 ≤ String.length v)%nat (_street_address account) street ∧
    kept_or (λ v, 3 ≤ String.length v)%nat (_postal_code account) postal ∧
    kept_or (λ v, 3 ≤ String.length v)%nat (_city account) city ∧
    kept_or (λ v, 3 ≤ String.length v)%nat (_country account) country.
Proof.
  unfold update_account_details.
  destruct (get_account self n) as [account|] eqn:Hget;
    [|intros [= <- <- _]; left; repeat split].
  destruct inputs as [|line inputs1]; [discriminate|].
  destruct (ask_new_email (other_emails self n) inputs1)
    as [[[new_email inputs2] shown_e]|] eqn:He; simpl; [|discriminate].
  destruct (ask_field _ _ 5 inputs2)
    as [[[street inputs3] shown_s]|] eqn:Hs; simpl; [|discriminate].
  destruct (ask_field _ _ 3 inputs3)
    as [[[postal inputs4] shown_p]|] eqn:Hp; simpl; [|discriminate].
  destruct (ask_field _ _ 3 inputs4)
    as [[[city inputs5] shown_c]|] eqn:Hc; simpl; [|discriminate].
  destruct (ask_field _ _ 3 inputs5)
    as [[[country inputs6] shown_k]|] eqn:Hk; simpl; [|discriminate].
  intros [= <- _ _]. right.
  exists account,
    (if bool_decide (strip line = "") then _name account
     else Some (strip line)),
    (updated_with new_email (_email account)),
    (updated_with street (_street_address account)),
    (updated_with postal (_postal_code account)),
    (updated_with city (_city account)),
    (updated_with country (_country account)).
  split; [reflexivity|]. split.
  { destruct (bool_decide (strip line = "")), new_email; reflexivity. }
  split.
  { destruct (bool_decide (strip line = "")) eqn:Hname; [left; reflexivity|].
    apply bool_decide_eq_false in Hname. right. eauto. }
  split.
  { destruct new_email as [e|]; [|left; reflexivity]. right.
    apply ask_new_email_kept in He as [Hshape Hfree].
    apply accepted_email_has_shape in Hshape. eauto. }
  repeat split.
  - destruct street as [v|]; [|left; reflexivity]. right.
    apply ask_field_kept in Hs as [Hlen _]. eauto.
  - destruct postal as [v|]; [|left; reflexivity]. right.
    apply ask_field_kept in Hp as [Hlen _]. eauto.
  - destruct city as [v|]; [|left; reflexivity]. right.
    apply ask_field_kept in Hc as [Hlen _]. eauto.
  - destruct country as [v|]; [|left; reflexivity]. right.
    apply ask_field_kept in Hk as [Hlen _]. eauto.
Qed.

(** X18. The rules [update_account_details] enforces.  For an unknown number
    the store is as it was and no line was read.  Otherwise the account now
    stored under the number has a name that is the old one or is not empty,
    an email that is the old one or has the accepted shape and belongs to
    no other account, a street address that is the old one or has at least
    5 characters, a postal code, a city and a country that are the old ones
    or have at least 3 characters, and the snapshot holds the [to_dict] of
    every account of the store. *)
Theorem update_account_details_respects_rules (self b : bank) (n : string)
    (inputs rest : list string) (out : list io_event) :
  update_account_details self n inputs = Some (b, rest, out) →
  match get_account self n with
  | None => b = self ∧ rest = inputs
  | Some a =>
      ∃ a', get_account b n = Some a' ∧
        kept_or (λ v, v ≠ "") (_name a) (_name a') ∧
        kept_or (λ v, email_shape v ∧ Some v ∉ other_emails self n)
          (_email a) (_email a') ∧
        kept_or (λ v, 5 ≤ String.length v)%nat
          (_street_address a) (_street_address a') ∧
        kept_or (λ v, 3 ≤ String.length v)%nat
          (_postal_code a) (_postal_code a') ∧
        kept_or (λ v, 3 ≤ String.length v)%nat (_city a) (_city a') ∧
        kept_or (λ v, 3 ≤ String.length v)%nat (_country a) (_country a') ∧
        bank_data_json b = Some (to_dict <$> accounts b)
  end.
Proof.
  intros Hup. apply update_account_details_changes in Hup
    as [(Hget & -> & ->) | (account & name & email & street & postal & city &
                            country & Hget & -> & Hn & He & Hs & Hp & Hc &
                            Hk)];
    rewrite Hget; [split; reflexivity|].
  eexists. split; [apply lookup_insert_eq|]. simpl.
  repeat split; assumption.
Qed.

(** X19. [update_account_details] never touches a balance, a log, a class, a
    kind or an account number, adds or removes no account, and leaves every
    account other than the one named exactly as it was. *)
Theorem update_account_details_keeps_ledgers (self b : bank) (n : string)
    (inputs rest : list string) (out : list io_event) (k : string) :
  update_account_details self n inputs = Some (b, rest, out) →
  ledger_view <$> accounts b !! k = ledger_view <$> accounts self !! k ∧
  (k ≠ n → accounts b !! k = accounts self !! k).
Proof.
  intros Hup. apply update_account_details_changes in Hup
    as [(_ & -> & _) | (account & name & email & street & postal & city &
                         country & Hget & -> & _)].
  - split; reflexivity.
  - simpl. unfold get_account in Hget. split.
    + destruct (decide (n = k)) as [<-|Hne].
      * rewrite lookup_insert_eq, Hget. reflexivity.
      * rewrite lookup_insert_ne by exact Hne. reflexivity.
    + intros Hne. apply lookup_insert_ne. congruence.
Qed.

(** If no two accounts share an email, the same holds after
    [update_account_details], whatever the user typed. *)
Theorem update_account_details_keeps_emails_unique (self b : bank)
    (n : string) (inputs rest : list string) (out : list io_event) :
  emails_unique self →
  update_account_details self n inputs = Some (b, rest, out) →
  emails_unique b.
Proof.
  intros Huniq Hup. apply update_account_details_changes in Hup
    as [(_ & -> & _) | (account & name & email & street & postal & city &
                         country & Hget & -> & _ & Hemail & _)];
    [exact Huniq|].
  unfold get_account in Hget.
  assert (∀ k a e, k ≠ n → accounts self !! k = Some a →
                   _email a = Some e → email = Some e → False) as Hclash.
  { intros k a e Hk Ha Hae ->.
    destruct Hemail as [Hold | (v & [= ->] & _ & Hfree)].
    - apply Hk. exact (Huniq k n a account e Ha Hget Hae (eq_sym Hold)).
    - exact (proj1 (not_other_email self n v) Hfree k a Hk Ha Hae). }
  intros k1 k2 a1 a2 e. simpl. rewrite !lookup_insert.
  destruct (decide (n = k1)) as [<-|Hk1], (decide (n = k2)) as [<-|Hk2];
    simpl.
  - reflexivity.
  - intros [= <-] Ha2 He1 He2. simpl in He1. exfalso.
    apply (Hclash k2 a2 e); [congruence|assumption..].
  - intros Ha1 [= <-] He1 He2. simpl in He2. exfalso.
    apply (Hclash k1 a1 e); [congruence|assumption..].
  - intros Ha1 Ha2. apply Huniq; assumption.
Qed.

(** ** Choices 2 and 3 of the menu *)

Lemma bank_insert_same (self : bank) (n : string) (a : account) :
  accounts self !! n = Some a →
  {| accounts := <[n := a]> (accounts self);
     bank_data_json := bank_data_json self |} = self.
Proof. intros Hn. destruct self. simpl in *. rewrite insert_id; done. Qed.

(** What choice 2 does to the store.  With an unknown number or an amount
    [float] does not read, nothing changes.  Otherwise the account is
    replaced by the result of [deposit] and the snapshot is rewritten,
    whether or not the deposit was accepted. *)
Theorem menu_deposit_effect (self b : bank) (now : string)
    (inputs rest : list string) (out : list io_event) :
  menu_deposit self now inputs = Some (b, rest, out) →
  b = self ∨
  ∃ n account amount,
    get_account self n = Some account ∧
    accounts b = <[n := (deposit account now amount).1.2]> (accounts self) ∧
    bank_data_json b = Some (to_dict <$> accounts b).
Proof.
  unfold menu_deposit. destruct inputs as [|line inputs1]; [discriminate|].
  destruct (get_account self (strip line)) as [account|] eqn:Hget;
    [|intros [= <- _ _]; left; reflexivity].
  destruct inputs1 as [|text inputs2]; [discriminate|].
  destruct (float text) as [amount|];
    [|intros [= <- _ _]; left; reflexivity].
  intros [= <- _ _]. right. exists (strip line), account, amount.
  repeat split. exact Hget.
Qed.

(** What choice 3 does to the store when it returns.  Nothing changes
    unless the withdrawal is accepted; then the account is replaced by the
    result of [withdraw] and the snapshot is rewritten. *)
Theorem menu_withdraw_effect (self b : bank) (now : string)
    (inputs rest : list string) (out : list io_event) :
  menu_withdraw self now inputs = Some (Ok (b, rest, out)) →
  b = self ∨
  ∃ n account amount account' printed,
    get_account self n = Some account ∧
    withdraw account now amount = Ok (true, account', printed) ∧
    accounts b = <[n := account']> (accounts self) ∧
    bank_data_json b = Some (to_dict <$> accounts b).
Proof.
  unfold menu_withdraw. destruct inputs as [|line inputs1]; [discriminate|].
  destruct (get_account self (strip line)) as [account|] eqn:Hget;
    [|intros [= <- _ _]; left; reflexivity].
  destruct inputs1 as [|text inputs2]; [discriminate|].
  destruct (float text) as [amount|];
    [|intros [= <- _ _]; left; reflexivity].
  destruct (withdraw account now amount) as [[[ok account'] printed]|e]
    eqn:Hw; simpl; [|discriminate].
  destruct ok.
  - intros [= <- _ _]. right.
    exists (strip line), account, amount, account', printed.
    repeat split; assumption.
  - intros [= <- _ _]. left.
    assert (account' = account) as ->.
    { unfold withdraw in Hw. destruct (cls account); [discriminate| |].
      - unfold SavingsAccount_withdraw in Hw.
        destruct (_ <? amount); [congruence|].
        destruct (_ && _); congruence.
      - unfold CheckingAccount_withdraw in Hw.
        destruct (_ && _); congruence. }
    apply bank_insert_same. exact Hget.
Qed.

(** X20. Choosing to withdraw from an account that [from_dict] rebuilt as a
    plain [Account] ends the program: once the amount is read, the call
    raises [NotImplementedError], which nothing catches. *)
Theorem menu_withdraw_on_plain_account (self : bank) (now : string)
    (line text : string) (inputs : list string) (account : account)
    (amount : float64) :
  get_account self (strip line) = Some account →
  cls account = AccountBase →
  float text = Some amount →
  ∃ msg, menu_withdraw self now (line :: text :: inputs)
           = Some (Raise (NotImplementedError msg)).
Proof.
  intros Hget Hcls Hfloat. unfold menu_withdraw.
  rewrite Hget, Hfloat. unfold withdraw. rewrite Hcls.
  eexists. reflexivity.
Qed.

(** ** Invariants of the store under the menu *)

Lemma account_sound_deposit (a : account) now amount :
  account_sound a → account_sound (deposit a now amount).1.2.
Proof.
  intros [Hb Hlog]. unfold deposit.
  destruct (0 <? amount) eqn:Hpos; simpl; [|split; assumption].
  split.
  - simpl. apply add_keeps_sign_clear; assumption.
  - unfold balance_matches_log. simpl. rewrite last_snoc. reflexivity.
Qed.

Lemma account_sound_withdraw (a a' : account) now amount printed :
  account_sound a → withdraw a now amount = Ok (true, a', printed) →
  account_sound a'.
Proof.
  intros [Hb Hlog] Hw.
  apply withdraw_true_inv in Hw as (_ & Hpos & Hcov & _ & ->). split.
  - simpl. apply sub_keeps_sign_clear; assumption.
  - unfold balance_matches_log. simpl. rewrite last_snoc. reflexivity.
Qed.

Lemma store_sound_insert (self : bank) (n : string) (a : account) json :
  store_sound self → account_sound a →
  store_sound {| accounts := <[n := a]> (accounts self);
                 bank_data_json := json |}.
Proof.
  intros Hstore Ha k x. simpl. rewrite lookup_insert.
  destruct (decide (n = k)); simpl; [intros [= <-]; exact Ha|].
  apply Hstore.
Qed.

Lemma emails_unique_same_emails (self : bank) (n : string)
    (a a' : account) json :
  emails_unique self → accounts self !! n = Some a → _email a' = _email a →
  emails_unique {| accounts := <[n := a']> (accounts self);
                   bank_data_json := json |}.
Proof.
  intros Huniq Hn Hemail k1 k2 a1 a2 e. simpl. rewrite !lookup_insert.
  destruct (decide (n = k1)) as [<-|Hk1], (decide (n = k2)) as [<-|Hk2];
    simpl.
  - reflexivity.
  - intros [= <-] Ha2 He1 He2. rewrite Hemail in He1.
    exact (Huniq n k2 a a2 e Hn Ha2 He1 He2).
  - intros Ha1 [= <-] He1 He2. rewrite Hemail in He2.
    exact (Huniq k1 n a1 a e Ha1 Hn He1 He2).
  - intros Ha1 Ha2. apply Huniq; assumption.
Qed.

Lemma deposit_keeps_email (a : account) now amount :
  _email (deposit a now amount).1.2 = _email a.
Proof. unfold deposit. destruct (0 <? amount); reflexivity. Qed.

Lemma bank_of_fields (b : bank) accs json :
  accounts b = accs → bank_data_json b = json →
  b = {| accounts := accs; bank_data_json := json |}.
Proof. destruct b. simpl. intros -> ->. reflexivity. Qed.

Lemma menu_action_keeps_sound (self b : bank) :
  store_sound self → menu_action self b → store_sound b.
Proof.
  intros Hsound
    [draws smtp now name email kind ib st po ci co out Hcall
    |now inputs rest out Hcall
    |now inputs rest out Hcall
    |n inputs rest out Hcall].
  - apply create_account_cases in Hcall as [-> | (n & _ & Hall & ->)];
      [exact Hsound|].
    apply store_sound_insert; [exact Hsound|].
    unfold validation_order in Hall. rewrite !Forall_cons in Hall.
    destruct Hall as (_ & _ & _ & H4 & _). unfold tested in H4.
    apply negb_true_iff in H4.
    unfold new_account_of. destruct (bool_decide _); split;
      try exact H4; reflexivity.
  - apply menu_deposit_effect in Hcall
      as [-> | (n & account & amount & Hget & Haccs & Hjson)];
      [assumption|].
    rewrite (bank_of_fields b _ _ Haccs Hjson). unfold get_account in Hget.
    apply store_sound_insert; [exact Hsound|].
    apply account_sound_deposit. exact (Hsound n account Hget).
  - apply menu_withdraw_effect in Hcall
      as [-> | (n & account & amount & account' & printed & Hget & Hw &
                Haccs & Hjson)];
      [assumption|].
    rewrite (bank_of_fields b _ _ Haccs Hjson). unfold get_account in Hget.
    apply store_sound_insert; [exact Hsound|].
    eapply account_sound_withdraw; [exact (Hsound n account Hget)|exact Hw].
  - apply update_account_details_changes in Hcall
      as [(_ & -> & _) | (account & name & email & street & postal & city &
                           country & Hget & -> & _)];
      [exact Hsound|].
    unfold get_account in Hget.
    apply store_sound_insert; [exact Hsound|].
    exact (Hsound n account Hget).
Qed.

Lemma menu_action_keeps_emails_unique (self b : bank) :
  emails_unique self → menu_action self b → emails_unique b.
Proof.
  intros Huniq
    [draws smtp now name email kind ib st po ci co out Hcall
    |now inputs rest out Hcall
    |now inputs rest out Hcall
    |n inputs rest out Hcall].
  - eapply create_account_keeps_emails_unique; eassumption.
  - apply menu_deposit_effect in Hcall
      as [-> | (n & account & amount & Hget & Haccs & Hjson)];
      [assumption|].
    rewrite (bank_of_fields b _ _ Haccs Hjson). unfold get_account in Hget.
    eapply emails_unique_same_emails;
      [exact Huniq|exact Hget|apply deposit_keeps_email].
  - apply menu_withdraw_effect in Hcall
      as [-> | (n & account & amount & account' & printed & Hget & Hw &
                Haccs & Hjson)];
      [assumption|].
    rewrite (bank_of_fields b _ _ Haccs Hjson). unfold get_account in Hget.
    eapply emails_unique_same_emails; [exact Huniq|exact Hget|].
    apply withdraw_true_inv in Hw as (_ & _ & _ & _ & ->). reflexivity.
  - eapply update_account_details_keeps_emails_unique; eassumption.
Qed.

(** X21. Through any sequence of the actions of the menu that change the store
    (creating an account, depositing, withdrawing, updating details), with
    whatever is typed, [nan] and [inf] included: if at the start every
    balance is not below zero (the test [balance < 0] is false) and is the
    running balance of the last entry of its log, then the same holds at
    the end. *)
Theorem menu_session_keeps_balances_sound (self b : bank) :
  store_sound self → rtc menu_action self b → store_sound b.
Proof.
  intros Hsound Hsteps.
  induction Hsteps as [x|x y z Hstep _ IH]; [assumption|].
  apply IH. exact (menu_action_keeps_sound x y Hsound Hstep).
Qed.

(** X22. Through any sequence of the actions of the menu that change the store,
    with whatever is typed: if no two accounts share an email at the start,
    no two accounts share an email at the end. *)
Theorem menu_session_keeps_emails_unique (self b : bank) :
  emails_unique self → rtc menu_action self b → emails_unique b.
Proof.
  intros Huniq Hsteps.
  induction Hsteps as [x|x y z Hstep _ IH]; [assumption|].
  apply IH. exact (menu_action_keeps_emails_unique x y Huniq Hstep).
Qed.

(** X23. Whenever an action of the menu has changed the store, the snapshot on
    disk is the [to_dict] of every account of the store as it now is. *)
Theorem menu_action_is_saved (self b : bank) :
  menu_action self b →
  b = self ∨ bank_data_json b = Some (to_dict <$> accounts b).
Proof.
  intros [draws smtp now name email kind ib st po ci co out Hcall
         |now inputs rest out Hcall
         |now inputs rest out Hcall
         |n inputs rest out Hcall].
  - apply create_account_cases in Hcall as [-> | (n & _ & _ & ->)];
      [left|right]; reflexivity.
  - apply menu_deposit_effect in Hcall as [-> | (n & a & x & _ & _ & Hjson)];
      [left; reflexivity|right; exact Hjson].
  - apply menu_withdraw_effect in Hcall
      as [-> | (n & a & x & a' & pr & _ & _ & _ & Hjson)];
      [left; reflexivity|right; exact Hjson].
  - apply update_account_details_changes in Hcall
      as [(_ & -> & _) | (account & name & email & street & postal & city &
                           country & _ & -> & _)];
      [left|right]; reflexivity.
Qed.

End InteractiveProperties.

Section DialogueProperties.

Context `{PyBuiltins} `{PyText}.

(** ** The dialogue of choice 1 *)

(** The value a repeated prompt returns was read from the line just before
    the lines left, and every line before that one was turned down. *)
Lemma ask_until_accepts {A : Type} (prompt : string)
    (read : string → A + string) (inputs rest : list string) (a : A)
    (out : list io_event) :
  ask_until prompt read inputs = Some (a, rest, out) →
  ∃ before line,
    inputs = before ++ line :: rest ∧ read line = inl a ∧
    Forall (λ l, ∃ message, read l = inr message) before.
Proof.
  revert rest out. induction inputs as [|line inputs IH]; intros rest out;
    simpl; [discriminate|].
  destruct (read line) as [a'|message] eqn:Hread.
  - intros [= -> <- _]. exists [], line. repeat split; [exact Hread|].
    apply List.Forall_nil.
  - destruct (ask_until prompt read inputs) as [[[a' rest'] shown]|] eqn:Hrec;
      simpl; [|discriminate].
    intros [= -> <- _].
    destruct (IH rest' shown eq_refl) as (before & l & -> & Hl & Hbefore).
    exists (line :: before), l. repeat split; [exact Hl|].
    apply List.Forall_cons; [eauto|exact Hbefore].
Qed.

Lemma re_match_email_nonempty (email : string) :
  re_match_email email = true → email ≠ "".
Proof.
  intros (local & domain & tld & ending & -> & [Hl _] & _)%accepted_email_has_shape.
  destruct local; [contradiction|rewrite append_cons; discriminate].
Qed.

Lemma read_long_accepts (min_length : nat) (message line value : string) :
  read_long min_length message line = inl value →
  (min_length ≤ String.length value)%nat.
Proof.
  unfold read_long.
  destruct (bool_decide (String.length (strip line) < min_length)%nat)
    eqn:Hshort; [discriminate|].
  apply bool_decide_eq_false in Hshort. intros [= <-]. lia.
Qed.

(** While no draw is free, [create_account] has not returned. *)
Lemma create_account_waits (self : bank) draws smtp_error now
    name email account_type initial_balance street postal city country :
  Forall (λ c, tested self name email account_type initial_balance c = true)
    validation_order →
  generate_account_number self draws = None →
  create_account self draws smtp_error now name email account_type
    initial_balance street postal city country = None.
Proof.
  intros Hall Hgen.
  unfold validation_order in Hall. rewrite !Forall_cons in Hall.
  destruct Hall as (H1 & H2 & H3 & H4 & H5 & _).
  unfold tested, passes in H1, H2, H3, H4, H5. unfold create_account.
  apply negb_true_iff in H4.
  rewrite duplicate_guard, empty_guard, kind_guard.
  rewrite H1, H2, H3, H4, H5, Hgen. reflexivity.
Qed.

(** X24. What choice 1 of the menu can end in.  Either the email typed is
    already in the store: nothing changes and the last line shown says so.
    Or [create_account] was called with arguments that pass every one of
    its tests (every check of the specification, unless the initial
    deposit typed is [nan]), a free number was drawn, and the account is
    in the store and in the snapshot when the line "Account successfully
    created" is shown; its street address, city and country have at least
    5 characters and its postal code at least 6. *)
Theorem menu_create_outcome (self b : bank) (draws : list string)
    (smtp_error : option string) (now : string)
    (inputs rest : list string) (out : list io_event) :
  menu_create self draws smtp_error now inputs = Some (b, rest, out) →
  (b = self ∧
   last out = Some (Shown (Out (Print
     "An account with this email already exists. Please try again with a different email.")))) ∨
  ∃ n name email account_type initial_balance street postal city country,
    Forall (λ c, tested self name email account_type initial_balance c = true)
      validation_order ∧
    (is_nan initial_balance = false →
     Forall (λ c, passes self name email account_type initial_balance c
                  = true) validation_order) ∧
    generate_account_number self draws = Some n ∧
    accounts b =
      <[n := new_account_of now name email account_type n initial_balance
               (Some street) (Some postal) (Some city) (Some country)]>
        (accounts self) ∧
    bank_data_json b = Some (to_dict <$> accounts b) ∧
    (5 ≤ String.length street ∧ 6 ≤ String.length postal ∧
     5 ≤ String.length city ∧ 5 ≤ String.length country)%nat ∧
    last out = Some (Shown (Out (Print
      ("Account successfully created for " +:+ name +:+ ".")))).
Proof.
  unfold menu_create.
  destruct (ask_until _ read_name inputs)
    as [[[name inputs1] shown1]|] eqn:Hname; simpl; [|discriminate].
  destruct (ask_until _ read_email inputs1)
    as [[[email inputs2] shown2]|] eqn:Hemail; simpl; [|discriminate].
  destruct (ask_until _ read_account_type inputs2)
    as [[[kind inputs3] shown3]|] eqn:Hkind; simpl; [|discriminate].
  destruct (ask_until _ read_initial_balance inputs3)
    as [[[balance inputs4] shown4]|] eqn:Hbalance; simpl; [|discriminate].
  destruct (ask_until _ (read_long 5 _) inputs4)
    as [[[street inputs5] shown5]|] eqn:Hstreet; simpl; [|discriminate].
  destruct (ask_until _ (read_long 6 _) inputs5)
    as [[[postal inputs6] shown6]|] eqn:Hpostal; simpl; [|discriminate].
  destruct (ask_until _ (read_long 5 _) inputs6)
    as [[[city inputs7] shown7]|] eqn:Hcity; simpl; [|discriminate].
  destruct (ask_until _ (read_long 5 _) inputs7)
    as [[[country inputs8] shown8]|] eqn:Hcountry; simpl; [|discriminate].
  destruct (bool_decide (Some email ∈ existing_emails self)) eqn:Hdup.
  { intros [= <- _ <-]. left. split; [reflexivity|].
    rewrite !app_assoc. apply last_snoc. }
  apply bool_decide_eq_false in Hdup.
  apply ask_until_accepts in Hname as (_ & l1 & _ & Hname & _).
  apply ask_until_accepts in Hemail as (_ & l2 & _ & Hemail & _).
  apply ask_until_accepts in Hkind as (_ & l3 & _ & Hkind & _).
  apply ask_until_accepts in Hbalance as (_ & l4 & _ & Hbalance & _).
  apply ask_until_accepts in Hstreet as (_ & l5 & _ & Hstreet & _).
  apply ask_until_accepts in Hpostal as (_ & l6 & _ & Hpostal & _).
  apply ask_until_accepts in Hcity as (_ & l7 & _ & Hcity & _).
  apply ask_until_accepts in Hcountry as (_ & l8 & _ & Hcountry & _).
  apply read_long_accepts in Hstreet, Hpostal, Hcity, Hcountry.
  assert (Forall (λ c, tested self name email kind balance c = true)
            validation_order) as Hall.
  { unfold read_name in Hname. unfold read_email in Hemail.
    unfold read_account_type in Hkind.
    unfold read_initial_balance in Hbalance.
    destruct (bool_decide (strip l1 = "")) eqn:Hn; [discriminate|].
    apply bool_decide_eq_false in Hn. injection Hname as <-.
    destruct (re_match_email (strip l2)) eqn:He; [|discriminate].
    injection Hemail as <-.
    destruct (bool_decide (capitalize l3 ∉ ["Checking"; "Savings"])) eqn:Hk;
      [discriminate|].
    injection Hkind as <-.
    destruct (float l4) as [x|]; [|discriminate].
    destruct (x <? 0) eqn:Hb; [discriminate|].
    injection Hbalance as <-.
    unfold validation_order, tested, passes. rewrite Hb.
    rewrite <-(negb_involutive
                 (bool_decide (capitalize l3 ∈ ["Savings"; "Checking"]))),
      <-kind_guard, Hk.
    rewrite He, (bool_decide_eq_true_2 _ Hdup), (bool_decide_eq_true_2 _ Hn),
      (bool_decide_eq_true_2 _ (re_match_email_nonempty _ He)).
    repeat (apply List.Forall_cons; [reflexivity|]). apply List.Forall_nil. }
  destruct (generate_account_number self draws) as [n|] eqn:Hgen.
  - destruct (create_account_runs self draws smtp_error now name email
                kind balance (Some street) (Some postal) (Some city)
                (Some country) n Hall Hgen) as [created Hcall].
    rewrite Hcall. simpl. intros [= <- _ <-]. right.
    exists n, name, email, kind, balance, street, postal, city, country.
    split; [exact Hall|].
    split.
    { intros Hnum. eapply Forall_impl; [exact Hall|].
      intros c Hc. rewrite <-(tested_passes _ _ _ _ _ _ Hnum). exact Hc. }
    split; [reflexivity|]. simpl.
    split; [reflexivity|]. split; [reflexivity|].
    split; [repeat split; assumption|].
    rewrite !app_assoc. apply last_snoc.
  - rewrite (create_account_waits self draws smtp_error now name email kind
               balance _ _ _ _ Hall Hgen).
    discriminate.
Qed.

End DialogueProperties.

Section UserProperties.

Context `{PyText}.

(** ** [UserManager] *)

Lemma credentials_match_iff (self : user_manager) (name pass : string) :
  credentials_match self name pass = true ↔
  ∃ u, u ∈ users self ∧ username u = name ∧
       password u = sha256_hexdigest pass.
Proof.
  unfold credentials_match. rewrite existsb_exists. split.
  - intros (u & Hin & Hu). apply andb_true_iff in Hu as [Hn Hp].
    apply bool_decide_eq_true in Hn, Hp.
    exists u. split; [apply list_elem_of_In, Hin|split; assumption].
  - intros (u & Hin & Hn & Hp). exists u.
    split; [apply list_elem_of_In, Hin|].
    apply andb_true_iff. split; apply bool_decide_eq_true; assumption.
Qed.

(** Where the accepted credentials sit in the input, from each state. *)
Lemma login_from_accepts (self : user_manager) (state : login_state)
    (inputs rest : list string) (out : list io_event) :
  login_from self state inputs = Some (LoggedIn, rest, out) →
  (∃ before name pass,
     inputs = before ++ name :: pass :: rest ∧
     credentials_match self name pass = true) ∨
  (∃ name pass,
     state = WantPassword name ∧ inputs = pass :: rest ∧
     credentials_match self name pass = true).
Proof.
  revert state rest out.
  induction inputs as [|line inputs IH]; intros state rest out; simpl;
    [discriminate|].
  assert (∀ st r o,
            login_from self st inputs = Some (LoggedIn, r, o) →
            (∀ typed, st ≠ WantPassword typed) →
            ∃ before name pass,
              line :: inputs = before ++ name :: pass :: r ∧
              credentials_match self name pass = true) as Hlater.
  { intros st r o Hrun Hst.
    destruct (IH st r o Hrun)
      as [(before & name & pass & -> & Hm) | (name & pass & -> & -> & Hm)].
    - exists (line :: before), name, pass. split; [reflexivity|exact Hm].
    - exfalso. exact (Hst name eq_refl). }
  destruct state as [|typed|first].
  - destruct (login_from self (WantPassword line) inputs)
      as [[[r rest'] shown]|] eqn:Hrun; simpl; [|discriminate].
    intros [= -> <- _]. left.
    destruct (IH _ _ _ Hrun)
      as [(before & name & pass & -> & Hm) | (name & pass & [= <-] & -> & Hm)].
    + exists (line :: before), name, pass. split; [reflexivity|exact Hm].
    + exists [], line, pass. split; [reflexivity|exact Hm].
  - destruct (credentials_match self typed line) eqn:Hm.
    + intros [= <- _]. right. exists typed, line. repeat split. exact Hm.
    + destruct (login_from self (WantChoice true) inputs)
        as [[[r rest'] shown]|] eqn:Hrun; simpl; [|discriminate].
      intros [= -> <- _]. left. eapply Hlater; [exact Hrun|discriminate].
  - destruct (bool_decide (lower (strip line) ∉ ["yes"; "no"])).
    + destruct (login_from self (WantChoice false) inputs)
        as [[[r rest'] shown]|] eqn:Hrun; simpl; [|discriminate].
      intros [= -> <- _]. left. eapply Hlater; [exact Hrun|discriminate].
    + destruct (bool_decide (lower (strip line) = "no")); [discriminate|].
      destruct (login_from self WantUsername inputs)
        as [[[r rest'] shown]|] eqn:Hrun; simpl; [|discriminate].
      intros [= -> <- _]. left. eapply Hlater; [exact Hrun|discriminate].
Qed.

(** X25. [login] returns [True] only when the last two lines it read are a
    username and a password such that a stored user has that username and
    the SHA-256 digest of that password. *)
Theorem login_needs_credentials (self : user_manager)
    (inputs rest : list string) (out : list io_event) :
  login self inputs = Some (LoggedIn, rest, out) →
  ∃ before name pass u,
    inputs = before ++ name :: pass :: rest ∧
    u ∈ users self ∧ username u = name ∧
    password u = sha256_hexdigest pass.
Proof.
  intros Hrun. apply login_from_accepts in Hrun
    as [(before & name & pass & -> & Hm) | (name & pass & [=] & _)].
  apply credentials_match_iff in Hm as (u & Hin & Hn & Hp).
  exists before, name, pass, u. repeat split; assumption.
Qed.

(** X26. A user added with [add_user] logs in at the first attempt with the same
    username and password, and is written to the users file. *)
Theorem added_user_logs_in (self : user_manager) (name pass : string)
    (rest : list string) :
  ∃ out,
    login (add_user self name pass) (name :: pass :: rest)
      = Some (LoggedIn, rest, out) ∧
    users_json (add_user self name pass)
      = UsersList (users self ++
                   [{| username := name;
                       password := sha256_hexdigest pass |}]).
Proof.
  assert (credentials_match (add_user self name pass) name pass = true)
    as Hm.
  { apply credentials_match_iff.
    exists {| username := name; password := sha256_hexdigest pass |}.
    split; [|split; reflexivity].
    simpl. apply elem_of_app. right. apply list_elem_of_singleton.
    reflexivity. }
  eexists. split; [|reflexivity].
  unfold login. simpl login_from. rewrite Hm. reflexivity.
Qed.

(** X27. The program reaches the bank menu without having gone through [login]
    exactly when no user is stored (no file, a blank file or an empty list)
    and the username or the password typed for the initial admin is empty
    once stripped; no user is created then. *)
Theorem main_entry_without_login (file : users_file)
    (inputs rest : list string) (um : user_manager) :
  (∃ out, main_entry file inputs = Ok (Some (EnterBank um false, rest, out)))
  ↔
  (file = UsersMissing ∨ file = UsersBlank ∨ file = UsersList []) ∧
  um = {| users := []; users_json := file |} ∧
  ∃ line1 line2,
    inputs = line1 :: line2 :: rest ∧
    (strip line1 = "" ∨ strip line2 = "").
Proof.
  split.
  - intros [out Hrun]. unfold main_entry in Hrun.
    destruct (load_user_data file) as [um0|e] eqn:Hload; simpl in Hrun;
      [|discriminate].
    injection Hrun as Hrun.
    unfold setup_initial_admin in Hrun.
    destruct (users um0) as [|u0 us] eqn:Husers.
    + destruct inputs as [|line1 [|line2 inputs']]; try discriminate.
      destruct (bool_decide (strip line1 ≠ "") && bool_decide (strip line2 ≠ ""))
        eqn:Hboth; simpl in Hrun.
      * destruct (login _ inputs') as [[[r i2] s2]|]; simpl in Hrun;
          [destruct r|]; discriminate.
      * injection Hrun as <- <- _.
        assert (um0 = {| users := []; users_json := file |}
                ∧ (file = UsersMissing ∨ file = UsersBlank
                   ∨ file = UsersList [])) as [-> Hfile].
        { destruct file; simpl in Hload; try discriminate;
            injection Hload as <-; simpl in Husers; subst;
            split; auto. }
        split; [exact Hfile|]. split; [reflexivity|].
        exists line1, line2. split; [reflexivity|].
        apply andb_false_iff in Hboth as [Hb|Hb];
          apply bool_decide_eq_false in Hb; [left|right].
        -- destruct (decide (strip line1 = "")); tauto.
        -- destruct (decide (strip line2 = "")); tauto.
    + simpl in Hrun.
      destruct (login um0 inputs) as [[[r i2] s2]|]; simpl in Hrun;
        [destruct r|]; discriminate.
  - intros (Hfile & -> & line1 & line2 & -> & Hempty).
    assert (load_user_data file = Ok {| users := []; users_json := file |})
      as Hload by (destruct Hfile as [-> | [-> | ->]]; reflexivity).
    assert (bool_decide (strip line1 ≠ "") && bool_decide (strip line2 ≠ "")
            = false) as Hboth.
    { apply andb_false_iff.
      destruct Hempty as [He|He]; [left|right];
        apply bool_decide_eq_false; intros Hne; apply Hne, He. }
    unfold main_entry. rewrite Hload.
    unfold mbind at 1, res_bind. unfold setup_initial_admin.
    cbn [users]. rewrite Hboth. eexists. reflexivity.
Qed.

End UserProperties.

(** * The further properties on concrete inputs *)

Section MoreConcrete.

Import Sample MoreSamples.

Local Existing Instance decimal_builtins.
Local Existing Instance ascii_text.

Lemma balance_never_negative_witness :
  (_balance savings_700 <? 0) = false ∧
  (is_nan (_balance savings_700) = false → 0 ≤ _balance savings_700).
Proof.
  apply (balance_never_negative savings_500 savings_700).
  - reflexivity.
  - exact savings_700_reachable.
Defined.

(** On a Checking account opened with 0, a deposit and a withdrawal of
    [inf] both return [True] and leave the balance [nan], which is not
    below zero and not at least zero. *)
Example inf_in_inf_out_leaves_nan :
  float "inf" = Some infinity ∧
  ∃ a1 a2 out1 out2,
    deposit checking_0 later infinity = (true, a1, out1) ∧
    withdraw a1 later infinity = Ok (true, a2, out2) ∧
    is_nan (_balance a2) = true ∧
    (_balance a2 <? 0) = false ∧ (0 <=? _balance a2) = false.
Proof.
  split; [reflexivity|]. do 4 eexists.
  split; [reflexivity|]. split; [reflexivity|]. repeat split.
Qed.

Lemma nan_balance_is_stuck_witness :
  (∃ out, withdraw (set_balance checking_0 nan) later 50
            = Ok (false, set_balance checking_0 nan, out)) ∧
  (∀ self' out,
     deposit (set_balance checking_0 nan) later 50 = (true, self', out) →
     is_nan (_balance self') = true).
Proof.
  apply (nan_balance_is_stuck (set_balance checking_0 nan) later 50).
  - discriminate.
  - reflexivity.
Defined.

Lemma ledger_entries_chain_witness :
  ledger_chained (_transactions savings_700).
Proof.
  apply (ledger_entries_chain SavingsAccount opened (Some "Ann")
           (Some "1234567890") (Some "ann@example.org") 500
           "Savings" None None None None savings_700).
  exact savings_700_reachable.
Defined.

Lemma savings_large_deposit_witness :
  ∃ a1 out1 out2,
    deposit savings_500 opened 150 = (true, a1, out1) ∧
    withdraw a1 later 150 = Ok (false, a1, out2) ∧
    _balance a1 = _balance savings_500 + 150.
Proof.
  apply (savings_cannot_return_large_deposit savings_500 opened later
           150).
  - reflexivity.
  - reflexivity.
Defined.

Lemma program_account_round_trip_witness :
  Account_from_dict later (to_dict savings_700) = savings_700.
Proof.
  apply (program_account_round_trip opened later (Some "Ann")
           (Some "1234567890") (Some "ann@example.org") 500
           None None None None savings_500 savings_700).
  - left. reflexivity.
  - exact savings_700_reachable.
Defined.

Lemma statement_of_structured_log_witness :
  show_transaction_history savings_700 =
    (history_header savings_700 ++
     [ Tabulate (statement_row <$> _transactions savings_700)
         history_headers;
       Print (newline +:+ "Statement Summary:");
       Print ("Opening Balance: $" +:+
              format_2f (default 0 (float "500.00")));
       Print ("Closing Balance: $" +:+ format_2f (_balance savings_700));
       Print ("Total Transactions: " +:+
              str_int
                (Z.of_nat (length (_transactions savings_700)) - 1)%Z);
       Print (repeat_char "=" 50) ],
     None).
Proof.
  apply (statement_of_structured_log savings_700
           (creation_entry opened 500)
           [create_timestamped_entry later "Deposit" 200
              (500 + 200)]
           (default 0 (float "500.00"))).
  - reflexivity.
  - repeat (apply List.Forall_cons;
            [repeat split; eexists; reflexivity|]).
    apply List.Forall_nil.
  - vm_compute. reflexivity.
Defined.

Lemma legacy_reads_sample :
  Forall (λ x, legacy_reads x.1.1 x.1.2 x.2) legacy_log.
Proof.
  repeat (apply List.Forall_cons; [repeat split|]). apply List.Forall_nil.
Defined.

Lemma legacy_log_is_replayed_witness :
  ∃ v', history_loop
          {| running_balance := 0; action := None; amount := None;
             rows := [] |}
          ((λ x, x.1.1) <$> legacy_log) = Ok v' ∧
        rows v' = [] ++ replay_rows 0 legacy_log ∧
        running_balance v' = replay_balance 0 legacy_log.
Proof.
  apply (legacy_log_is_replayed legacy_log
           {| running_balance := 0; action := None; amount := None;
              rows := [] |}).
  exact legacy_reads_sample.
Defined.

Example legacy_log_ends_on_510 :
  replay_balance 0 legacy_log = 510.
Proof. reflexivity. Qed.

Lemma sample_checks_pass :
  Forall (λ c, passes empty_bank "Ann" "ann@example.org" "Savings"
                 500 c = true) validation_order.
Proof.
  repeat (apply List.Forall_cons; [reflexivity|]). apply List.Forall_nil.
Defined.

Lemma create_account_inserts_witness :
  ∃ b out,
    create_account empty_bank ["1234567890"] None opened "Ann"
      "ann@example.org" "Savings" 500 None None None None
      = Some (b, out) ∧
    get_account empty_bank "1234567890" = None ∧
    get_account b "1234567890"
      = Some (new_account_of opened "Ann" "ann@example.org" "Savings"
                "1234567890" 500 None None None None) ∧
    (∀ k, k ≠ "1234567890" → get_account b k = get_account empty_bank k) ∧
    size (accounts b) = S (size (accounts empty_bank)) ∧
    bank_data_json b = Some (to_dict <$> accounts b) ∧
    (("Savings" : string) = "Checking" ∧
       cls <$> get_account b "1234567890" = Some CheckingAccount
     ∨ ("Savings" : string) = "Savings" ∧
       cls <$> get_account b "1234567890" = Some SavingsAccount).
Proof.
  apply (create_account_inserts empty_bank ["1234567890"] None opened "Ann"
           "ann@example.org" "Savings" 500 None None None None
           "1234567890").
  - exact sample_checks_pass.
  - reflexivity.
Defined.

Lemma ann_created :
  create_account empty_bank ["1234567890"] None opened "Ann"
    "ann@example.org" "Savings" 500 None None None None
  = Some (bank_with_ann,
          [Out (Print "Data saved successfully!");
           Out (Print
             "Account created for Ann with account number 1234567890 as a Savings account.");
           SendMail "ann@example.org" "Ann" "1234567890" 500;
           Out (Print "Account details email sent to ann@example.org.")]).
Proof. vm_compute. reflexivity. Defined.

Lemma bob_created :
  create_account bank_with_ann ["1234567890"; "2345678901"] None later
    "Bob" "bob@example.org" "Checking" 25 None None None None
  = Some (bob_result.1, bob_result.2).
Proof. vm_compute. reflexivity. Defined.

Example bob_result_holds_two_accounts :
  size (accounts bob_result.1) = 2%nat ∧
  cls <$> get_account bob_result.1 "2345678901" = Some CheckingAccount.
Proof. split; vm_compute; reflexivity. Qed.

(** Bob's account is added to the store and Ann's account stays. *)
Lemma create_account_keeps_accounts_witness :
  get_account bob_result.1 "1234567890" = Some savings_500.
Proof.
  apply (create_account_keeps_accounts bank_with_ann bob_result.1
           ["1234567890"; "2345678901"] None later "Bob" "bob@example.org"
           "Checking" 25 None None None None bob_result.2
           "1234567890" savings_500).
  - exact bob_created.
  - reflexivity.
Defined.

(** A second call with Ann's email is refused. *)
Lemma eve_refused :
  create_account bob_result.1 ["3456789012"] None later "Eve"
    "ann@example.org" "Checking" 5 None None None None
  = Some (bob_result.1,
          [Out (Print "Error: An account with this email already exists!")]).
Proof. vm_compute. reflexivity. Defined.

Lemma emails_unique_empty : emails_unique empty_bank.
Proof. intros k1 k2 a1 a2 e Hk1. discriminate Hk1. Defined.

Lemma bank_with_ann_unique : emails_unique bank_with_ann.
Proof.
  eapply (create_account_keeps_emails_unique empty_bank bank_with_ann).
  - exact emails_unique_empty.
  - exact ann_created.
Defined.

Lemma save_then_load_witness :
  (Bank_init later (file_of (save_data bank_with_ann).1)).1
    = accounts bank_with_ann.
Proof.
  apply (save_then_load later bank_with_ann).
  apply map_Forall_singleton. reflexivity.
Defined.

Lemma nonempty_check_witness :
  passes empty_bank "" "ann@example.org" "Savings" 500
    NameAndEmailNonEmpty = false ↔ ("" : string) = "".
Proof.
  apply (nonempty_check_is_about_name empty_bank "" "ann@example.org"
           "Savings" 500).
  reflexivity.
Defined.

Lemma update_sample :
  update_account_details bank_with_ann "1234567890" update_lines
    = Some (update_result.1.1, update_result.1.2, update_result.2).
Proof. vm_compute. reflexivity. Defined.

Lemma update_account_details_changes_witness :
  (get_account bank_with_ann "1234567890" = None ∧
   update_result.1.1 = bank_with_ann ∧ update_result.1.2 = update_lines) ∨
  ∃ account name email street postal city country,
    get_account bank_with_ann "1234567890" = Some account ∧
    update_result.1.1 =
      (save_data
         {| accounts :=
              <["1234567890" :=
                  {| cls := cls account; _name := name;
                     _account_number := _account_number account;
                     _email := email; _balance := _balance account;
                     _account_type := _account_type account;
                     _street_address := street; _postal_code := postal;
                     _city := city; _country := country;
                     _transactions := _transactions account |}]>
                (accounts bank_with_ann);
            bank_data_json := bank_data_json bank_with_ann |}).1 ∧
    kept_or (λ v, v ≠ "") (_name account) name ∧
    kept_or (λ v, email_shape v ∧
                  Some v ∉ other_emails bank_with_ann "1234567890")
      (_email account) email ∧
    kept_or (λ v, 5 ≤ String.length v)%nat (_street_address account) street ∧
    kept_or (λ v, 3 ≤ String.length v)%nat (_postal_code account) postal ∧
    kept_or (λ v, 3 ≤ String.length v)%nat (_city account) city ∧
    kept_or (λ v, 3 ≤ String.length v)%nat (_country account) country.
Proof.
  apply (update_account_details_changes bank_with_ann update_result.1.1
           "1234567890" update_lines update_result.1.2 update_result.2).
  exact update_sample.
Defined.

Lemma update_keeps_ledgers_witness :
  ledger_view <$> accounts update_result.1.1 !! "1234567890"
    = ledger_view <$> accounts bank_with_ann !! "1234567890" ∧
  (("1234567890" : string) ≠ "1234567890" →
   accounts update_result.1.1 !! "1234567890"
     = accounts bank_with_ann !! "1234567890").
Proof.
  apply (update_account_details_keeps_ledgers bank_with_ann
           update_result.1.1 "1234567890" update_lines update_result.1.2
           update_result.2 "1234567890").
  exact update_sample.
Defined.

Lemma updated_bank_unique : emails_unique update_result.1.1.
Proof.
  apply (update_account_details_keeps_emails_unique bank_with_ann
           update_result.1.1 "1234567890" update_lines update_result.1.2
           update_result.2).
  - exact bank_with_ann_unique.
  - exact update_sample.
Defined.

Lemma deposit_sample :
  menu_deposit bank_with_ann later ["1234567890"; "200"]
    = Some (deposit_result.1.1, deposit_result.1.2, deposit_result.2).
Proof. vm_compute. reflexivity. Defined.

Lemma menu_deposit_effect_witness :
  deposit_result.1.1 = bank_with_ann ∨
  ∃ n account amount,
    get_account bank_with_ann n = Some account ∧
    accounts deposit_result.1.1
      = <[n := (deposit account later amount).1.2]>
          (accounts bank_with_ann) ∧
    bank_data_json deposit_result.1.1
      = Some (to_dict <$> accounts deposit_result.1.1).
Proof.
  apply (menu_deposit_effect bank_with_ann deposit_result.1.1 later
           ["1234567890"; "200"] deposit_result.1.2 deposit_result.2).
  exact deposit_sample.
Defined.

Lemma withdraw_sample :
  menu_withdraw bank_with_ann later ["1234567890"; "40"]
    = Some (Ok (withdraw_result.1.1, withdraw_result.1.2,
                withdraw_result.2)).
Proof. vm_compute. reflexivity. Defined.

Lemma menu_withdraw_effect_witness :
  withdraw_result.1.1 = bank_with_ann ∨
  ∃ n account amount account' printed,
    get_account bank_with_ann n = Some account ∧
    withdraw account later amount = Ok (true, account', printed) ∧
    accounts withdraw_result.1.1
      = <[n := account']> (accounts bank_with_ann) ∧
    bank_data_json withdraw_result.1.1
      = Some (to_dict <$> accounts withdraw_result.1.1).
Proof.
  apply (menu_withdraw_effect bank_with_ann withdraw_result.1.1 later
           ["1234567890"; "40"] withdraw_result.1.2 withdraw_result.2).
  exact withdraw_sample.
Defined.

Lemma menu_withdraw_on_plain_account_witness :
  ∃ msg, menu_withdraw bank_with_plain later ["1234567890"; "40"]
           = Some (Raise (NotImplementedError msg)).
Proof.
  apply (menu_withdraw_on_plain_account bank_with_plain later
           "1234567890" "40" []
           (Account_from_dict later record_without_kind) 40).
  - reflexivity.
  - reflexivity.
  - reflexivity.
Defined.

Lemma store_sound_empty : store_sound empty_bank.
Proof. intros k a Hk. discriminate Hk. Defined.

(** Ann's account is created, then 200 is deposited on it. *)
Lemma sample_session : rtc menu_action empty_bank deposit_result.1.1.
Proof.
  eapply rtc_l; [eapply action_create; exact ann_created|].
  eapply rtc_l; [eapply action_deposit; exact deposit_sample|].
  apply rtc_refl.
Defined.

Lemma menu_session_balances_witness : store_sound deposit_result.1.1.
Proof.
  apply (menu_session_keeps_balances_sound empty_bank deposit_result.1.1).
  - exact store_sound_empty.
  - exact sample_session.
Defined.

(** Ann's account is created, then Bob's, and a third call with Ann's
    email is refused. *)
Lemma two_account_session : rtc menu_action empty_bank bob_result.1.
Proof.
  eapply rtc_l; [eapply action_create; exact ann_created|].
  eapply rtc_l; [eapply action_create; exact bob_created|].
  eapply rtc_l; [eapply action_create; exact eve_refused|].
  apply rtc_refl.
Defined.

Lemma menu_session_emails_witness : emails_unique bob_result.1.
Proof.
  apply (menu_session_keeps_emails_unique empty_bank bob_result.1).
  - exact emails_unique_empty.
  - exact two_account_session.
Defined.

Lemma update_respects_rules_witness :
  match get_account bank_with_ann "1234567890" with
  | None =>
      update_result.1.1 = bank_with_ann ∧ update_result.1.2 = update_lines
  | Some a =>
      ∃ a', get_account update_result.1.1 "1234567890" = Some a' ∧
        kept_or (λ v, v ≠ "") (_name a) (_name a') ∧
        kept_or (λ v, email_shape v ∧
                      Some v ∉ other_emails bank_with_ann "1234567890")
          (_email a) (_email a') ∧
        kept_or (λ v, 5 ≤ String.length v)%nat
          (_street_address a) (_street_address a') ∧
        kept_or (λ v, 3 ≤ String.length v)%nat
          (_postal_code a) (_postal_code a') ∧
        kept_or (λ v, 3 ≤ String.length v)%nat (_city a) (_city a') ∧
        kept_or (λ v, 3 ≤ String.length v)%nat (_country a) (_country a') ∧
        bank_data_json update_result.1.1
          = Some (to_dict <$> accounts update_result.1.1)
  end.
Proof.
  apply (update_account_details_respects_rules bank_with_ann
           update_result.1.1 "1234567890" update_lines update_result.1.2
           update_result.2).
  exact update_sample.
Defined.

Lemma menu_action_is_saved_witness :
  deposit_result.1.1 = bank_with_ann ∨
  bank_data_json deposit_result.1.1
    = Some (to_dict <$> accounts deposit_result.1.1).
Proof.
  apply (menu_action_is_saved bank_with_ann deposit_result.1.1).
  eapply action_deposit. exact deposit_sample.
Defined.

Lemma create_sample :
  menu_create bank_with_ann ["1234567890"; "2345678901"] None later
    create_lines
  = Some (create_result.1.1, create_result.1.2, create_result.2).
Proof. vm_compute. reflexivity. Defined.

Lemma menu_create_outcome_witness :
  (create_result.1.1 = bank_with_ann ∧
   last create_result.2 = Some (Shown (Out (Print
     "An account with this email already exists. Please try again with a different email.")))) ∨
  ∃ n name email account_type initial_balance street postal city country,
    Forall (λ c, tested bank_with_ann name email account_type
                   initial_balance c = true) validation_order ∧
    (is_nan initial_balance = false →
     Forall (λ c, passes bank_with_ann name email account_type
                    initial_balance c = true) validation_order) ∧
    generate_account_number bank_with_ann ["1234567890"; "2345678901"]
      = Some n ∧
    accounts create_result.1.1 =
      <[n := new_account_of later name email account_type n initial_balance
               (Some street) (Some postal) (Some city) (Some country)]>
        (accounts bank_with_ann) ∧
    bank_data_json create_result.1.1
      = Some (to_dict <$> accounts create_result.1.1) ∧
    (5 ≤ String.length street ∧ 6 ≤ String.length postal ∧
     5 ≤ String.length city ∧ 5 ≤ String.length country)%nat ∧
    last create_result.2 = Some (Shown (Out (Print
      ("Account successfully created for " +:+ name +:+ ".")))).
Proof.
  apply (menu_create_outcome bank_with_ann create_result.1.1
           ["1234567890"; "2345678901"] None later create_lines
           create_result.1.2).
  exact create_sample.
Defined.

(** With ["nan"] typed as the initial deposit the dialogue goes through:
    the account is stored with the balance [nan], which fails the check
    [initial_balance ≥ 0] of the specification. *)
Example menu_create_takes_nan :
  ∃ b rest out a,
    menu_create bank_with_ann ["2345678901"] None later nan_lines
      = Some (b, rest, out) ∧
    get_account b "2345678901" = Some a ∧
    is_nan (_balance a) = true ∧
    passes bank_with_ann "Bob" "bob@example.org" "Checking" (_balance a)
      BalanceNonNegative = false.
Proof.
  do 4 eexists. split; [vm_compute; reflexivity|].
  split; [reflexivity|]. split; reflexivity.
Qed.

Example bob_is_created :
  cls <$> get_account create_result.1.1 "2345678901" = Some CheckingAccount.
Proof. vm_compute. reflexivity. Qed.

Lemma login_sample :
  login manager_with_admin
    ["admin"; "wrong"; "maybe"; "YES "; "admin"; "secret"; "1"]
  = Some (LoggedIn, ["1"],
          [Asked "Enter your username: "; Asked "Enter your password: ";
           Shown (Out (Print "Invalid username or password."));
           Asked "Would you like to try again? (yes/no): ";
           Asked "Please enter 'yes' or 'no': ";
           Asked "Enter your username: "; Asked "Enter your password: ";
           Shown (Out (Print "Login successful! Welcome!"))]).
Proof. vm_compute. reflexivity. Defined.

Lemma login_needs_credentials_witness :
  ∃ before name pass u,
    ["admin"; "wrong"; "maybe"; "YES "; "admin"; "secret"; "1"]
      = before ++ name :: pass :: ["1"] ∧
    u ∈ users manager_with_admin ∧ username u = name ∧
    password u = sha256_hexdigest pass.
Proof.
  eapply (login_needs_credentials manager_with_admin).
  exact login_sample.
Defined.

Example wrong_password_then_no_exits :
  ∃ out, login manager_with_admin ["admin"; "wrong"; "no"; "1"]
           = Some (Exited, ["1"], out).
Proof. eexists. vm_compute. reflexivity. Qed.

End MoreConcrete.
